(** * followertracker: relationship aggregation, recommendations and
      batched mutations

    A shallow embedding of the LSP26 client ([src/lib/supabase.ts], class
    [LSP26FollowerSystem]), of the dashboard statistics and the mutual
    connections page ([src/components/Dashboard.tsx]), of the
    recommendation flow and the handlers of its cards
    ([src/components/ProfileRecommendations.tsx]), of the management page
    with its bulk follow/unfollow handlers ([FollowerManagement]), of the
    followers and one-way pages ([src/components/Followers.tsx]) and of
    the image address formatting of [LSP3ProfileManager].

    Conventions of the embedding.
    - An account identifier is a [string]; [toLowerCase] is the ASCII
      lower-casing the code applies before every comparison.
    - A JS [number] holding a length, an index or a count is a [nat]; a
      [number] that goes through [/], [*] with a fraction, [Math.round],
      [Math.floor] or [Math.random] is an IEEE binary64 [float].
    - A JS [Set] or [Map] keeps insertion order: it is a duplicate-free list,
      respectively an association list.
    - [try { .. } catch { .. }] is [try_catch] in the [Result] monad;
      mutating code runs in the state-and-exception monad [M].
    - A [while] loop takes fuel; the theorems give fuel for which it ends.
    - [console.log] lines are not modelled; [console.warn] and
      [console.error] are recorded only in the mutation code, where the
      warning is the sole trace of a truncated batch. *)

From Stdlib Require Import ZArith List String Ascii Bool Arith Lia Permutation.
From Stdlib Require Import DecimalString Sorted.
From Stdlib Require Import PrimFloat FloatOps SpecFloat Uint63.
Import ListNotations.

Set Implicit Arguments.
Set Warnings "-inexact-float".

Definition AccountId := string.

(** ** The JavaScript runtime the code relies on *)

Module JS.

(** [String.prototype.toLowerCase] on the ASCII range (identifiers are
    [0x] followed by hexadecimal digits). *)
Definition lower_ascii (c : ascii) : ascii :=
  let n := nat_of_ascii c in
  if (65 <=? n) && (n <=? 90) then ascii_of_nat (n + 32) else c.

Fixpoint toLowerCase (s : string) : string :=
  match s with
  | EmptyString => EmptyString
  | String c r => String (lower_ascii c) (toLowerCase r)
  end.

(** [arr.slice(0, n)] and [arr.slice(a, b)] for [0 <= a <= b]. *)
Definition slice {A : Type} (a b : nat) (l : list A) : list A :=
  firstn (b - a) (skipn a l).

(** [arr.includes(x)] on strings. *)
Definition includes (l : list string) (x : string) : bool :=
  existsb (String.eqb x) l.

(** [new Set(arr)], [set.has], [set.size], [Array.from(set)]: a [Set] of
    strings iterates in insertion order, so it is the list of first
    occurrences. *)
Definition JSSet := list string.

Definition Set_has (s : JSSet) (x : string) : bool := includes s x.

Definition Set_add (s : JSSet) (x : string) : JSSet :=
  if Set_has s x then s else (s ++ [x])%list.

Definition Set_new (l : list string) : JSSet := fold_left Set_add l [].

Definition Set_size (s : JSSet) : nat := List.length s.

Definition Array_from (s : JSSet) : list string := s.

(** Template literals print a number in decimal. *)
Definition show_nat (n : nat) : string := NilEmpty.string_of_uint (Nat.to_uint n).

(** *** Numbers

    A [number] is an IEEE binary64 value.  [Math.round] and [Math.floor] go
    through the exact value [(-1)^s * m * 2^e] of the float. *)

Definition number_of_nat (n : nat) : float :=
  of_uint63 (Uint63.of_Z (Z.of_nat n)).

(** Exact for [|z| < 2^53], the only range it is used on. *)
Definition number_of_Z (z : Z) : float :=
  if (z <? 0)%Z then (- of_uint63 (Uint63.of_Z (- z)))%float
  else of_uint63 (Uint63.of_Z z).

Definition signed (s : bool) (m : positive) : Z :=
  if s then Z.neg m else Z.pos m.

(** [Math.floor]: NaN, the infinities, the zeros and every float with a
    non-negative exponent (an integer already) are returned unchanged. *)
Definition Math_floor (x : float) : float :=
  match Prim2SF x with
  | S754_finite s m e =>
    if (e <? 0)%Z then number_of_Z (signed s m / 2 ^ (- e))%Z else x
  | _ => x
  end.

(** [Math.round]: the integer nearest to [x], ties towards +infinity; a
    result of zero keeps the sign of [x]. *)
Definition Math_round (x : float) : float :=
  match Prim2SF x with
  | S754_finite s m e =>
    if (e <? 0)%Z then
      let r := ((2 * signed s m + 2 ^ (- e)) / 2 ^ (1 - e))%Z in
      if (r =? 0)%Z then (if s then (- 0)%float else 0%float)
      else number_of_Z r
    else x
  | _ => x
  end.

Definition Math_max (a b : float) : float :=
  if is_nan a || is_nan b then nan
  else if (a <? b)%float then b
  else if (b <? a)%float then a
  else if get_sign a then b else a.

Definition Math_min (a b : float) : float :=
  if is_nan a || is_nan b then nan
  else if (a <? b)%float then a
  else if (b <? a)%float then b
  else if get_sign a then a else b.

(** The integer a float holds, when it holds one. *)
Definition integer_of_number (x : float) : option Z :=
  match Prim2SF x with
  | S754_zero _ => Some 0%Z
  | S754_finite s m e =>
    if (e <? 0)%Z then
      if (signed s m mod 2 ^ (- e) =? 0)%Z then Some (signed s m / 2 ^ (- e))%Z
      else None
    else Some (signed s m * 2 ^ e)%Z
  | _ => None
  end.

Definition show_Z (z : Z) : string := NilEmpty.string_of_int (Z.to_int z).

(** [String(x)] for the numbers the code prints, which are integers. *)
Definition show_number (x : float) : string :=
  match integer_of_number x with
  | Some z => show_Z z
  | None => "NaN"
  end.

End JS.

(** ** Results of fallible calls *)

Inductive Result (A : Type) : Type :=
| Ok (a : A)
| Throw (e : string).
Arguments Ok {A} a.
Arguments Throw {A} e.

Definition ret {A : Type} (a : A) : Result A := Ok a.

Definition bind {A B : Type} (m : Result A) (k : A -> Result B) : Result B :=
  match m with
  | Ok a => k a
  | Throw e => Throw e
  end.

Definition try_catch {A : Type} (m : Result A) (h : string -> Result A) : Result A :=
  match m with
  | Ok a => Ok a
  | Throw e => h e
  end.

Declare Scope result_scope.
Delimit Scope result_scope with result.
Notation "x <- m ;; k" := (bind m (fun x => k))
  (at level 100, m at next level, right associativity) : result_scope.
Notation "' p <- m ;; k" := (bind m (fun x => let p := x in k))
  (at level 100, p pattern, m at next level, right associativity) : result_scope.

(** ** The ledger behind [publicClient.readContract]

    The LSP26 contract is external to the repository.  [PublicClient] is
    what the code sees of it: one fallible read per ABI function.  A
    [Ledger] is a fixed social graph, and [ledgerClient] the client whose
    reads all succeed on it. *)

Module Ledger.
Import JS.

Record PublicClient : Type := {
  followerCount : AccountId -> Result nat;
  followingCount : AccountId -> Result nat;
  getFollowersByIndex : AccountId -> nat -> nat -> Result (list AccountId);
  getFollowsByIndex : AccountId -> nat -> nat -> Result (list AccountId);
  isFollowing : AccountId -> AccountId -> Result bool
}.

(** [followersOf a] and [followsOf a] are the contract's enumerable sets for
    the account whose lower-cased identifier is [a], in index order. *)
Record Ledger : Type := {
  followersOf : AccountId -> list AccountId;
  followsOf : AccountId -> list AccountId
}.

(** The contract computes [endIndex - startIndex] in checked arithmetic and
    reads every index with a bounds check: a range that is not inside the
    set reverts. *)
Definition byIndex (l : list AccountId) (startIndex endIndex : nat)
  : Result (list AccountId) :=
  if (startIndex <=? endIndex) && (endIndex <=? List.length l)
  then Ok (slice startIndex endIndex l)
  else Throw "execution reverted".

Definition follows (L : Ledger) (a b : AccountId) : bool :=
  existsb (fun x => String.eqb (toLowerCase x) (toLowerCase b))
          (followsOf L (toLowerCase a)).

Definition ledgerClient (L : Ledger) : PublicClient := {|
  followerCount := fun a => Ok (List.length (followersOf L (toLowerCase a)));
  followingCount := fun a => Ok (List.length (followsOf L (toLowerCase a)));
  getFollowersByIndex := fun a s e => byIndex (followersOf L (toLowerCase a)) s e;
  getFollowsByIndex := fun a s e => byIndex (followsOf L (toLowerCase a)) s e;
  isFollowing := fun a b => Ok (follows L a b)
|}.

(** A client whose every read fails (RPC endpoint unreachable). *)
Definition unreachableClient : PublicClient := {|
  followerCount := fun _ => Throw "HTTP request failed";
  followingCount := fun _ => Throw "HTTP request failed";
  getFollowersByIndex := fun _ _ _ => Throw "HTTP request failed";
  getFollowsByIndex := fun _ _ _ => Throw "HTTP request failed";
  isFollowing := fun _ _ => Throw "HTTP request failed"
|}.

End Ledger.

(** ** The wallet behind [walletClient.sendTransaction], and the monad of
       the mutating code *)

Module Wallet.
Import JS.

(** The call data [encodeFunctionData] builds for the LSP26 contract. *)
Inductive Tx : Type :=
| Follow (addr : AccountId)
| Unfollow (addr : AccountId)
| FollowBatch (addresses : list AccountId)
| UnfollowBatch (addresses : list AccountId).

(** The browser side.  [walletClient] and [provider] tell whether the
    module-level objects are non-null; the two calls answer as a function
    of the transactions handed to the wallet so far. *)
Record Provider : Type := {
  walletClient : bool;
  provider : bool;
  requestAccounts : list Tx -> Result (list AccountId);
  sendTransaction : list Tx -> AccountId -> Tx -> Result string
}.

(** A line written by [console.warn] or by [console.error]; what
    [console.log] prints is not recorded. *)
Inductive LogLine : Type :=
| Warn (msg : string)
| Error (msg : string).

Inductive Toast : Type :=
| Loading (msg : string)
| Success (msg : string)
| Failure (msg : string).

(** What a run leaves behind: every transaction handed to the wallet, the
    ones it accepted (they are what reaches the ledger), the console and
    the toasts, each oldest first. *)
Record World : Type := {
  attempts : list Tx;
  sent : list Tx;
  console : list LogLine;
  toasts : list Toast
}.

Definition emptyWorld : World :=
  {| attempts := []; sent := []; console := []; toasts := [] |}.

Definition M (A : Type) : Type := World -> World * Result A.

Definition retM {A : Type} (a : A) : M A := fun w => (w, Ok a).

Definition throwM {A : Type} (e : string) : M A := fun w => (w, Throw e).

Definition bindM {A B : Type} (m : M A) (k : A -> M B) : M B :=
  fun w =>
    match m w with
    | (w', Ok a) => k a w'
    | (w', Throw e) => (w', Throw e)
    end.

(** The effects of the [try] block stay when the [catch] block runs. *)
Definition try_catchM {A : Type} (m : M A) (h : string -> M A) : M A :=
  fun w =>
    match m w with
    | (w', Ok a) => (w', Ok a)
    | (w', Throw e) => h e w'
    end.

Declare Scope m_scope.
Delimit Scope m_scope with m.
Notation "x <- m ;; k" := (bindM m (fun x => k))
  (at level 100, m at next level, right associativity) : m_scope.
Notation "m1 ;;; m2" := (bindM m1 (fun _ => m2))
  (at level 100, right associativity) : m_scope.

Definition console_warn (msg : string) : M unit :=
  fun w => ({| attempts := attempts w; sent := sent w;
               console := (console w ++ [Warn msg])%list;
               toasts := toasts w |}, Ok tt).

Definition console_error (msg : string) : M unit :=
  fun w => ({| attempts := attempts w; sent := sent w;
               console := (console w ++ [Error msg])%list;
               toasts := toasts w |}, Ok tt).

Definition toast (t : Toast) : M unit :=
  fun w => ({| attempts := attempts w; sent := sent w;
               console := console w;
               toasts := (toasts w ++ [t])%list |}, Ok tt).

Definition request (p : Provider) : M (list AccountId) :=
  fun w => (w, requestAccounts p (attempts w)).

Definition send (p : Provider) (from : AccountId) (tx : Tx) : M string :=
  fun w =>
    let r := sendTransaction p (attempts w) from tx in
    ({| attempts := (attempts w ++ [tx])%list;
        sent := match r with
                | Ok _ => (sent w ++ [tx])%list
                | Throw _ => sent w
                end;
        console := console w;
        toasts := toasts w |}, r).

(** [await Promise.all(arr.map(async x => ..))] and [for .. of] with an
    awaited body: the calls are taken one after the other, in array order. *)
Fixpoint mapM {A B : Type} (f : A -> M B) (l : list A) : M (list B) :=
  match l with
  | [] => retM []
  | x :: r =>
    bindM (f x) (fun y => bindM (mapM f r) (fun ys => retM (y :: ys)))
  end.

Fixpoint foldM {A S : Type} (f : S -> A -> M S) (l : list A) (s : S) : M S :=
  match l with
  | [] => retM s
  | x :: r => bindM (f s x) (fun s' => foldM f r s')
  end.

(** [arr.map((x, index) => ..)]. *)
Fixpoint mapi_from {A B : Type} (i : nat) (f : A -> nat -> B) (l : list A)
  : list B :=
  match l with
  | [] => []
  | x :: r => f x i :: mapi_from (S i) f r
  end.

Definition mapi {A B : Type} (f : A -> nat -> B) (l : list A) : list B :=
  mapi_from 0 f l.

End Wallet.

(** ** [LSP26FollowerSystem] ([src/lib/supabase.ts])

    [Number(data)] on a count is the count. *)

Module LSP26.
Import JS Ledger.
Local Open Scope result_scope.

Definition PAGE_SIZE : nat := 50.

Record MutualConnections : Type := {
  allFollowers : list AccountId;
  allFollowing : list AccountId;
  mutualConnections : list AccountId;
  mutualCount : nat
}.

Definition emptyConnections : MutualConnections := {|
  allFollowers := [];
  allFollowing := [];
  mutualConnections := [];
  mutualCount := 0
|}.

(** *** The reads *)

Section Reads.

(** The module-level [publicClient] is [null] outside a browser;
    [publicClient!.readContract] then throws a [TypeError]. *)
Variable publicClient : option PublicClient.

Definition readContract {A : Type} (f : PublicClient -> Result A) : Result A :=
  match publicClient with
  | Some c => f c
  | None => Throw "TypeError: Cannot read properties of null"
  end.

Definition getFollowerCount (address : AccountId) : Result nat :=
  try_catch
    (data <- readContract (fun c => followerCount c address) ;;
     ret data)
    (fun _ => ret 0).

Definition getFollowingCount (address : AccountId) : Result nat :=
  try_catch
    (data <- readContract (fun c => followingCount c address) ;;
     ret data)
    (fun _ => ret 0).

Definition getFollowers (address : AccountId) (startIndex : nat)
  : Result (list AccountId) :=
  try_catch
    (followerCount <- getFollowerCount address ;;
     if followerCount =? 0 then ret []
     else
       let endIndex := Nat.min (startIndex + PAGE_SIZE) followerCount in
       data <- readContract
                 (fun c => getFollowersByIndex c address startIndex endIndex) ;;
       ret data)
    (fun _ => ret []).

Definition getFollowing (address : AccountId) (startIndex : nat)
  : Result (list AccountId) :=
  try_catch
    (followingCount <- getFollowingCount address ;;
     if followingCount =? 0 then ret []
     else
       let endIndex := Nat.min (startIndex + PAGE_SIZE) followingCount in
       data <- readContract
                 (fun c => getFollowsByIndex c address startIndex endIndex) ;;
       ret data)
    (fun _ => ret []).

Definition getAllFollowers (address : AccountId) : Result (list AccountId) :=
  try_catch
    (followerCount <- getFollowerCount address ;;
     if followerCount =? 0 then ret []
     else
       data <- readContract
                 (fun c => getFollowersByIndex c address 0 followerCount) ;;
       ret data)
    (fun _ => ret []).

Definition getAllFollowing (address : AccountId) : Result (list AccountId) :=
  try_catch
    (followingCount <- getFollowingCount address ;;
     if followingCount =? 0 then ret []
     else
       data <- readContract
                 (fun c => getFollowsByIndex c address 0 followingCount) ;;
       ret data)
    (fun _ => ret []).

(** The loop [for (const addr of allFollowing)] that pushes the lower-cased
    identifiers found in [followerSet]. *)
Definition collectMutual (followerSet : JSSet) (allFollowing : list AccountId)
  : list AccountId :=
  filter (Set_has followerSet) (map toLowerCase allFollowing).

Definition getMutualConnections (address : AccountId) : Result MutualConnections :=
  try_catch
    (followerCount <- getFollowerCount address ;;
     followingCount <- getFollowingCount address ;;
     if (followerCount =? 0) || (followingCount =? 0) then ret emptyConnections
     else
       allFollowers <- getAllFollowers address ;;
       allFollowing <- getAllFollowing address ;;
       let followerSet := Set_new (map toLowerCase allFollowers) in
       let mutualConnections := collectMutual followerSet allFollowing in
       let uniqueMutualSet := Set_new mutualConnections in
       let mutualCount := Set_size uniqueMutualSet in
       ret {| allFollowers := allFollowers;
              allFollowing := allFollowing;
              mutualConnections := Array_from uniqueMutualSet;
              mutualCount := mutualCount |})
    (fun _ => ret emptyConnections).

Definition isFollowing (followerAddress targetAddress : AccountId) : Result bool :=
  try_catch
    (data <- readContract (fun c => Ledger.isFollowing c followerAddress targetAddress) ;;
     ret data)
    (fun _ => ret false).

End Reads.

(** *** The mutations *)

Import Wallet.
Local Close Scope result_scope.
Local Open Scope m_scope.

Definition MAX_BATCH_SIZE : nat := 50.

Section Writes.

Variable p : Provider.

(** The prelude shared by the four methods: both module objects must be
    there. *)
Definition requireWallet : M unit :=
  if negb (walletClient p) then throwM "WalletClient not found!"
  else if negb (provider p) then throwM "UP Provider not found!"
  else retM tt.

(** [provider.request({ method: 'eth_requestAccounts' })] and the check
    that follows; the result is [accounts[0]]. *)
Definition connectedAccount : M AccountId :=
  accounts <- request p ;;
  match accounts with
  | [] => throwM "Connected account not found!"
  | fromAddress :: _ => retM fromAddress
  end.

Definition follow (targetAddress : AccountId) : M bool :=
  try_catchM
    (requireWallet ;;;
     fromAddress <- connectedAccount ;;
     hash <- send p fromAddress (Follow targetAddress) ;;
     retM true)
    (fun error => console_error "Error following:" ;;; throwM error).

Definition unfollow (targetAddress : AccountId) : M bool :=
  try_catchM
    (requireWallet ;;;
     fromAddress <- connectedAccount ;;
     hash <- send p fromAddress (Unfollow targetAddress) ;;
     retM true)
    (fun error => console_error "Error unfollowing:" ;;; throwM error).

Definition capWarning : string :=
  "Batch operation supports a maximum of " ++ show_nat MAX_BATCH_SIZE
  ++ " addresses. Only the first " ++ show_nat MAX_BATCH_SIZE
  ++ " addresses will be processed.".

(** [if (targetAddresses.length > MAX_BATCH_SIZE) { warn; slice }]. *)
Definition capped (targetAddresses : list AccountId) : M (list AccountId) :=
  if MAX_BATCH_SIZE <? List.length targetAddresses
  then console_warn capWarning ;;; retM (slice 0 MAX_BATCH_SIZE targetAddresses)
  else retM targetAddresses.

Definition followMany (targetAddresses : list AccountId) : M bool :=
  try_catchM
    (requireWallet ;;;
     if List.length targetAddresses =? 0 then retM true
     else
       targetAddresses <- capped targetAddresses ;;
       fromAddress <- connectedAccount ;;
       hash <- send p fromAddress (FollowBatch targetAddresses) ;;
       retM true)
    (fun error => console_error "Error batch following:" ;;; throwM error).

Definition unfollowMany (targetAddresses : list AccountId) : M bool :=
  try_catchM
    (requireWallet ;;;
     if List.length targetAddresses =? 0 then retM true
     else
       targetAddresses <- capped targetAddresses ;;
       fromAddress <- connectedAccount ;;
       hash <- send p fromAddress (UnfollowBatch targetAddresses) ;;
       retM true)
    (fun error => console_error "Error batch unfollowing:" ;;; throwM error).

(** *** A call that is started and not waited for

    An [async] method runs up to its first [await] when it is called, and
    goes on when the awaited answer is there.  In [follow] and [unfollow]
    the first [await] is the one of the account request. *)

Inductive Started : Type :=
| ThrewAtOnce (error : string)
| Asked (answer : Result (list AccountId)).

(** The call up to its first [await]: the two checks, then the account
    request, made with the wallet as it is at that moment.  A check that
    throws is caught by the method's own [catch] block, which writes
    [logged] to the console and throws again. *)
Definition start (logged : string) : World -> World * Started :=
  fun w =>
    match requireWallet w with
    | (w', Ok _) => (w', Asked (requestAccounts p (attempts w')))
    | (w', Throw error) => (fst (console_error logged w'), ThrewAtOnce error)
    end.

(** The rest of the call. *)
Definition finish (logged : string) (tx : Tx) (s : Started) : M bool :=
  match s with
  | ThrewAtOnce error => throwM error
  | Asked answer =>
    try_catchM
      (accounts <- (fun w => (w, answer)) ;;
       match accounts with
       | [] => throwM "Connected account not found!"
       | fromAddress :: _ =>
         hash <- send p fromAddress tx ;;
         retM true
       end)
      (fun error => console_error logged ;;; throwM error)
  end.

End Writes.

(** *** [checkFollowRelation] *)

Record FollowRelation : Type := {
  address1FollowsAddress2 : bool;
  address2FollowsAddress1 : bool;
  isMutual : bool
}.

(** The two reads of [Promise.all] are taken in array order; the [catch]
    block throws the error again. *)
Definition checkFollowRelation (publicClient : option PublicClient)
  (address1 address2 : AccountId) : Result FollowRelation :=
  try_catch
    (bind (isFollowing publicClient address1 address2) (fun follows1to2 =>
     bind (isFollowing publicClient address2 address1) (fun follows2to1 =>
     ret {| address1FollowsAddress2 := follows1to2;
            address2FollowsAddress1 := follows2to1;
            isMutual := follows1to2 && follows2to1 |})))
    (fun error => Throw error).

End LSP26.

(** ** [LSP3ProfileManager.formatIPFSUrl] *)

Module LSP3.
Import JS.
Local Open Scope string_scope.

Definition IPFS_GATEWAYS : list string :=
  ["https://api.universalprofile.cloud/ipfs/";
   "https://2eff.lukso.dev/ipfs/";
   "https://ipfs.lukso.network/ipfs/";
   "https://cloudflare-ipfs.com/ipfs/";
   "https://ipfs.io/ipfs/"].

(** [s.startsWith(prefix)]. *)
Definition startsWith (s prefix : string) : bool := String.prefix prefix s.

(** [s.replace(pattern, replacement)] with a string pattern: the first
    occurrence only. *)
Definition replace (s pattern replacement : string) : string :=
  match String.index 0 pattern s with
  | Some n =>
    substring 0 n s ++ replacement
    ++ substring (n + String.length pattern)
                 (String.length s - (n + String.length pattern)) s
  | None => s
  end.

Definition formatIPFSUrl (url : string) : string :=
  if String.eqb url "" then ""
  else if startsWith url "http://" || startsWith url "https://" then url
  else if startsWith url "data:" then url
  else if startsWith url "ipfs://" then
    let ipfsHash := replace url "ipfs://" "" in
    nth 0 IPFS_GATEWAYS "" ++ ipfsHash
  else url.

End LSP3.
(** ** [Dashboard.fetchStats] ([src/components/Dashboard.tsx]) *)

Module Dashboard.
Import JS Ledger.
Local Open Scope result_scope.

Record Stats : Type := {
  followerCount : nat;
  followingCount : nat;
  mutualCount : nat;
  nonMutualCount : Z;
  nonFollowingBack : Z;
  suggestedProfiles : nat
}.

(** What [fetchStats] leaves in the component: nothing when no account is
    connected, the argument of [setStats], or the error toast. *)
Inductive Outcome : Type :=
| NotConnected
| SetStats (s : Stats)
| ToastError (msg : string).

(** [accounts[0]] is falsy when the array is empty or the string is. *)
Definition firstAccount (accounts : list AccountId) : option AccountId :=
  match accounts with
  | a :: _ => if String.eqb a "" then None else Some a
  | [] => None
  end.

Definition fetchStats (publicClient : option PublicClient)
  (isConnected : bool) (accounts : list AccountId) : Outcome :=
  match (if isConnected then firstAccount accounts else None) with
  | None => NotConnected
  | Some account =>
    match LSP26.getMutualConnections publicClient account with
    | Ok r =>
      let allFollowers := LSP26.allFollowers r in
      let allFollowing := LSP26.allFollowing r in
      let mutualCount := LSP26.mutualCount r in
      let nonMutualCount := (Z.of_nat (List.length allFollowers) - Z.of_nat mutualCount)%Z in
      let nonFollowingBack := (Z.of_nat (List.length allFollowing) - Z.of_nat mutualCount)%Z in
      let suggestedProfiles :=
        if (0 <? List.length allFollowers) || (0 <? List.length allFollowing) then 25 else 0 in
      SetStats {| followerCount := List.length allFollowers;
                  followingCount := List.length allFollowing;
                  mutualCount := mutualCount;
                  nonMutualCount := nonMutualCount;
                  nonFollowingBack := nonFollowingBack;
                  suggestedProfiles := suggestedProfiles |}
    | Throw _ =>
      ToastError "Could not load blockchain stats. Please try again later."
    end
  end.

(** *** [MutualConnections.fetchMutualConnections]

    The page is cut from [allProfilesData] by an effect on [currentPage];
    a fetch of a later page only records the page number. *)

Section MutualConnectionsPage.

Variable Profile : Type.
Variable publicClient : option PublicClient.

(** [profileManager.getProfileData], the metadata collaborator. *)
Variable getProfileData : AccountId -> Result (option Profile).

Definition pageSize : nat := 25.

Record ProfileData : Type := {
  address : AccountId;
  profile : option Profile
}.

Record PageState : Type := {
  profiles : list ProfileData;
  allProfilesData : list ProfileData;
  hasMore : bool;
  totalResults : nat;
  page : nat;
  pageError : option string
}.

(** The body of [for (const address of mutualConnections)]. *)
Definition profileRow (a : AccountId) : ProfileData :=
  {| address := a;
     profile := match getProfileData a with
                | Ok profileData => profileData
                | Throw _ => None
                end |}.

Definition fetchMutualConnections (isConnected : bool)
  (accounts : list AccountId) (newPage : nat) (st : PageState) : PageState :=
  match (if isConnected then firstAccount accounts else None) with
  | None => st
  | Some account =>
    if newPage =? 0 then
      match LSP26.getMutualConnections publicClient account with
      | Ok r =>
        let mutualProfiles := map profileRow (LSP26.mutualConnections r) in
        {| profiles := slice 0 pageSize mutualProfiles;
           allProfilesData := mutualProfiles;
           hasMore := pageSize <? List.length mutualProfiles;
           totalResults := List.length mutualProfiles;
           page := newPage;
           pageError := None |}
      | Throw _ =>
        {| profiles := profiles st;
           allProfilesData := allProfilesData st;
           hasMore := hasMore st;
           totalResults := totalResults st;
           page := page st;
           pageError := Some "Failed to load profiles. Please try again."%string |}
      end
    else
      {| profiles := profiles st;
         allProfilesData := allProfilesData st;
         hasMore := hasMore st;
         totalResults := totalResults st;
         page := newPage;
         pageError := None |}
  end.

End MutualConnectionsPage.

End Dashboard.

(** ** [ProfileRecommendations.generateRecommendations]
       ([src/components/ProfileRecommendations.tsx]) *)

Module Recommendations.
Import JS Ledger.
Local Open Scope result_scope.

(** The value type of the [candidateProfiles] map. *)
Record CandidateData : Type := {
  mutualCount : nat;
  sources : list AccountId
}.

(** [Map<string, ..>]: keys are compared as strings (case-sensitively) and
    iterate in insertion order; [set] on a present key keeps its place. *)
Definition CandidateMap := list (AccountId * CandidateData).

Fixpoint Map_get (m : CandidateMap) (k : AccountId) : option CandidateData :=
  match m with
  | [] => None
  | (k', v) :: r => if String.eqb k k' then Some v else Map_get r k
  end.

Fixpoint Map_set (m : CandidateMap) (k : AccountId) (v : CandidateData)
  : CandidateMap :=
  match m with
  | [] => [(k, v)]
  | (k', v') :: r =>
    if String.eqb k k' then (k, v) :: r else (k', v') :: Map_set r k v
  end.

Definition Map_size (m : CandidateMap) : nat := List.length m.

(** An entry [[address, data]] is an array object: [ref] is its identity,
    which is what [indexOf] compares. *)
Record Entry : Type := {
  ref : nat;
  entry_address : AccountId;
  entry_data : CandidateData
}.

(** [Array.from(map.entries())] allocates one array per entry, from
    reference [next] on. *)
Fixpoint entries (next : nat) (m : CandidateMap) : list Entry :=
  match m with
  | [] => []
  | (k, v) :: r =>
    {| ref := next; entry_address := k; entry_data := v |} :: entries (S next) r
  end.

(** [arr.indexOf(obj)]: the first index holding that very object, or -1. *)
Fixpoint indexOf (l : list Entry) (r : nat) : Z :=
  match l with
  | [] => (-1)%Z
  | e :: l' =>
    if ref e =? r then 0%Z
    else let i := indexOf l' r in if (i <? 0)%Z then (-1)%Z else (i + 1)%Z
  end.

(** [arr.sort(cmp)] is stable: an element moves in front of another only
    when the comparator says so. *)
Fixpoint insert_sorted (cmp : Entry -> Entry -> Z) (e : Entry) (l : list Entry)
  : list Entry :=
  match l with
  | [] => [e]
  | x :: r =>
    if (0 <? cmp e x)%Z then x :: insert_sorted cmp e r else e :: x :: r
  end.

Definition sort (cmp : Entry -> Entry -> Z) (l : list Entry) : list Entry :=
  fold_right (insert_sorted cmp) [] l.

Definition byMutualCountDesc (a b : Entry) : Z :=
  (Z.of_nat (mutualCount (entry_data b)) - Z.of_nat (mutualCount (entry_data a)))%Z.

Section Flow.

Variable Profile : Type.

Record SourceProfile : Type := {
  source_address : AccountId;
  source_profile : option Profile
}.

Record RecommendedProfile : Type := {
  address : AccountId;
  profile : option Profile;
  score : float;
  reason : string;
  mutualFollowers : nat;
  mutualFollowerSources : list SourceProfile
}.

(** What the flow leaves in the component: nothing, the argument of
    [setRecommendations], or a call of [generateRandomRecommendations]
    (after [setError] when the outer handler was reached). *)
Inductive Outcome : Type :=
| NotConnected
| SetRecommendations (l : list RecommendedProfile)
| RandomRecommendations (error : option string).

Variable publicClient : option PublicClient.

(** [profileManager.getProfileData], the metadata collaborator. *)
Variable getProfileData : AccountId -> Result (option Profile).

(** [random k] is what the [k]-th call of [Math.random()] returns. *)
Variable random : nat -> float.

Definition batchSize : nat := 100.

(** The [while (hasMore)] loops: fetch the page at [page * batchSize],
    append it, go on while the page is exactly [batchSize] long.  [None]
    when the fuel runs out. *)
Fixpoint paginate (fuel : nat) (getPage : nat -> Result (list AccountId))
  (page : nat) (all : list AccountId) : option (Result (list AccountId)) :=
  match fuel with
  | 0 => None
  | S fuel' =>
    match getPage (page * batchSize) with
    | Throw e => Some (Throw e)
    | Ok batch =>
      let all := (all ++ batch)%list in
      if List.length batch =? batchSize
      then paginate fuel' getPage (page + 1) all
      else Some (Ok all)
    end
  end.

Definition fetchFollowers (fuel : nat) (account : AccountId) :=
  paginate fuel (LSP26.getFollowers publicClient account) 0 [].

Definition fetchFollowing (fuel : nat) (account : AccountId) :=
  paginate fuel (LSP26.getFollowing publicClient account) 0 [].

Definition mutualFollowersOf (allFollowers : list AccountId) (followingSet : JSSet)
  : list AccountId :=
  filter (fun address => Set_has followingSet (toLowerCase address)) allFollowers.

Definition extendedNetworkOf (mutualFollowers allFollowers allFollowing : list AccountId)
  : list AccountId :=
  (slice 0 20 mutualFollowers ++ slice 0 20 allFollowers ++ slice 0 20 allFollowing)%list.

(** The body of the two inner [for] loops. *)
Definition addCandidate (account : AccountId) (followingSet : JSSet)
  (networkAddress : AccountId) (candidateProfiles : CandidateMap)
  (potentialAddress : AccountId) : CandidateMap :=
  if String.eqb (toLowerCase potentialAddress) (toLowerCase account)
     || Set_has followingSet (toLowerCase potentialAddress)
  then candidateProfiles
  else
    let existingData :=
      match Map_get candidateProfiles potentialAddress with
      | Some d => d
      | None => {| mutualCount := 0; sources := [] |}
      end in
    let existingData :=
      {| mutualCount := mutualCount existingData + 1;
         sources := if includes (sources existingData) networkAddress
                    then sources existingData
                    else (sources existingData ++ [networkAddress])%list |} in
    Map_set candidateProfiles potentialAddress existingData.

(** One turn of [for (const networkAddress of extendedNetwork)]: what was
    written to the map before an exception stays written. *)
Definition expand (account : AccountId) (followingSet : JSSet)
  (candidateProfiles : CandidateMap) (networkAddress : AccountId) : CandidateMap :=
  match LSP26.getFollowing publicClient networkAddress 0 with
  | Throw _ => candidateProfiles
  | Ok networkFollowing =>
    let candidateProfiles :=
      fold_left (addCandidate account followingSet networkAddress)
                networkFollowing candidateProfiles in
    match LSP26.getFollowers publicClient networkAddress 0 with
    | Throw _ => candidateProfiles
    | Ok networkFollowers =>
      fold_left (addCandidate account followingSet networkAddress)
                networkFollowers candidateProfiles
    end
  end.

Definition sortedCandidatesOf (candidateProfiles : CandidateMap) : list Entry :=
  slice 0 50 (sort byMutualCountDesc (entries 0 candidateProfiles)).

(** The re-verification fetch; on an exception the first list is used. *)
Definition refetchFollowing (fuel : nat) (account : AccountId)
  (allFollowing : list AccountId) : option (list AccountId) :=
  match fetchFollowing fuel account with
  | None => None
  | Some (Ok currentFollowing) => Some currentFollowing
  | Some (Throw _) => Some allFollowing
  end.

Definition reasonOf (data : CandidateData) (extendedNetwork : list AccountId)
  : string :=
  let mutualFollowerPercent :=
    Math_round ((number_of_nat (mutualCount data)
                 / number_of_nat (List.length extendedNetwork)) * 100)%float in
  if (70 <? mutualFollowerPercent)%float then
    "Highly popular profile in your network. " ++ show_nat (mutualCount data)
    ++ " of your connections follow this profile."
  else if (50 <? mutualFollowerPercent)%float then
    "Popular profile among your connections. Followed by "
    ++ show_number (Math_round mutualFollowerPercent) ++ "% of your network."
  else if (30 <? mutualFollowerPercent)%float then
    "Recommended by several mutual connections. " ++ show_nat (mutualCount data)
    ++ " connections in common."
  else if 0 <? mutualCount data then
    "Followed by " ++ show_nat (mutualCount data) ++ " of your connections."
  else "Growing profile in the LUKSO ecosystem.".

Definition networkSizeWeight : float := 0.7%float.
Definition recentActivityWeight : float := 0.3%float.

(** The state the last loop threads: how many [Math.random()] values were
    drawn, and the next object reference to allocate. *)
Record LoopState : Type := {
  draws : nat;
  nextRef : nat
}.

(** The score of one candidate.  [[address, data]] in the [indexOf] call is
    a new array, allocated at [nextRef]. *)
Definition scoreOf (mutualFollowers extendedNetwork : list AccountId)
  (sortedCandidates : list Entry) (data : CandidateData) (st : LoopState)
  : float * LoopState :=
  let '(weightedScore, st) :=
    if 0 <? List.length mutualFollowers
    then (Math_round ((number_of_nat (mutualCount data)
                       / number_of_nat (List.length extendedNetwork))
                      * 100 * networkSizeWeight)%float, st)
    else ((Math_floor (random (draws st) * 36) + 60)%float,
          {| draws := S (draws st); nextRef := nextRef st |}) in
  let fresh := nextRef st in
  let st := {| draws := draws st; nextRef := S (nextRef st) |} in
  let isRecentProfile := (indexOf sortedCandidates fresh <? 20)%Z in
  let weightedScore :=
    if isRecentProfile
    then (weightedScore + Math_round (20 * recentActivityWeight))%float
    else weightedScore in
  (Math_min 98 (Math_max 50 weightedScore), st).

Definition fetchProfile (address : AccountId) : option Profile :=
  match getProfileData address with
  | Ok profileData => profileData
  | Throw _ => None
  end.

Definition sourcesWithProfilesOf (data : CandidateData) : list SourceProfile :=
  map (fun sourceAddress =>
         {| source_address := sourceAddress;
            source_profile := fetchProfile sourceAddress |})
      (slice 0 10 (sources data)).

(** The body of [for (const [address, data] of sortedCandidates)]: [None]
    when the candidate is skipped or its turn ends in the [catch]. *)
Definition processCandidate (account : AccountId)
  (currentFollowingSet : JSSet)
  (mutualFollowers extendedNetwork : list AccountId)
  (sortedCandidates : list Entry) (e : Entry) (st : LoopState)
  : option RecommendedProfile * LoopState :=
  let address := entry_address e in
  let data := entry_data e in
  if Set_has currentFollowingSet (toLowerCase address) then (None, st)
  else
    match LSP26.isFollowing publicClient account address with
    | Throw _ => (None, st)
    | Ok true => (None, st)
    | Ok false =>
      let profile := fetchProfile address in
      let reason := reasonOf data extendedNetwork in
      let '(weightedScore, st) :=
        scoreOf mutualFollowers extendedNetwork sortedCandidates data st in
      let sourcesWithProfiles := sourcesWithProfilesOf data in
      (Some {| address := address;
               profile := profile;
               score := weightedScore;
               reason := reason;
               mutualFollowers := mutualCount data;
               mutualFollowerSources := sourcesWithProfiles |}, st)
    end.

Fixpoint processCandidates (account : AccountId) (currentFollowingSet : JSSet)
  (mutualFollowers extendedNetwork : list AccountId)
  (sortedCandidates : list Entry) (todo : list Entry) (st : LoopState)
  (recommendationsList : list RecommendedProfile) : list RecommendedProfile :=
  match todo with
  | [] => recommendationsList
  | e :: todo' =>
    let '(r, st) :=
      processCandidate account currentFollowingSet mutualFollowers
                       extendedNetwork sortedCandidates e st in
    processCandidates account currentFollowingSet mutualFollowers
      extendedNetwork sortedCandidates todo' st
      match r with
      | Some rec => (recommendationsList ++ [rec])%list
      | None => recommendationsList
      end
  end.

Definition failed : string :=
  "Failed to generate recommendations. Please try again later.".

(** [generateRecommendations]; [None] when a pagination loop needs more
    than [fuel] turns. *)
Definition generateRecommendations (fuel : nat) (isConnected : bool)
  (accounts : list AccountId) : option Outcome :=
  match (if isConnected then Dashboard.firstAccount accounts else None) with
  | None => Some NotConnected
  | Some account =>
    match fetchFollowers fuel account with
    | None => None
    | Some (Throw _) => Some (RandomRecommendations (Some failed))
    | Some (Ok allFollowers) =>
    match fetchFollowing fuel account with
    | None => None
    | Some (Throw _) => Some (RandomRecommendations (Some failed))
    | Some (Ok allFollowing) =>
      let followingSet := Set_new (map toLowerCase allFollowing) in
      if (List.length allFollowers =? 0) && (List.length allFollowing =? 0)
      then Some (RandomRecommendations None)
      else
        let mutualFollowers := mutualFollowersOf allFollowers followingSet in
        let extendedNetwork :=
          extendedNetworkOf mutualFollowers allFollowers allFollowing in
        let candidateProfiles :=
          fold_left (expand account followingSet) extendedNetwork [] in
        if Map_size candidateProfiles =? 0
        then Some (RandomRecommendations None)
        else
          let sortedCandidates := sortedCandidatesOf candidateProfiles in
          match refetchFollowing fuel account allFollowing with
          | None => None
          | Some currentFollowing =>
            let currentFollowingSet :=
              Set_new (map toLowerCase currentFollowing) in
            let recommendationsList :=
              processCandidates account currentFollowingSet mutualFollowers
                extendedNetwork sortedCandidates sortedCandidates
                {| draws := 0; nextRef := Map_size candidateProfiles |} [] in
            if List.length recommendationsList <? 5
            then Some (RandomRecommendations None)
            else Some (SetRecommendations recommendationsList)
          end
    end
    end
  end.

End Flow.

(** *** The handlers of the recommendation cards

    The toasts of one handler share an [id]; the calls are recorded in
    order. *)

Section Cards.
Import Wallet.
Local Close Scope result_scope.
Local Open Scope m_scope.

Variable Profile : Type.
Variable publicClient : option PublicClient.
Variable p : Provider.

(** A recommendation as the component keeps it, with the optional
    [isSelected]. *)
Record Card : Type := {
  card : RecommendedProfile Profile;
  isSelected : option bool
}.

Definition truthy (b : option bool) : bool :=
  match b with
  | Some true => true
  | _ => false
  end.

(** [recommendations.filter(rec => rec.isSelected).map(rec => rec.address)]. *)
Definition selectedProfilesOf (recommendations : list Card) : list AccountId :=
  map (fun rec => address (card rec))
      (filter (fun rec => truthy (isSelected rec)) recommendations).

Definition handleSkip (a : AccountId) (recommendations : list Card) : list Card :=
  filter (fun rec => negb (String.eqb (address (card rec)) a)) recommendations.

Definition toggleProfileSelection (a : AccountId) (recommendations : list Card)
  : list Card :=
  map (fun rec =>
         if String.eqb (address (card rec)) a
         then {| card := card rec;
                 isSelected := Some (negb (truthy (isSelected rec))) |}
         else rec) recommendations.

(** A read of the ledger inside mutating code. *)
Definition read {A : Type} (r : Result A) : M A :=
  match r with
  | Ok a => retM a
  | Throw e => throwM e
  end.

Definition handleFollow (isConnected : bool) (accounts : list AccountId)
  (a : AccountId) (recommendations : list Card) : M (list Card) :=
  match (if isConnected then Dashboard.firstAccount accounts else None) with
  | None => retM recommendations
  | Some account =>
    try_catchM
      (toast (Loading ("Following " ++ a ++ "...")) ;;;
       isAlreadyFollowing <- read (LSP26.isFollowing publicClient account a) ;;
       if (isAlreadyFollowing : bool) then
         toast (Success "You're already following this profile") ;;;
         retM (handleSkip a recommendations)
       else
         LSP26.follow p a ;;;
         toast (Success "Followed successfully!") ;;;
         retM (handleSkip a recommendations))
      (fun _ =>
         console_error "Error following:" ;;;
         toast (Failure "Failed to follow profile.") ;;;
         retM recommendations)
  end.

(** One turn of [for (const address of selectedProfiles)]. *)
Definition keepUnfollowed (account : AccountId)
  (validProfilesToFollow : list AccountId) (a : AccountId)
  : M (list AccountId) :=
  isAlreadyFollowing <- read (LSP26.isFollowing publicClient account a) ;;
  if negb isAlreadyFollowing then retM (validProfilesToFollow ++ [a])%list
  else retM validProfilesToFollow.

Definition handleBulkFollow (isConnected : bool) (accounts : list AccountId)
  (recommendations : list Card) : M (list Card) :=
  let selectedProfiles := selectedProfilesOf recommendations in
  let remaining :=
    filter (fun rec => negb (includes selectedProfiles (address (card rec))))
           recommendations in
  match (if isConnected then Dashboard.firstAccount accounts else None) with
  | None => retM recommendations
  | Some account =>
    if List.length selectedProfiles =? 0 then retM recommendations
    else
      try_catchM
        (toast (Loading ("Following " ++ show_nat (List.length selectedProfiles)
                         ++ " profiles...")) ;;;
         validProfilesToFollow <- foldM (keepUnfollowed account)
                                        selectedProfiles [] ;;
         if List.length validProfilesToFollow =? 0 then
           toast (Success "All selected profiles are already being followed") ;;;
           retM remaining
         else
           LSP26.followMany p validProfilesToFollow ;;;
           toast (Success ("Successfully followed "
                           ++ show_nat (List.length validProfilesToFollow)
                           ++ " profiles!")) ;;;
           retM remaining)
        (fun _ =>
           console_error "Error bulk following:" ;;;
           toast (Failure "Failed to follow profiles. Please try again.") ;;;
           retM recommendations)
  end.

End Cards.

End Recommendations.

(** ** [FollowerManagement]: bulk follow and unfollow of selected followers

    [saveFollowersToDatabase] catches its own errors and only writes to the
    history database; it is left out. *)

Module FollowerManagement.
Import JS Wallet.
Local Open Scope m_scope.

Inductive Mode : Type :=
| Following
| Unfollowing.

Record FollowResult : Type := {
  result_address : AccountId;
  success : bool;
  error : option string
}.

Section Handlers.

Variable Profile : Type.

Record FollowerData : Type := {
  address : AccountId;
  isMutual : bool;
  isFollowing : bool;
  isSelected : bool;
  profile : option Profile
}.

Variable p : Provider.

(** [followers.filter(f => f.isSelected && !f.isFollowing)], respectively
    [f.isSelected && f.isFollowing]. *)
Definition eligible (mode : Mode) (f : FollowerData) : bool :=
  match mode with
  | Following => isSelected f && negb (isFollowing f)
  | Unfollowing => isSelected f && isFollowing f
  end.

Definition single (mode : Mode) : AccountId -> M bool :=
  match mode with
  | Following => LSP26.follow p
  | Unfollowing => LSP26.unfollow p
  end.

Definition many (mode : Mode) : list AccountId -> M bool :=
  match mode with
  | Following => LSP26.followMany p
  | Unfollowing => LSP26.unfollowMany p
  end.

Definition noneSelected (mode : Mode) : string :=
  match mode with
  | Following =>
    "No followers selected or all selected followers are already being followed"
  | Unfollowing =>
    "No followers selected or none of the selected followers are being followed"
  end.

Definition loadingMessage (mode : Mode) (n : nat) : string :=
  match mode with
  | Following => "Following " ++ show_nat n ++ " profiles..."
  | Unfollowing => "Unfollowing " ++ show_nat n ++ " profiles..."
  end.

Definition successMessage (mode : Mode) (successCount : nat) : string :=
  match mode with
  | Following => "Successfully followed " ++ show_nat successCount ++ " profiles"
  | Unfollowing => "Successfully unfollowed " ++ show_nat successCount ++ " profiles"
  end.

Definition partialMessage (mode : Mode) (successCount n : nat) : string :=
  match mode with
  | Following =>
    "Followed " ++ show_nat successCount ++ " of " ++ show_nat n ++ " profiles"
  | Unfollowing =>
    "Unfollowed " ++ show_nat successCount ++ " of " ++ show_nat n ++ " profiles"
  end.

Definition errorFor (mode : Mode) (a : AccountId) : string :=
  match mode with
  | Following => "Error following " ++ a ++ ":"
  | Unfollowing => "Error unfollowing " ++ a ++ ":"
  end.

Definition batchError (mode : Mode) : string :=
  match mode with
  | Following => "Error in batch follow operation:"
  | Unfollowing => "Error in batch unfollow operation:"
  end.

Definition operationError (mode : Mode) : string :=
  match mode with
  | Following => "Error in follow operation:"
  | Unfollowing => "Error in unfollow operation:"
  end.

Definition operationFailed (mode : Mode) (message : string) : string :=
  let message := if String.eqb message "" then "Unknown error"%string else message in
  match mode with
  | Following => "Follow operation failed: " ++ message
  | Unfollowing => "Unfollow operation failed: " ++ message
  end.

Definition succeeded (a : AccountId) : FollowResult :=
  {| result_address := a; success := true; error := None |}.

Definition failed (a : AccountId) (e : string) : FollowResult :=
  {| result_address := a; success := false; error := Some e |}.

(** One account on its own, inside its own [try]/[catch]. *)
Definition attempt (mode : Mode) (follower : FollowerData) : M FollowResult :=
  try_catchM
    (single mode (address follower) ;;; retM (succeeded (address follower)))
    (fun e =>
       console_error (errorFor mode (address follower)) ;;;
       retM (failed (address follower) e)).

(** The branch for one selected profile. *)
Definition singleBranch (mode : Mode) (selectedFollowers : list FollowerData)
  : M (list FollowResult) :=
  match selectedFollowers with
  | follower :: _ => r <- attempt mode follower ;; retM [r]
  | [] => retM []
  end.

(** The [try] block of the branch for several profiles. *)
Definition batched (mode : Mode) (selectedFollowers : list FollowerData)
  : M (list FollowResult) :=
  let addresses := map address selectedFollowers in
  if LSP26.MAX_BATCH_SIZE <? List.length addresses then
    let limitedAddresses := slice 0 LSP26.MAX_BATCH_SIZE addresses in
    many mode limitedAddresses ;;;
    retM (mapi (fun address index =>
                  {| result_address := address;
                     success := index <? LSP26.MAX_BATCH_SIZE;
                     error := None |}) addresses)
  else
    many mode addresses ;;;
    retM (map succeeded addresses).

(** The call of [single] up to its first [await], and its rest. *)
Definition singleStart (mode : Mode) : World -> World * LSP26.Started :=
  match mode with
  | Following => LSP26.start p "Error following:"
  | Unfollowing => LSP26.start p "Error unfollowing:"
  end.

Definition singleFinish (mode : Mode) (a : AccountId) (s : LSP26.Started)
  : M bool :=
  match mode with
  | Following => LSP26.finish p "Error following:" (Follow a) s
  | Unfollowing => LSP26.finish p "Error unfollowing:" (Unfollow a) s
  end.

(** [selectedFollowers.map(async follower => ..)]: one call per selected
    profile is started, in array order, and each runs up to its first
    [await] before the next is started. *)
Fixpoint startAll (mode : Mode) (selectedFollowers : list FollowerData)
  : World -> World * list (FollowerData * LSP26.Started) :=
  fun w =>
    match selectedFollowers with
    | [] => (w, [])
    | follower :: rest =>
      let '(w1, s) := singleStart mode w in
      let '(w2, started) := startAll mode rest w1 in
      (w2, (follower, s) :: started)
    end.

(** The rest of one callback: the [await] of the call inside its own
    [try]/[catch]. *)
Definition settle (mode : Mode) (started : FollowerData * LSP26.Started)
  : M FollowResult :=
  let '(follower, s) := started in
  try_catchM
    (singleFinish mode (address follower) s ;;;
     retM (succeeded (address follower)))
    (fun e =>
       console_error (errorFor mode (address follower)) ;;;
       retM (failed (address follower) e)).

(** Its [catch] block: [await Promise.all(selectedFollowers.map(async ..))].
    All the calls are started before any of them goes on, so every
    account request is made before a transaction is handed to the wallet,
    and every request sees the wallet as it was when the block was
    entered.  The calls then go on in the order in which they were
    started: the wallet is taken to answer one call at a time, in the
    order in which it is asked, and what a call does with an answer is
    done before the next answer comes.  [Promise.all] gives the results
    in array order. *)
Definition individually (mode : Mode) (selectedFollowers : list FollowerData)
  : M (list FollowResult) :=
  fun w =>
    let '(w', started) := startAll mode selectedFollowers w in
    mapM (settle mode) started w'.

Definition batchBranch (mode : Mode) (selectedFollowers : list FollowerData)
  : M (list FollowResult) :=
  try_catchM
    (batched mode selectedFollowers)
    (fun _ =>
       console_error (batchError mode) ;;;
       individually mode selectedFollowers).

Definition successCountOf (results : list FollowResult) : nat :=
  List.length (filter success results).

Definition marked (mode : Mode) (follower : FollowerData) : FollowerData :=
  match mode with
  | Following =>
    {| address := address follower; isMutual := true; isFollowing := true;
       isSelected := isSelected follower; profile := profile follower |}
  | Unfollowing =>
    {| address := address follower; isMutual := false; isFollowing := false;
       isSelected := isSelected follower; profile := profile follower |}
  end.

(** [followers.map(follower => ..)] with
    [results.find(r => r.address === follower.address)]. *)
Definition updatedFollowersOf (mode : Mode) (results : list FollowResult)
  (followers : list FollowerData) : list FollowerData :=
  map (fun follower =>
         match find (fun r => String.eqb (result_address r) (address follower))
                    results with
         | Some result => if success result then marked mode follower else follower
         | None => follower
         end) followers.

(** The handler, from the [followers] state to the [followers] state. *)
Definition handleSelected (mode : Mode) (isConnected : bool)
  (accounts : list AccountId) (followers : list FollowerData)
  : M (list FollowerData) :=
  match (if isConnected then Dashboard.firstAccount accounts else None) with
  | None => retM followers
  | Some _ =>
    let selectedFollowers := filter (eligible mode) followers in
    if List.length selectedFollowers =? 0
    then toast (Failure (noneSelected mode)) ;;; retM followers
    else
      try_catchM
        (toast (Loading (loadingMessage mode (List.length selectedFollowers))) ;;;
         results <- (if List.length selectedFollowers =? 1
                     then singleBranch mode selectedFollowers
                     else batchBranch mode selectedFollowers) ;;
         let successCount := successCountOf results in
         let updatedFollowers := updatedFollowersOf mode results followers in
         (if successCount =? List.length selectedFollowers
          then toast (Success (successMessage mode successCount))
          else toast (Failure (partialMessage mode successCount
                                 (List.length selectedFollowers)))) ;;;
         retM updatedFollowers)
        (fun e =>
           console_error (operationError mode) ;;;
           toast (Failure (operationFailed mode e)) ;;;
           retM followers)
  end.

Definition handleFollowSelected := handleSelected Following.

Definition handleUnfollowSelected := handleSelected Unfollowing.

End Handlers.

(** *** Loading and selecting the rows *)

Inductive Filter : Type :=
| All
| Mutual
| OneWay.

Section Page.

Variable Profile : Type.
Variable publicClient : option Ledger.PublicClient.

(** [profileManager.getProfileData], the metadata collaborator. *)
Variable getProfileData : AccountId -> Result (option Profile).

Definition pageSize : nat := 10.

(** The component state [fetchFollowers] writes. *)
Record PageState : Type := {
  followers : list (FollowerData Profile);
  loading : bool;
  pageError : option string;
  hasMore : bool;
  page : nat
}.

(** The body of [for (const address of followerAddresses)], with its two
    nested [try] blocks. *)
Definition processFollower (account address : AccountId) : FollowerData Profile :=
  match
    bind (LSP26.isFollowing publicClient account address) (fun isFollowing =>
    let profile := match getProfileData address with
                   | Ok profileData => profileData
                   | Throw _ => None
                   end in
    ret {| address := address; isMutual := isFollowing;
           isFollowing := isFollowing; isSelected := false;
           profile := profile |})
  with
  | Ok row => row
  | Throw _ =>
    {| address := address; isMutual := false; isFollowing := false;
       isSelected := false; profile := None |}
  end.

(** [fetchFollowers(newPage)], from the component state to the component
    state. *)
Definition fetchFollowers (isConnected : bool) (accounts : list AccountId)
  (newPage : nat) (st : PageState) : M PageState :=
  match (if isConnected then Dashboard.firstAccount accounts else None) with
  | None => retM st
  | Some account =>
    let offset := newPage * pageSize in
    match LSP26.getFollowers publicClient account offset with
    | Ok followerAddresses =>
      let followerData := map (processFollower account) followerAddresses in
      retM {| followers := if newPage =? 0 then followerData
                           else (followers st ++ followerData)%list;
              loading := false;
              pageError := None;
              hasMore := List.length followerAddresses =? pageSize;
              page := newPage |}
    | Throw message =>
      console_error "Error fetching followers:" ;;;
      toast (Failure "Could not load followers") ;;;
      retM {| followers := followers st;
              loading := false;
              pageError :=
                Some ("Error loading followers: "
                      ++ (if String.eqb message "" then "Unknown error"
                          else message))%string;
              hasMore := hasMore st;
              page := page st |}
    end
  end.

(** [getFilteredFollowers], [toggleSelect] and [toggleSelectAll]. *)
Definition getFilteredFollowers (filter : Filter)
  (followers : list (FollowerData Profile)) : list (FollowerData Profile) :=
  List.filter (fun follower =>
                 match filter with
                 | Mutual => isMutual follower
                 | OneWay => negb (isMutual follower)
                 | All => true
                 end) followers.

Definition withSelected (follower : FollowerData Profile) (b : bool)
  : FollowerData Profile :=
  {| address := address follower; isMutual := isMutual follower;
     isFollowing := isFollowing follower; isSelected := b;
     profile := profile follower |}.

Definition toggleSelect (a : AccountId) (followers : list (FollowerData Profile))
  : list (FollowerData Profile) :=
  map (fun follower =>
         if String.eqb (address follower) a
         then withSelected follower (negb (isSelected follower))
         else follower) followers.

(** [accounts[0]?.toLowerCase() !== follower.address.toLowerCase()]: with
    no account the left side is [undefined]. *)
Definition notOwn (accounts : list AccountId) (follower : FollowerData Profile)
  : bool :=
  match accounts with
  | [] => true
  | account :: _ =>
    negb (String.eqb (toLowerCase account) (toLowerCase (address follower)))
  end.

Definition toggleSelectAll (accounts : list AccountId) (filter : Filter)
  (followers : list (FollowerData Profile)) : list (FollowerData Profile) :=
  let displayedFollowers := getFilteredFollowers filter followers in
  let allSelected := forallb (@isSelected Profile) displayedFollowers in
  map (fun follower =>
         if existsb (fun f => String.eqb (address f) (address follower))
                    displayedFollowers
            && notOwn accounts follower
         then withSelected follower (negb allSelected)
         else follower) followers.

End Page.

End FollowerManagement.

(** ** [Followers.handleFollowSelected] ([src/components/Followers.tsx]) *)

Module Followers.
Import JS Wallet.
Local Open Scope m_scope.

Section Handler.

Variable Profile : Type.

(** [isMutual] and [isSelected] are optional fields. *)
Record FollowerData : Type := {
  address : AccountId;
  isMutual : option bool;
  isSelected : option bool;
  profile : option Profile
}.

(** The two pieces of component state the handler touches. *)
Record State : Type := {
  followers : list FollowerData;
  selectedProfiles : list AccountId
}.

Variable p : Provider.

(** [{ ...follower, isMutual: true, isSelected: false }]. *)
Definition followed (follower : FollowerData) : FollowerData :=
  {| address := address follower; isMutual := Some true;
     isSelected := Some false; profile := profile follower |}.

(** One turn of the fallback [for] loop, on the pair of [successCount] and
    the [followers] state. *)
Definition followOne (acc : nat * list FollowerData) (a : AccountId)
  : M (nat * list FollowerData) :=
  let '(successCount, fs) := acc in
  try_catchM
    (LSP26.follow p a ;;;
     retM (S successCount,
           map (fun follower =>
                  if String.eqb (address follower) a then followed follower
                  else follower) fs))
    (fun _ =>
       console_error ("Failed to follow " ++ a ++ ":") ;;;
       retM (successCount, fs)).

Definition handleFollowSelected (isConnected : bool) (accounts : list AccountId)
  (st : State) : M State :=
  let n := List.length (selectedProfiles st) in
  match (if isConnected then Dashboard.firstAccount accounts else None) with
  | None => toast (Failure "Please select profiles to follow") ;;; retM st
  | Some _ =>
    if n =? 0
    then toast (Failure "Please select profiles to follow") ;;; retM st
    else
      try_catchM
        (toast (Loading ("Following " ++ show_nat n ++ " profiles...")) ;;;
         if 1 <? n then
           try_catchM
             (LSP26.followMany p (selectedProfiles st) ;;;
              toast (Success ("Successfully followed " ++ show_nat n
                              ++ " profiles")) ;;;
              retM {| followers :=
                        map (fun follower =>
                               if includes (selectedProfiles st) (address follower)
                               then followed follower else follower)
                            (followers st);
                      selectedProfiles := [] |})
             (fun _ =>
                console_error "Batch follow failed:" ;;;
                r <- foldM followOne (selectedProfiles st) (0, followers st) ;;
                let '(successCount, fs) := r in
                if 0 <? successCount then
                  toast (Success ("Followed " ++ show_nat successCount ++ "/"
                                  ++ show_nat n ++ " profiles")) ;;;
                  retM {| followers := fs; selectedProfiles := [] |}
                else
                  toast (Failure "Follow operation failed") ;;;
                  retM {| followers := fs;
                          selectedProfiles := selectedProfiles st |})
         else
           match selectedProfiles st with
           | a :: _ =>
             LSP26.follow p a ;;;
             toast (Success "Profile followed successfully") ;;;
             retM {| followers :=
                       map (fun follower =>
                              if String.eqb (address follower) a
                              then followed follower else follower)
                           (followers st);
                     selectedProfiles := [] |}
           | [] => retM st
           end)
        (fun _ =>
           console_error "Error in follow operation:" ;;;
           toast (Failure "Follow operation failed") ;;;
           retM st)
  end.

End Handler.

(** *** [fetchFollowers]: one read of the ledger, then pages cut on the
        client *)

Section Page.

Variable Profile : Type.
Variable publicClient : option Ledger.PublicClient.

(** [profileManager.getProfileData], the metadata collaborator. *)
Variable getProfileData : AccountId -> Result (option Profile).

Definition pageSize : nat := 25.

(** The component state [fetchFollowers] reads and writes, around the two
    pieces the handler touches. *)
Record PageState : Type := {
  state : State Profile;
  allFollowersData : list (FollowerData Profile);
  hasMore : bool;
  totalResults : nat;
  page : nat;
  pageError : option string
}.

(** The body of [for (const address of allFollowers)]. *)
Definition followerRow (followingSet : JSSet) (a : AccountId)
  : FollowerData Profile :=
  let isMutual := Set_has followingSet (toLowerCase a) in
  let profile := match getProfileData a with
                 | Ok profileData => profileData
                 | Throw _ => None
                 end in
  {| address := a; isMutual := Some isMutual; isSelected := Some false;
     profile := profile |}.

Definition fetchFollowers (isConnected : bool) (accounts : list AccountId)
  (newPage : nat) (st : PageState) : PageState :=
  match (if isConnected then Dashboard.firstAccount accounts else None) with
  | None => st
  | Some account =>
    if newPage =? 0 then
      match LSP26.getMutualConnections publicClient account with
      | Ok r =>
        let allFollowers := LSP26.allFollowers r in
        let allFollowing := LSP26.allFollowing r in
        let followingSet := Set_new (map toLowerCase allFollowing) in
        let allFollowerData := map (followerRow followingSet) allFollowers in
        let paginatedFollowers := slice 0 pageSize allFollowerData in
        {| state := {| followers := paginatedFollowers;
                       selectedProfiles := selectedProfiles (state st) |};
           allFollowersData := allFollowerData;
           hasMore := pageSize <? List.length allFollowers;
           totalResults := List.length allFollowers;
           page := newPage;
           pageError := None |}
      | Throw _ =>
        {| state := state st;
           allFollowersData := allFollowersData st;
           hasMore := hasMore st;
           totalResults := totalResults st;
           page := page st;
           pageError := Some "Failed to load followers. Please try again."%string |}
      end
    else
      let offset := newPage * pageSize in
      let paginatedFollowers :=
        slice offset (offset + pageSize) (allFollowersData st) in
      {| state := {| followers := paginatedFollowers;
                     selectedProfiles := selectedProfiles (state st) |};
         allFollowersData := allFollowersData st;
         hasMore := hasMore st;
         totalResults := totalResults st;
         page := newPage;
         pageError := None |}
  end.

End Page.

End Followers.

(** ** [OneWayFollowers.fetchOneWayFollowers] ([src/components/Followers.tsx]) *)

Module OneWayFollowers.
Import JS.

Section Page.

Variable Profile : Type.
Variable publicClient : option Ledger.PublicClient.
Variable getProfileData : AccountId -> Result (option Profile).

Definition pageSize : nat := 25.

Record ProfileData : Type := {
  address : AccountId;
  isMutual : option bool;
  isSelected : option bool;
  profile : option Profile
}.

Record PageState : Type := {
  profiles : list ProfileData;
  selectedProfiles : list AccountId;
  allProfilesData : list ProfileData;
  hasMore : bool;
  totalResults : nat;
  page : nat;
  pageError : option string
}.

(** The body of [for (const address of oneWayFollowerAddresses)]. *)
Definition profileRow (a : AccountId) : ProfileData :=
  let profile := match getProfileData a with
                 | Ok profileData => profileData
                 | Throw _ => None
                 end in
  {| address := a; isMutual := Some false; isSelected := Some false;
     profile := profile |}.

Definition fetchOneWayFollowers (isConnected : bool) (accounts : list AccountId)
  (newPage : nat) (st : PageState) : PageState :=
  match (if isConnected then Dashboard.firstAccount accounts else None) with
  | None => st
  | Some account =>
    if newPage =? 0 then
      match LSP26.getMutualConnections publicClient account with
      | Ok r =>
        let allFollowers := LSP26.allFollowers r in
        let allFollowing := LSP26.allFollowing r in
        let followingSet := Set_new (map toLowerCase allFollowing) in
        let oneWayFollowerAddresses :=
          filter (fun a => negb (Set_has followingSet (toLowerCase a)))
                 allFollowers in
        let oneWayProfiles := map profileRow oneWayFollowerAddresses in
        let paginatedProfiles := slice 0 pageSize oneWayProfiles in
        {| profiles := paginatedProfiles;
           selectedProfiles := selectedProfiles st;
           allProfilesData := oneWayProfiles;
           hasMore := pageSize <? List.length oneWayProfiles;
           totalResults := List.length oneWayProfiles;
           page := newPage;
           pageError := None |}
      | Throw _ =>
        {| profiles := profiles st;
           selectedProfiles := selectedProfiles st;
           allProfilesData := allProfilesData st;
           hasMore := hasMore st;
           totalResults := totalResults st;
           page := page st;
           pageError := Some "Failed to load profiles. Please try again."%string |}
      end
    else
      let offset := newPage * pageSize in
      let paginatedProfiles :=
        slice offset (offset + pageSize) (allProfilesData st) in
      {| profiles := paginatedProfiles;
         selectedProfiles := selectedProfiles st;
         allProfilesData := allProfilesData st;
         hasMore := hasMore st;
         totalResults := totalResults st;
         page := newPage;
         pageError := None |}
  end.

(** [toggleSelect] and [toggleSelectAll] act on [selectedProfiles] only. *)
Definition toggleSelect (a : AccountId) (current : list AccountId)
  : list AccountId :=
  if includes current a
  then filter (fun addr => negb (String.eqb addr a)) current
  else (current ++ [a])%list.

Definition toggleSelectAll (accounts : list AccountId) (st : PageState)
  : list AccountId :=
  if List.length (selectedProfiles st) =? List.length (profiles st) then []
  else
    map address
        (filter (fun p =>
                   match accounts with
                   | [] => true
                   | account :: _ =>
                     negb (String.eqb (toLowerCase account)
                                      (toLowerCase (address p)))
                   end) (profiles st)).

End Page.

End OneWayFollowers.

(** ** Concrete ledgers and wallets *)

Module Scenario.
Import JS Ledger Wallet.
Local Open Scope string_scope.

(** A ledger given by two association lists over lower-cased keys. *)
Definition lookup (t : list (AccountId * list AccountId)) (a : AccountId)
  : list AccountId :=
  match find (fun kv => String.eqb (fst kv) a) t with
  | Some kv => snd kv
  | None => []
  end.

Definition ledgerOf (followers follows : list (AccountId * list AccountId))
  : Ledger :=
  {| followersOf := lookup followers; followsOf := lookup follows |}.

(** [prefix1], [prefix2], .. [prefixn]. *)
Definition accountsFrom (prefix : string) (n : nat) : list AccountId :=
  map (fun i => (prefix ++ show_nat i)%string) (seq 1 n).

(** Account A with followers B, C, D and following C, D, E, the ledger
    returning checksummed (mixed-case) identifiers. *)
Definition abcde : Ledger :=
  ledgerOf [("0xaa", ["0xBb"; "0xCc"; "0xDd"])]
           [("0xaa", ["0xcC"; "0xDD"; "0xEe"])].

(** An account that follows two accounts and has no follower. *)
Definition noFollowers : Ledger :=
  ledgerOf [] [("0xaa", ["0xB1"; "0xB2"])].

(** A client on [abcde] whose follower range read fails. *)
Definition followersReadFails : PublicClient :=
  {| followerCount := followerCount (ledgerClient abcde);
     followingCount := followingCount (ledgerClient abcde);
     getFollowersByIndex := fun _ _ _ => Throw "HTTP request failed";
     getFollowsByIndex := getFollowsByIndex (ledgerClient abcde);
     isFollowing := isFollowing (ledgerClient abcde) |}.

(** A client on [abcde] whose following count read fails. *)
Definition followingCountFails : PublicClient :=
  {| followerCount := followerCount (ledgerClient abcde);
     followingCount := fun _ => Throw "HTTP request failed";
     getFollowersByIndex := getFollowersByIndex (ledgerClient abcde);
     getFollowsByIndex := getFollowsByIndex (ledgerClient abcde);
     isFollowing := isFollowing (ledgerClient abcde) |}.

(** An account with 51 followers, [0xf1] to [0xf51]. *)
Definition fiftyOne : Ledger :=
  ledgerOf [("0xaa", accountsFrom "0xf" 51)] [].

(** Requester [0xaa] is followed by [0xb1] and follows nobody; [0xb1]
    follows [0xc1] to [0xc5]. *)
Definition noMutual : Ledger :=
  ledgerOf [("0xaa", ["0xb1"])]
           [("0xb1", accountsFrom "0xc" 5)].

(** Requester [0xaa] and [0xb1] follow each other; [0xb1] also follows
    [0xc1] to [0xc21]. *)
Definition crowded : Ledger :=
  ledgerOf [("0xaa", ["0xb1"]); ("0xb1", ["0xaa"])]
           [("0xaa", ["0xb1"]); ("0xb1", "0xaa" :: accountsFrom "0xc" 21)].



(** A metadata resolver that knows no profile, and a random source stuck
    at 0. *)
Definition noProfile (_ : AccountId) : Result (option string) := Ok None.

Definition zeros (_ : nat) : float := 0%float.

(** A random source whose [k]-th value is [k / 8]. *)
Definition eighths (k : nat) : float := (number_of_nat k / 8)%float.

Definition recommendationsOn (L : Ledger)
  : list (Recommendations.RecommendedProfile string) :=
  match Recommendations.generateRecommendations
          (Some (ledgerClient L)) noProfile zeros 1 true ["0xAa"] with
  | Some (Recommendations.SetRecommendations l) => l
  | _ => []
  end.

Definition blank : Recommendations.RecommendedProfile string :=
  {| Recommendations.address := "";
     Recommendations.profile := None;
     Recommendations.score := 0%float;
     Recommendations.reason := "";
     Recommendations.mutualFollowers := 0;
     Recommendations.mutualFollowerSources := [] |}.

(** A wallet that accepts everything, and one that rejects every batch
    and every transaction about [0xY]. *)
Definition accepting : Provider :=
  {| walletClient := true;
     provider := true;
     requestAccounts := fun _ => Ok ["0xAa"];
     sendTransaction := fun _ _ _ => Ok "0xhash" |}.

Definition batchAndYFail : Provider :=
  {| walletClient := true;
     provider := true;
     requestAccounts := fun _ => Ok ["0xAa"];
     sendTransaction := fun _ _ tx =>
       match tx with
       | FollowBatch _ | UnfollowBatch _ => Throw "execution reverted"
       | Follow a | Unfollow a =>
         if String.eqb a "0xY" then Throw "User rejected the request"
         else Ok "0xhash"
       end |}.

(** A follower of the management page: selected, and followed back or
    not. *)
Definition selectedFollower (isFollowing : bool) (a : AccountId)
  : FollowerManagement.FollowerData string :=
  {| FollowerManagement.address := a;
     FollowerManagement.isMutual := isFollowing;
     FollowerManagement.isFollowing := isFollowing;
     FollowerManagement.isSelected := true;
     FollowerManagement.profile := None |}.

Definition xyz (isFollowing : bool)
  : list (FollowerManagement.FollowerData string) :=
  map (selectedFollower isFollowing) ["0xX"; "0xY"; "0xZ"].

(** Sixty accounts, [0xd1] to [0xd60], as rows of the two pages. *)
Definition sixty : list AccountId := accountsFrom "0xd" 60.

Definition row (a : AccountId) : Followers.FollowerData string :=
  {| Followers.address := a;
     Followers.isMutual := Some false;
     Followers.isSelected := Some true;
     Followers.profile := None |}.

Definition sixtySelected : Followers.State string :=
  {| Followers.followers := map row sixty;
     Followers.selectedProfiles := sixty |}.

(** A page loaded without the wallet objects, and a wallet that returns
    no account. *)
Definition noWallet : Provider :=
  {| walletClient := false;
     provider := false;
     requestAccounts := fun _ => Ok ["0xAa"];
     sendTransaction := fun _ _ _ => Ok "0xhash" |}.

Definition noAccounts : Provider :=
  {| walletClient := true;
     provider := true;
     requestAccounts := fun _ => Ok [];
     sendTransaction := fun _ _ _ => Ok "0xhash" |}.

(** A source of 250 accounts that serves up to 100 of them per page. *)
Definition hundredPerPage (startIndex : nat) : Result (list AccountId) :=
  Ok (firstn 100 (skipn startIndex (accountsFrom "0xe" 250))).

(** The pages as they are before the first fetch. *)
Definition freshManagementPage : FollowerManagement.PageState string :=
  {| FollowerManagement.followers := [];
     FollowerManagement.loading := true;
     FollowerManagement.pageError := None;
     FollowerManagement.hasMore := true;
     FollowerManagement.page := 0 |}.

Definition freshFollowersPage : Followers.PageState string :=
  {| Followers.state := {| Followers.followers := [];
                           Followers.selectedProfiles := [] |};
     Followers.allFollowersData := [];
     Followers.hasMore := true;
     Followers.totalResults := 0;
     Followers.page := 0;
     Followers.pageError := None |}.

Definition freshOneWayPage : OneWayFollowers.PageState string :=
  {| OneWayFollowers.profiles := [];
     OneWayFollowers.selectedProfiles := [];
     OneWayFollowers.allProfilesData := [];
     OneWayFollowers.hasMore := true;
     OneWayFollowers.totalResults := 0;
     OneWayFollowers.page := 0;
     OneWayFollowers.pageError := None |}.

(** Sixty recommendation cards, all ticked. *)
Definition cardOf (a : AccountId) : Recommendations.Card string :=
  {| Recommendations.card :=
       {| Recommendations.address := a;
          Recommendations.profile := None;
          Recommendations.score := 60%float;
          Recommendations.reason := "Trending profile on LUKSO network";
          Recommendations.mutualFollowers := 0;
          Recommendations.mutualFollowerSources := [] |};
     Recommendations.isSelected := Some true |}.

Definition sixtyCards : list (Recommendations.Card string) := map cardOf sixty.

End Scenario.

(** ** The notions the statements are written with *)

Module Spec.
Import JS.

(** "A and B are mutual iff B is in followers(A) and B is in following(A)",
    identifiers compared after lower-casing. *)
Definition mutual (followers following : list AccountId) (b : AccountId) : Prop :=
  In b (map toLowerCase followers) /\ In b (map toLowerCase following).

(** The same intersection computed from the other side: walk the
    followers and keep those found in the following set. *)
Definition mutualFollowersFirst (followers following : list AccountId)
  : list AccountId :=
  Set_new (filter (Set_has (Set_new (map toLowerCase following)))
                  (map toLowerCase followers)).

(** A candidate the requester may be offered: not the requester, and not
    in the set of followed accounts, both after lower-casing. *)
Definition admissible (account : AccountId) (followingSet : JSSet)
  (candidate : AccountId) : Prop :=
  toLowerCase candidate <> toLowerCase account
  /\ Set_has followingSet (toLowerCase candidate) = false.

(** Every key of a candidate map is admissible. *)
Definition keysAdmissible (account : AccountId) (followingSet : JSSet)
  (m : list (AccountId * Recommendations.CandidateData)) : Prop :=
  forall k, In k (map fst m) -> admissible account followingSet k.

(** Ranked by [mutualCount], highest first. *)
Definition ranked (l : list Recommendations.Entry) : Prop :=
  Sorted.StronglySorted
    (fun a b => Recommendations.mutualCount (Recommendations.entry_data b)
                <= Recommendations.mutualCount (Recommendations.entry_data a))
    l.

(** The entries whose [mutualCount] is [k], in the order of the list. *)
Definition withCount (k : nat) (l : list Recommendations.Entry)
  : list Recommendations.Entry :=
  filter (fun e => Recommendations.mutualCount (Recommendations.entry_data e)
                   =? k) l.

(** [round(100 * mutualCount / seedSize * 0.7)] over the rationals, ties
    upwards: the integer part of [(140 m + n) / 2n]. *)
Definition exactWeightedOverlap (mutualCount seedSize : nat) : Z :=
  ((140 * Z.of_nat mutualCount + Z.of_nat seedSize) / (2 * Z.of_nat seedSize))%Z.

(** [clamp(50, 98, round(100 * mutualCount / seedSize * 0.7) + bonus)], in
    the arithmetic of JS numbers and in the order the code multiplies. *)
Definition score (mutualCount seedSize : nat) (bonus : float) : float :=
  Math_min 98 (Math_max 50
    (Math_round ((number_of_nat mutualCount / number_of_nat seedSize)
                 * 100 * 0.7) + bonus))%float.

(** [clamp(50, 98, floor(draw * 36) + 60 + bonus)], the score built on a
    value [draw] of [Math.random()]. *)
Definition randomScore (draw bonus : float) : float :=
  Math_min 98 (Math_max 50 (Math_floor (draw * 36) + 60 + bonus))%float.

(** The transaction a single follow or unfollow of [a] submits. *)
Definition txOf (mode : FollowerManagement.Mode) (a : AccountId) : Wallet.Tx :=
  match mode with
  | FollowerManagement.Following => Wallet.Follow a
  | FollowerManagement.Unfollowing => Wallet.Unfollow a
  end.

(** A wallet that is connected: both module objects are there and an
    account is always returned. *)
Definition connected (p : Wallet.Provider) : Prop :=
  Wallet.walletClient p = true
  /\ Wallet.provider p = true
  /\ forall history, exists from others,
       Wallet.requestAccounts p history = Ok (from :: others).

(** What a caller gets who asks for [k] pages, [step] indices apart, and
    appends them; a failed page contributes nothing. *)
Definition pagesBy (getPage : nat -> Result (list AccountId)) (step k : nat)
  : list AccountId :=
  flat_map (fun i => match getPage (i * step) with
                     | Ok page => page
                     | Throw _ => []
                     end) (seq 0 k).

(** A candidate whose count is accounted for: its sources are seed
    accounts, listed once each, at least one and no more than the count. *)
Definition explained (seed : list AccountId)
  (d : Recommendations.CandidateData) : Prop :=
  NoDup (Recommendations.sources d)
  /\ Recommendations.sources d <> []
  /\ incl (Recommendations.sources d) seed
  /\ List.length (Recommendations.sources d) <= Recommendations.mutualCount d.

(** The two re-checks of the last loop, as a test on an entry. *)
Definition passes (c : option Ledger.PublicClient) (account : AccountId)
  (currentFollowingSet : JSSet) (e : Recommendations.Entry) : bool :=
  negb (Set_has currentFollowingSet
                (toLowerCase (Recommendations.entry_address e)))
  && match LSP26.isFollowing c account (Recommendations.entry_address e) with
     | Ok false => true
     | _ => false
     end.

(** The accounts a transaction names, whether it follows or unfollows, and
    the batched transaction of a mode. *)
Definition targets (tx : Wallet.Tx) : list AccountId :=
  match tx with
  | Wallet.Follow a | Wallet.Unfollow a => [a]
  | Wallet.FollowBatch l | Wallet.UnfollowBatch l => l
  end.

Definition isFollowTx (tx : Wallet.Tx) : bool :=
  match tx with
  | Wallet.Follow _ | Wallet.FollowBatch _ => true
  | Wallet.Unfollow _ | Wallet.UnfollowBatch _ => false
  end.

Definition ofMode (mode : FollowerManagement.Mode) (tx : Wallet.Tx) : Prop :=
  isFollowTx tx = match mode with
                  | FollowerManagement.Following => true
                  | FollowerManagement.Unfollowing => false
                  end.

Definition covers (mode : FollowerManagement.Mode) (tx : Wallet.Tx)
  (a : AccountId) : Prop :=
  ofMode mode tx /\ In a (targets tx).

Definition batchOf (mode : FollowerManagement.Mode) (l : list AccountId)
  : Wallet.Tx :=
  match mode with
  | FollowerManagement.Following => Wallet.FollowBatch l
  | FollowerManagement.Unfollowing => Wallet.UnfollowBatch l
  end.

(** A transaction the handler may submit for the selected [addresses]: of
    the handler's kind, naming at least one account, only selected ones,
    and no more than 50 of them. *)
Definition permitted (mode : FollowerManagement.Mode)
  (addresses : list AccountId) (tx : Wallet.Tx) : Prop :=
  ofMode mode tx
  /\ targets tx <> []
  /\ incl (targets tx) addresses
  /\ List.length (targets tx) <= 50.

(** What the code takes for "already following": the answer of the
    read, a failed read counting as "no". *)
Definition reportedFollowing (c : option Ledger.PublicClient)
  (account a : AccountId) : bool :=
  match LSP26.isFollowing c account a with
  | Ok b => b
  | Throw _ => false
  end.

End Spec.
(** * Properties *)

(** ** The runtime *)

Section SetFacts.
Import JS.

Lemma includes_In (l : list string) (x : string) :
  includes l x = true <-> In x l.
Proof.
  unfold includes. rewrite existsb_exists. split.
  - intros (y & Hy & E). apply String.eqb_eq in E. now subst.
  - intros H. exists x. split; [assumption | apply String.eqb_refl].
Qed.

Lemma Set_has_In (s : JSSet) (x : string) : Set_has s x = true <-> In x s.
Proof. apply includes_In. Qed.

Lemma Set_has_false (s : JSSet) (x : string) :
  Set_has s x = false <-> ~ In x s.
Proof.
  rewrite <- Set_has_In. destruct (Set_has s x); split; congruence.
Qed.

Lemma Set_add_In (s : JSSet) (x y : string) :
  In y (Set_add s x) <-> In y s \/ y = x.
Proof.
  unfold Set_add. destruct (Set_has s x) eqn:E.
  - apply Set_has_In in E. split; [tauto | intros [H | ->]; assumption].
  - rewrite in_app_iff. simpl. intuition auto.
Qed.

Lemma Set_add_NoDup (s : JSSet) (x : string) : NoDup s -> NoDup (Set_add s x).
Proof.
  intros H. unfold Set_add. destruct (Set_has s x) eqn:E; [assumption |].
  apply Set_has_false in E.
  apply NoDup_app; [assumption | repeat constructor; simpl; tauto |].
  intros a Ha [<- | []]. tauto.
Qed.

Lemma fold_Set_add_In (l : list string) (acc : JSSet) (y : string) :
  In y (fold_left Set_add l acc) <-> In y acc \/ In y l.
Proof.
  revert acc. induction l as [| x l IH]; intros acc; simpl.
  - tauto.
  - rewrite IH, Set_add_In. intuition auto.
Qed.

Lemma fold_Set_add_NoDup (l : list string) (acc : JSSet) :
  NoDup acc -> NoDup (fold_left Set_add l acc).
Proof.
  revert acc. induction l as [| x l IH]; intros acc H; simpl.
  - assumption.
  - apply IH, Set_add_NoDup, H.
Qed.

Lemma Set_new_In (l : list string) (y : string) : In y (Set_new l) <-> In y l.
Proof. unfold Set_new. rewrite fold_Set_add_In. simpl. tauto. Qed.

Lemma Set_new_NoDup (l : list string) : NoDup (Set_new l).
Proof. apply fold_Set_add_NoDup. constructor. Qed.

Lemma slice_0 {A : Type} (n : nat) (l : list A) : slice 0 n l = firstn n l.
Proof. unfold slice. now rewrite Nat.sub_0_r. Qed.

Lemma slice_all {A : Type} (l : list A) : slice 0 (List.length l) l = l.
Proof. rewrite slice_0. apply firstn_all. Qed.

End SetFacts.

(** ** The reads on a ledger whose calls all succeed *)

Section HealthyLedger.
Import JS Ledger.

Variable L : Ledger.

Let client : option PublicClient := Some (ledgerClient L).

Lemma getFollowerCount_ledger (a : AccountId) :
  LSP26.getFollowerCount client a
  = Ok (List.length (followersOf L (toLowerCase a))).
Proof. reflexivity. Qed.

Lemma getFollowingCount_ledger (a : AccountId) :
  LSP26.getFollowingCount client a
  = Ok (List.length (followsOf L (toLowerCase a))).
Proof. reflexivity. Qed.

Lemma byIndex_all (l : list AccountId) : byIndex l 0 (List.length l) = Ok l.
Proof.
  unfold byIndex. simpl. rewrite Nat.leb_refl. now rewrite slice_all.
Qed.

Lemma byIndex_page (l : list AccountId) (s : nat) :
  try_catch
    (bind (byIndex l s (Nat.min (s + LSP26.PAGE_SIZE) (List.length l))) ret)
    (fun _ => ret [])
  = Ok (firstn LSP26.PAGE_SIZE (skipn s l)).
Proof.
  generalize LSP26.PAGE_SIZE as P. intros P. unfold byIndex.
  destruct (Nat.leb_spec s (List.length l)) as [Hs | Hs].
  - replace (s <=? Nat.min (s + P) (List.length l)) with true
      by (symmetry; apply Nat.leb_le; lia).
    replace (Nat.min (s + P) (List.length l) <=? List.length l)
      with true by (symmetry; apply Nat.leb_le; lia).
    simpl. unfold ret, slice. f_equal.
    destruct (Nat.le_gt_cases P (List.length l - s)) as [H | H].
    + f_equal. lia.
    + replace (Nat.min (s + P) (List.length l) - s)
        with (List.length (skipn s l)) by (rewrite length_skipn; lia).
      rewrite firstn_all. symmetry. apply firstn_all2.
      rewrite length_skipn. lia.
  - replace (s <=? Nat.min (s + P) (List.length l)) with false
      by (symmetry; apply Nat.leb_gt; lia).
    simpl. unfold ret. f_equal.
    rewrite skipn_all2 by lia. now rewrite firstn_nil.
Qed.

Lemma getFollowers_ledger (a : AccountId) (s : nat) :
  LSP26.getFollowers client a s
  = Ok (firstn LSP26.PAGE_SIZE (skipn s (followersOf L (toLowerCase a)))).
Proof.
  unfold LSP26.getFollowers. rewrite getFollowerCount_ledger. simpl bind.
  destruct (followersOf L (toLowerCase a)) as [| x l] eqn:E.
  - simpl. now rewrite skipn_nil.
  - cbn [List.length Nat.eqb]. unfold LSP26.readContract, client.
    cbn [getFollowersByIndex ledgerClient]. apply (byIndex_page (x :: l) s).
Qed.

Lemma getFollowing_ledger (a : AccountId) (s : nat) :
  LSP26.getFollowing client a s
  = Ok (firstn LSP26.PAGE_SIZE (skipn s (followsOf L (toLowerCase a)))).
Proof.
  unfold LSP26.getFollowing. rewrite getFollowingCount_ledger. simpl bind.
  destruct (followsOf L (toLowerCase a)) as [| x l] eqn:E.
  - simpl. now rewrite skipn_nil.
  - cbn [List.length Nat.eqb]. unfold LSP26.readContract, client.
    cbn [getFollowsByIndex ledgerClient]. apply (byIndex_page (x :: l) s).
Qed.

Lemma getAllFollowers_ledger (a : AccountId) :
  LSP26.getAllFollowers client a = Ok (followersOf L (toLowerCase a)).
Proof.
  unfold LSP26.getAllFollowers. rewrite getFollowerCount_ledger. simpl bind.
  destruct (followersOf L (toLowerCase a)) as [| x l] eqn:E.
  - reflexivity.
  - cbn [List.length Nat.eqb]. unfold LSP26.readContract, client.
    cbn [getFollowersByIndex ledgerClient].
    change (S (List.length l)) with (List.length (x :: l)).
    now rewrite byIndex_all.
Qed.

Lemma getAllFollowing_ledger (a : AccountId) :
  LSP26.getAllFollowing client a = Ok (followsOf L (toLowerCase a)).
Proof.
  unfold LSP26.getAllFollowing. rewrite getFollowingCount_ledger. simpl bind.
  destruct (followsOf L (toLowerCase a)) as [| x l] eqn:E.
  - reflexivity.
  - cbn [List.length Nat.eqb]. unfold LSP26.readContract, client.
    cbn [getFollowsByIndex ledgerClient].
    change (S (List.length l)) with (List.length (x :: l)).
    now rewrite byIndex_all.
Qed.



(** What [getMutualConnections] returns on the ledger, both branches. *)
Lemma getMutualConnections_ledger (a : AccountId) :
  let followers := followersOf L (toLowerCase a) in
  let following := followsOf L (toLowerCase a) in
  LSP26.getMutualConnections client a
  = Ok (if (List.length followers =? 0) || (List.length following =? 0)
        then LSP26.emptyConnections
        else
          let m := Set_new (LSP26.collectMutual
                              (Set_new (map toLowerCase followers)) following) in
          {| LSP26.allFollowers := followers;
             LSP26.allFollowing := following;
             LSP26.mutualConnections := m;
             LSP26.mutualCount := List.length m |}).
Proof.
  intros followers following. unfold LSP26.getMutualConnections.
  rewrite getFollowerCount_ledger, getFollowingCount_ledger. simpl bind.
  fold followers following.
  destruct ((List.length followers =? 0) || (List.length following =? 0));
    [reflexivity |].
  rewrite getAllFollowers_ledger, getAllFollowing_ledger. reflexivity.
Qed.

End HealthyLedger.

Section Intersection.
Import JS.

Lemma collectMutual_In (followers following : list AccountId) (x : AccountId) :
  In x (Set_new (LSP26.collectMutual (Set_new (map toLowerCase followers))
                                     following))
  <-> Spec.mutual followers following x.
Proof.
  unfold LSP26.collectMutual, Spec.mutual.
  rewrite Set_new_In, filter_In, Set_has_In, Set_new_In. tauto.
Qed.

Lemma mutualFollowersFirst_In (followers following : list AccountId)
  (x : AccountId) :
  In x (Spec.mutualFollowersFirst followers following)
  <-> Spec.mutual followers following x.
Proof.
  unfold Spec.mutualFollowersFirst, Spec.mutual.
  rewrite Set_new_In, filter_In, Set_has_In, Set_new_In. tauto.
Qed.

Lemma mutual_nil_l (following : list AccountId) (x : AccountId) :
  ~ Spec.mutual [] following x.
Proof. intros [[] _]. Qed.

Lemma mutual_nil_r (followers : list AccountId) (x : AccountId) :
  ~ Spec.mutual followers [] x.
Proof. intros [_ []]. Qed.

End Intersection.

(** ** The recommendation flow *)

Section Pagination.
Import JS Ledger Recommendations.

Lemma paginate_short_page (fuel : nat) (getPage : nat -> Result (list AccountId))
  (page : nat) (all batch : list AccountId) :
  getPage (page * batchSize) = Ok batch ->
  List.length batch <> batchSize ->
  paginate (S fuel) getPage page all = Some (Ok (all ++ batch)%list).
Proof.
  intros Hp Hl. cbn [paginate]. rewrite Hp.
  apply Nat.eqb_neq in Hl. now rewrite Hl.
Qed.

Lemma page_is_short (l : list AccountId) :
  List.length (firstn LSP26.PAGE_SIZE l) <> batchSize.
Proof.
  rewrite length_firstn. unfold LSP26.PAGE_SIZE, batchSize. lia.
Qed.

Lemma fetchFollowers_ledger (L : Ledger) (fuel : nat) (a : AccountId) :
  fetchFollowers (Some (ledgerClient L)) (S fuel) a
  = Some (Ok (firstn LSP26.PAGE_SIZE (followersOf L (toLowerCase a)))).
Proof.
  unfold fetchFollowers.
  rewrite paginate_short_page
    with (batch := firstn LSP26.PAGE_SIZE (followersOf L (toLowerCase a))).
  - reflexivity.
  - now rewrite getFollowers_ledger.
  - apply page_is_short.
Qed.


End Pagination.

Section Candidates.
Import JS Ledger Recommendations.

Lemma fold_left_invariant {A B : Type} (P : A -> Prop) (f : A -> B -> A)
  (l : list B) (a : A) :
  P a -> (forall a b, P a -> P (f a b)) -> P (fold_left f l a).
Proof.
  intros Ha Hf. revert a Ha. induction l as [| b l IH]; intros a Ha; simpl.
  - assumption.
  - apply IH, Hf, Ha.
Qed.

Lemma Map_set_keys (m : CandidateMap) (k : AccountId) (v : CandidateData)
  (x : AccountId) :
  In x (map fst (Map_set m k v)) -> x = k \/ In x (map fst m).
Proof.
  induction m as [| [k' v'] m IH]; simpl.
  - intros [<- | []]. now left.
  - destruct (String.eqb k k') eqn:E; simpl.
    + apply String.eqb_eq in E. subst. intros [<- | H]; auto.
    + intros [<- | H]; auto. destruct (IH H); auto.
Qed.

Variable account : AccountId.
Variable followingSet : JSSet.

Let keysAdmissible := Spec.keysAdmissible account followingSet.

Lemma addCandidate_admissible (networkAddress : AccountId) (m : CandidateMap)
  (potentialAddress : AccountId) :
  keysAdmissible m ->
  keysAdmissible (addCandidate account followingSet networkAddress m
                               potentialAddress).
Proof.
  intros Hm. unfold addCandidate.
  destruct (String.eqb (toLowerCase potentialAddress) (toLowerCase account))
    eqn:E1; [exact Hm |].
  destruct (Set_has followingSet (toLowerCase potentialAddress)) eqn:E2;
    [exact Hm |].
  cbn [orb]. intros k Hk. apply Map_set_keys in Hk. destruct Hk as [-> | Hk].
  - split; [now apply String.eqb_neq | assumption].
  - now apply Hm.
Qed.

Lemma expand_admissible (c : option PublicClient) (m : CandidateMap)
  (networkAddress : AccountId) :
  keysAdmissible m -> keysAdmissible (expand c account followingSet m networkAddress).
Proof.
  intros Hm. unfold expand.
  destruct (LSP26.getFollowing c networkAddress 0) as [nf |]; [| exact Hm].
  assert (keysAdmissible
            (fold_left (addCandidate account followingSet networkAddress) nf m))
    as H1.
  { apply fold_left_invariant; [exact Hm |].
    intros; now apply addCandidate_admissible. }
  destruct (LSP26.getFollowers c networkAddress 0) as [nfr |]; [| exact H1].
  apply fold_left_invariant; [exact H1 |].
  intros; now apply addCandidate_admissible.
Qed.

Lemma candidateProfiles_admissible (c : option PublicClient)
  (extendedNetwork : list AccountId) :
  keysAdmissible (fold_left (expand c account followingSet) extendedNetwork []).
Proof.
  apply fold_left_invariant.
  - intros k [].
  - intros; now apply expand_admissible.
Qed.

End Candidates.

Section Ranking.
Import JS Recommendations.

Lemma entries_In (m : CandidateMap) (n : nat) (e : Entry) :
  In e (entries n m) ->
  In (entry_address e) (map fst m) /\ n <= ref e < n + List.length m.
Proof.
  revert n. induction m as [| [k v] m IH]; intros n; simpl.
  - intros [].
  - intros [<- | H]; simpl.
    + split; [now left | lia].
    + destruct (IH _ H) as [H1 H2]. split; [now right | lia].
Qed.

Lemma insert_sorted_In (cmp : Entry -> Entry -> Z) (e x : Entry) (l : list Entry) :
  In x (insert_sorted cmp e l) -> x = e \/ In x l.
Proof.
  induction l as [| y l IH]; simpl.
  - intros [<- | []]. now left.
  - destruct (0 <? cmp e y)%Z; simpl.
    + intros [<- | H]; auto. destruct (IH H); auto.
    + intros [<- | [<- | H]]; auto.
Qed.

Lemma sort_In (cmp : Entry -> Entry -> Z) (x : Entry) (l : list Entry) :
  In x (sort cmp l) -> In x l.
Proof.
  induction l as [| y l IH]; simpl; [tauto |].
  intros H. apply insert_sorted_In in H. destruct H as [-> | H]; auto.
Qed.

Lemma insert_sorted_Permutation (cmp : Entry -> Entry -> Z) (e : Entry)
  (l : list Entry) : Permutation (insert_sorted cmp e l) (e :: l).
Proof.
  induction l as [| x l IH]; simpl; [reflexivity |].
  destruct (0 <? cmp e x)%Z; [| reflexivity].
  rewrite IH. apply perm_swap.
Qed.

Lemma sort_Permutation (cmp : Entry -> Entry -> Z) (l : list Entry) :
  Permutation (sort cmp l) l.
Proof.
  induction l as [| x l IH]; simpl; [reflexivity |].
  rewrite insert_sorted_Permutation. now constructor.
Qed.

Lemma insert_sorted_ranked (e : Entry) (l : list Entry) :
  Spec.ranked l -> Spec.ranked (insert_sorted byMutualCountDesc e l).
Proof.
  unfold Spec.ranked. induction l as [| x l IH]; intros H; simpl.
  - repeat constructor.
  - inversion H as [| ? ? Hl Hx]; subst.
    destruct (0 <? byMutualCountDesc e x)%Z eqn:E.
    + constructor; [now apply IH |].
      apply Forall_forall. intros y Hy.
      apply (Permutation_in _ (insert_sorted_Permutation _ e l)) in Hy.
      destruct Hy as [<- | Hy].
      * apply Z.ltb_lt in E. unfold byMutualCountDesc in E. lia.
      * rewrite Forall_forall in Hx. now apply Hx.
    + apply Z.ltb_ge in E. unfold byMutualCountDesc in E.
      constructor; [assumption |]. constructor; [lia |].
      rewrite Forall_forall in *. intros y Hy. specialize (Hx y Hy). lia.
Qed.

(** The model of [sort]: highest [mutualCount] first. *)
Lemma sort_ranked (l : list Entry) : Spec.ranked (sort byMutualCountDesc l).
Proof.
  induction l as [| x l IH]; simpl.
  - constructor.
  - now apply insert_sorted_ranked.
Qed.

Lemma insert_sorted_withCount (k : nat) (e : Entry) (l : list Entry) :
  Spec.withCount k (insert_sorted byMutualCountDesc e l)
  = Spec.withCount k (e :: l).
Proof.
  unfold Spec.withCount. induction l as [| x l IH]; [reflexivity |].
  cbn [insert_sorted]. destruct (0 <? byMutualCountDesc e x)%Z eqn:E;
    [| reflexivity].
  apply Z.ltb_lt in E. unfold byMutualCountDesc in E.
  cbn [filter] in *. rewrite IH.
  destruct (Nat.eqb_spec (mutualCount (entry_data e)) k) as [He | He];
    destruct (Nat.eqb_spec (mutualCount (entry_data x)) k) as [Hx | Hx];
    try reflexivity; lia.
Qed.

(** ... and stable: entries with the same [mutualCount] stay in the order
    in which they entered the map. *)
Lemma sort_stable (k : nat) (l : list Entry) :
  Spec.withCount k (sort byMutualCountDesc l) = Spec.withCount k l.
Proof.
  induction l as [| x l IH]; [reflexivity |].
  cbn [sort fold_right]. fold (sort byMutualCountDesc l).
  rewrite insert_sorted_withCount. unfold Spec.withCount in *.
  cbn [filter]. now rewrite IH.
Qed.

Lemma firstn_subset {A : Type} (n : nat) (l : list A) (x : A) :
  In x (firstn n l) -> In x l.
Proof.
  intros H. rewrite <- (firstn_skipn n l). apply in_or_app. now left.
Qed.

Lemma sortedCandidates_In (m : CandidateMap) (e : Entry) :
  In e (sortedCandidatesOf m) ->
  In (entry_address e) (map fst m) /\ ref e < Map_size m.
Proof.
  unfold sortedCandidatesOf. rewrite slice_0. intros H.
  apply firstn_subset, sort_In, entries_In in H. unfold Map_size.
  split; [tauto | lia].
Qed.

(** [indexOf] of an object that is not in the array. *)
Lemma indexOf_fresh (l : list Entry) (r : nat) :
  (forall e, In e l -> ref e < r) -> indexOf l r = (-1)%Z.
Proof.
  induction l as [| e l IH]; intros H; simpl; [reflexivity |].
  destruct (Nat.eqb_spec (ref e) r) as [E | _].
  - specialize (H e (or_introl eq_refl)). lia.
  - rewrite IH by (intros; apply H; now right). reflexivity.
Qed.

End Ranking.

Section Scoring.
Import JS Recommendations.

Variable random : nat -> float.
Variables mutuals network : list AccountId.
Variable sorted : list Entry.

Lemma scoreOf_nextRef (data : CandidateData) (st : LoopState) :
  nextRef (snd (scoreOf random mutuals network
                        sorted data st)) = S (nextRef st).
Proof.
  unfold scoreOf. destruct (0 <? List.length mutuals); reflexivity.
Qed.

(** With at least one mutual follower and a fresh array in [indexOf], the
    score is the clamped weighted overlap plus the bonus. *)
Lemma scoreOf_weighted (data : CandidateData) (st : LoopState) :
  mutuals <> [] ->
  (forall e, In e sorted -> ref e < nextRef st) ->
  fst (scoreOf random mutuals network sorted data st)
  = Spec.score (mutualCount data) (List.length network) 6.
Proof.
  intros Hm Hfresh. unfold scoreOf.
  destruct mutuals as [| x l]; [congruence |].
  cbn [List.length Nat.ltb Nat.leb]. cbn iota.
  rewrite indexOf_fresh by assumption.
  reflexivity.
Qed.

(** Without mutual follower the score is built on the next value of
    [Math.random()], which is then used up. *)
Lemma scoreOf_random (data : CandidateData) (st : LoopState) :
  mutuals = [] ->
  (forall e, In e sorted -> ref e < nextRef st) ->
  scoreOf random mutuals network sorted data st
  = (Spec.randomScore (random (draws st)) 6,
     {| draws := S (draws st); nextRef := S (nextRef st) |}).
Proof.
  intros Hm Hfresh. unfold scoreOf. rewrite Hm.
  cbn [List.length Nat.ltb Nat.leb]. cbn iota. cbn [draws nextRef].
  rewrite indexOf_fresh by assumption.
  reflexivity.
Qed.

End Scoring.

Section LastLoop.
Import JS Ledger Recommendations.

Variable Profile : Type.
Variable c : option PublicClient.
Variable getProfileData : AccountId -> Result (option Profile).
Variable random : nat -> float.
Variable account : AccountId.
Variable currentFollowingSet : JSSet.
Variables mutuals network : list AccountId.
Variable sorted : list Entry.

Let step := processCandidate c getProfileData random account
              currentFollowingSet mutuals network
              sorted.

Let loop := processCandidates c getProfileData random account
              currentFollowingSet mutuals network
              sorted.

Lemma step_nextRef (e : Entry) (st : LoopState) :
  nextRef st <= nextRef (snd (step e st)).
Proof.
  unfold step, processCandidate.
  destruct (Set_has currentFollowingSet _); [simpl; lia |].
  destruct (LSP26.isFollowing c account (entry_address e)) as [[|] |];
    try (simpl; lia).
  pose proof (scoreOf_nextRef random mutuals network sorted (entry_data e) st)
    as H.
  destruct (scoreOf random mutuals network sorted
                    (entry_data e) st) as [w st'].
  simpl in *. lia.
Qed.

(** What a recommendation pushed by one turn of the loop went through. *)
Lemma step_Some (e : Entry) (st st' : LoopState)
  (r : RecommendedProfile Profile) :
  step e st = (Some r, st') ->
  Set_has currentFollowingSet (toLowerCase (entry_address e)) = false
  /\ LSP26.isFollowing c account (entry_address e) = Ok false
  /\ address r = entry_address e
  /\ mutualFollowers r = mutualCount (entry_data e)
  /\ score r = fst (scoreOf random mutuals network
                            sorted (entry_data e) st).
Proof.
  unfold step, processCandidate.
  destruct (Set_has currentFollowingSet _); [discriminate |].
  destruct (LSP26.isFollowing c account (entry_address e)) as [[|] |];
    try discriminate.
  destruct (scoreOf random mutuals network sorted
                    (entry_data e) st) as [w st1].
  intros H. injection H as <- _. simpl. auto.
Qed.

(** Every recommendation the loop returns was there before or was pushed
    by a turn on one of the entries, in a state reached from the first. *)
Lemma loop_In (todo : list Entry) (st : LoopState)
  (acc : list (RecommendedProfile Profile)) (r : RecommendedProfile Profile) :
  In r (loop todo st acc) ->
  In r acc
  \/ exists e st0 st1,
       In e todo /\ nextRef st <= nextRef st0 /\ step e st0 = (Some r, st1).
Proof.
  revert st acc. induction todo as [| e todo IH]; intros st acc; simpl.
  - auto.
  - unfold loop in *. cbn [processCandidates]. fold step.
    pose proof (step_nextRef e st) as Hn.
    destruct (step e st) as [o st'] eqn:E. simpl in Hn.
    intros H. apply IH in H. destruct H as [H | (e0 & st0 & st1 & H1 & H2 & H3)].
    + destruct o as [r0 |]; [| now left].
      apply in_app_or in H. destruct H as [H | [<- | []]]; [now left |].
      right. exists e, st, st'. repeat split; auto.
    + right. exists e0, st0, st1. repeat split; auto. lia.
Qed.

(** Without mutual follower a turn of the loop either skips the entry and
    leaves the state alone, or pushes a recommendation scored from the
    next random value. *)
Lemma step_random (e : Entry) (st st' : LoopState)
  (o : option (RecommendedProfile Profile)) :
  mutuals = [] ->
  (forall e, In e sorted -> ref e < nextRef st) ->
  step e st = (o, st') ->
  match o with
  | None => st' = st
  | Some r =>
    score r = Spec.randomScore (random (draws st)) 6
    /\ draws st' = S (draws st)
    /\ nextRef st' = S (nextRef st)
  end.
Proof.
  intros Hm Hfresh. unfold step, processCandidate.
  destruct (Set_has currentFollowingSet _);
    [intros H; injection H as <- <-; reflexivity |].
  destruct (LSP26.isFollowing c account (entry_address e)) as [[|] |];
    try (intros H; injection H as <- <-; reflexivity).
  rewrite (@scoreOf_random random mutuals network sorted (entry_data e) st
                           Hm Hfresh).
  intros H. injection H as <- <-. cbn. auto.
Qed.

(** So the recommendation at index [i] of the list is scored from the
    [i]-th value of [Math.random()]. *)
Lemma loop_random (todo : list Entry) (st : LoopState)
  (acc : list (RecommendedProfile Profile)) :
  mutuals = [] ->
  (forall e, In e sorted -> ref e < nextRef st) ->
  draws st = List.length acc ->
  forall i r,
    nth_error (loop todo st acc) i = Some r ->
    nth_error acc i = Some r
    \/ (List.length acc <= i
        /\ score r = Spec.randomScore (random i) 6).
Proof.
  intros Hm. revert st acc.
  induction todo as [| e todo IH]; intros st acc Hfresh Hd i r; simpl.
  - auto.
  - unfold loop in *. cbn [processCandidates]. fold step.
    destruct (step e st) as [o st'] eqn:E.
    pose proof (step_random e st Hm Hfresh E) as Hstep.
    destruct o as [r0 |].
    + destruct Hstep as (Hscore & Hdraws & Hnext).
      intros H. apply IH in H.
      * destruct H as [H | [Hle H]].
        -- destruct (Nat.lt_ge_cases i (List.length acc)) as [Hlt | Hge].
           ++ left. now rewrite nth_error_app1 in H.
           ++ right. split; [exact Hge |].
              rewrite nth_error_app2 in H by exact Hge.
              destruct (i - List.length acc) as [| k] eqn:Ek;
                [| destruct k; discriminate H].
              cbn in H. injection H as <-.
              replace i with (draws st) by lia. exact Hscore.
        -- right. rewrite length_app in Hle. cbn in Hle.
           split; [lia | exact H].
      * intros e' He'. specialize (Hfresh e' He'). lia.
      * rewrite length_app. cbn. lia.
    + subst st'. intros H. now apply IH in H.
Qed.

End LastLoop.

Section Flow.
Import JS Ledger Recommendations.

Variable Profile : Type.
Variable c : option PublicClient.
Variable getProfileData : AccountId -> Result (option Profile).
Variable random : nat -> float.

(** The path on which [setRecommendations] is reached. *)
Lemma generateRecommendations_network (fuel : nat) (isConnected : bool)
  (accounts : list AccountId) (recs : list (RecommendedProfile Profile)) :
  generateRecommendations c getProfileData random fuel isConnected accounts
  = Some (SetRecommendations recs) ->
  exists account allFollowers allFollowing currentFollowing,
    Dashboard.firstAccount accounts = Some account
    /\ fetchFollowers c fuel account = Some (Ok allFollowers)
    /\ fetchFollowing c fuel account = Some (Ok allFollowing)
    /\ refetchFollowing c fuel account allFollowing = Some currentFollowing
    /\ let followingSet := Set_new (map toLowerCase allFollowing) in
       let mutualFollowers := mutualFollowersOf allFollowers followingSet in
       let extendedNetwork :=
         extendedNetworkOf mutualFollowers allFollowers allFollowing in
       let candidateProfiles :=
         fold_left (expand c account followingSet) extendedNetwork [] in
       let sortedCandidates := sortedCandidatesOf candidateProfiles in
       recs = processCandidates c getProfileData random account
                (Set_new (map toLowerCase currentFollowing))
                mutualFollowers extendedNetwork sortedCandidates
                sortedCandidates
                {| draws := 0; nextRef := Map_size candidateProfiles |} []
       /\ 5 <= List.length recs.
Proof.
  unfold generateRecommendations.
  destruct isConnected; [| discriminate].
  destruct (Dashboard.firstAccount accounts) as [account |]; [| discriminate].
  destruct (fetchFollowers c fuel account) as [[allFollowers |] |] eqn:E1;
    try discriminate.
  destruct (fetchFollowing c fuel account) as [[allFollowing |] |] eqn:E2;
    try discriminate.
  destruct ((List.length allFollowers =? 0) && (List.length allFollowing =? 0));
    [discriminate |].
  destruct (Map_size _ =? 0); [discriminate |].
  destruct (refetchFollowing c fuel account allFollowing)
    as [currentFollowing |] eqn:E3; [| discriminate].
  destruct (List.length _ <? 5) eqn:E; [discriminate |].
  intros H. injection H as <-.
  exists account, allFollowers, allFollowing, currentFollowing.
  do 4 (split; [easy |]). cbv zeta. split; [reflexivity |].
  now apply Nat.ltb_ge in E.
Qed.

End Flow.

(** ** The mutations *)

Section MutationFacts.
Import JS Wallet FollowerManagement.

Variable Profile : Type.
Variable p : Provider.

Ltac run :=
  unfold LSP26.follow, LSP26.unfollow, LSP26.followMany,
    LSP26.unfollowMany, LSP26.capped, LSP26.requireWallet,
    LSP26.connectedAccount, try_catchM, bindM, retM, throwM, request, send,
    console_error, console_warn, toast;
  cbn [fst snd attempts sent console toasts].

Ltac cases :=
  repeat (cbn;
          match goal with
          | |- context [if ?b then _ else _] => destruct b
          | |- context [match requestAccounts p ?a with _ => _ end] =>
            destruct (requestAccounts p a) as [[| ? ?] | ?]
          | |- context [sendTransaction p ?a ?f ?t] =>
            destruct (sendTransaction p a f t)
          end).

(** A single follow or unfollow either returns [true], its transaction
    accepted, or throws and nothing reached the ledger; it never toasts. *)
Lemma single_outcome (mode : Mode) (a : AccountId) (w : World) :
  toasts (fst (single p mode a w)) = toasts w
  /\ ((snd (single p mode a w) = Ok true
       /\ sent (fst (single p mode a w)) = (sent w ++ [Spec.txOf mode a])%list)
      \/ ((exists e, snd (single p mode a w) = Throw e)
          /\ sent (fst (single p mode a w)) = sent w)).
Proof.
  destruct mode; unfold single; run; cases; cbn;
    (split; [reflexivity |]);
    first [ left; split; reflexivity
          | right; split; [eexists; reflexivity | reflexivity] ].
Qed.

(** A batched call never toasts. *)
Lemma many_toasts (mode : Mode) (l : list AccountId) (w : World) :
  toasts (fst (many p mode l w)) = toasts w.
Proof.
  destruct mode; unfold many; run; cases; cbn; reflexivity.
Qed.

(** One attempt always yields a result for its account, and the result
    says whether the transaction was accepted. *)
Lemma attempt_outcome (mode : Mode) (f : FollowerData Profile) (w : World) :
  exists r,
    snd (attempt p mode f w) = Ok r
    /\ result_address r = address f
    /\ toasts (fst (attempt p mode f w)) = toasts w
    /\ sent (fst (attempt p mode f w))
       = (sent w ++ if success r then [Spec.txOf mode (address f)] else [])%list.
Proof.
  destruct (single_outcome mode (address f) w)
    as (Ht & [(Hr & Hs) | ((e & Hr) & Hs)]);
    unfold attempt, try_catchM, bindM, retM, console_error;
    destruct (single p mode (address f) w) as [w' r'];
    cbn [fst snd] in *; subst r'.
  - exists (succeeded (address f)). cbn. auto.
  - exists (failed (address f) e). cbn. rewrite app_nil_r. auto.
Qed.

Lemma mapM_cons {A B : Type} (f : A -> M B) (x : A) (l : list A) (w : World) :
  mapM f (x :: l) w
  = match f x w with
    | (w1, Ok y) =>
      match mapM f l w1 with
      | (w2, Ok ys) => (w2, Ok (y :: ys))
      | (w2, Throw e) => (w2, Throw e)
      end
    | (w1, Throw e) => (w1, Throw e)
    end.
Proof.
  cbn [mapM]. unfold bindM, retM.
  destruct (f x w) as [w1 [y | e]]; [| reflexivity].
  destruct (mapM f l w1) as [w2 [ys | e]]; reflexivity.
Qed.

(** A call is its two halves, one after the other. *)
Lemma single_in_two_halves (mode : Mode) (a : AccountId) (w : World) :
  single p mode a w
  = singleFinish p mode a (snd (singleStart p mode w))
                 (fst (singleStart p mode w)).
Proof.
  destruct mode; unfold single, singleStart, singleFinish, LSP26.follow,
    LSP26.unfollow, LSP26.start, LSP26.finish, LSP26.requireWallet,
    LSP26.connectedAccount, try_catchM, bindM, retM, throwM, request,
    console_error;
    destruct (walletClient p); cbn; try reflexivity;
    destruct (provider p); cbn; try reflexivity;
    destruct (requestAccounts p (attempts w)) as [[| from l] | e]; cbn;
    try reflexivity;
    destruct (sendTransaction p (attempts w) from _); reflexivity.
Qed.

(** Starting a call hands nothing to the wallet and does not toast; with
    both module objects there, it asks for the accounts with the wallet
    as it is. *)
Lemma singleStart_outcome (mode : Mode) (w : World) :
  attempts (fst (singleStart p mode w)) = attempts w
  /\ sent (fst (singleStart p mode w)) = sent w
  /\ toasts (fst (singleStart p mode w)) = toasts w
  /\ (walletClient p = true -> provider p = true ->
      singleStart p mode w
      = (w, LSP26.Asked (requestAccounts p (attempts w)))).
Proof.
  destruct mode; unfold singleStart, LSP26.start, LSP26.requireWallet, throwM,
    retM, console_error;
    destruct (walletClient p), (provider p); cbn;
    repeat split; try reflexivity; intros; discriminate.
Qed.

Lemma startAll_outcome (mode : Mode) (selected : list (FollowerData Profile))
  (w : World) :
  attempts (fst (startAll p mode selected w)) = attempts w
  /\ sent (fst (startAll p mode selected w)) = sent w
  /\ toasts (fst (startAll p mode selected w)) = toasts w
  /\ map fst (snd (startAll p mode selected w)) = selected
  /\ (walletClient p = true -> provider p = true ->
      Forall (fun fs => snd fs = LSP26.Asked (requestAccounts p (attempts w)))
             (snd (startAll p mode selected w))).
Proof.
  revert w. induction selected as [| f selected IH]; intros w.
  - cbn. repeat split; auto.
  - cbn [startAll].
    destruct (singleStart_outcome mode w) as (Ha & Hs & Ht & Hq).
    destruct (singleStart p mode w) as [w1 s]. cbn [fst snd] in *.
    destruct (IH w1) as (Ha' & Hs' & Ht' & Hf & Hq').
    destruct (startAll p mode selected w1) as [w2 started].
    cbn [fst snd map] in *.
    split; [congruence |]. split; [congruence |]. split; [congruence |].
    split; [now rewrite Hf |].
    intros Hw Hp. specialize (Hq Hw Hp). injection Hq as -> ->.
    constructor; [reflexivity | now apply Hq'].
Qed.

(** The rest of one callback always yields a result for its account; the
    result says whether the transaction was accepted, and a call that was
    answered with an account hands its transaction to the wallet. *)
Lemma settle_outcome (mode : Mode) (f : FollowerData Profile)
  (s : LSP26.Started) (w : World) :
  exists r,
    snd (settle p mode (f, s) w) = Ok r
    /\ result_address r = address f
    /\ toasts (fst (settle p mode (f, s) w)) = toasts w
    /\ sent (fst (settle p mode (f, s) w))
       = (sent w ++ if success r then [Spec.txOf mode (address f)] else [])%list
    /\ (attempts (fst (settle p mode (f, s) w)) = attempts w
        \/ attempts (fst (settle p mode (f, s) w))
           = (attempts w ++ [Spec.txOf mode (address f)])%list)
    /\ (forall from others,
          s = LSP26.Asked (Ok (from :: others)) ->
          attempts (fst (settle p mode (f, s) w))
          = (attempts w ++ [Spec.txOf mode (address f)])%list).
Proof.
  destruct mode; destruct s as [e | [[| from l] | e]];
    unfold settle, singleFinish, LSP26.finish, try_catchM, bindM, retM,
      throwM, send, console_error;
    cbn [fst snd attempts sent console toasts];
    try match goal with
        | |- context [sendTransaction p ?a ?f ?t] =>
          destruct (sendTransaction p a f t)
        end;
    eexists; cbn; (split; [reflexivity |]); cbn; rewrite ?app_nil_r;
    (split; [reflexivity |]);
    (split; [reflexivity |]); (split; [reflexivity |]);
    (split; [auto | intros; first [discriminate | reflexivity]]).
Qed.

Lemma settleAll_outcome (mode : Mode)
  (started : list (FollowerData Profile * LSP26.Started)) (w : World) :
  exists results,
    snd (mapM (settle p mode) started w) = Ok results
    /\ map result_address results
       = map (fun fs => address (fst fs)) started
    /\ toasts (fst (mapM (settle p mode) started w)) = toasts w
    /\ sent (fst (mapM (settle p mode) started w))
       = (sent w ++ map (Spec.txOf mode)
                        (map result_address (filter success results)))%list
    /\ (Forall (fun fs => exists from others,
                            snd fs = LSP26.Asked (Ok (from :: others)))
                started ->
        attempts (fst (mapM (settle p mode) started w))
        = (attempts w
           ++ map (Spec.txOf mode)
                  (map (fun fs => address (fst fs)) started))%list).
Proof.
  revert w. induction started as [| [f s] started IH]; intros w.
  - exists []. cbn. rewrite !app_nil_r. auto.
  - destruct (settle_outcome mode f s w) as (r & Hr & Ha & Ht & Hs & _ & Hq).
    rewrite mapM_cons.
    destruct (settle p mode (f, s) w) as [w1 r1]. cbn [fst snd] in *. subst r1.
    destruct (IH w1) as (rs & Hrs & Has & Hts & Hss & Hqs).
    destruct (mapM (settle p mode) started w1) as [w2 r2].
    cbn [fst snd] in *. subst r2. cbn [fst snd].
    exists (r :: rs). split; [reflexivity |].
    split; [cbn; now rewrite Ha, Has |].
    split; [now rewrite Hts |].
    split.
    + rewrite Hss, Hs. cbn [filter].
      destruct (success r); cbn [map]; rewrite <- app_assoc.
      * now rewrite Ha.
      * reflexivity.
    + intros Hall. inversion Hall as [| ? ? (from & others & Hfs) Hrest]; subst.
      cbn [snd] in Hfs. rewrite (Hqs Hrest), (Hq _ _ Hfs), <- app_assoc.
      reflexivity.
Qed.

(** The fallback: one result per selected profile, in array order,
    whatever the other calls gave; the accepted transactions are those of
    the profiles reported as succeeded. *)
Lemma individually_outcome (mode : Mode) (selected : list (FollowerData Profile))
  (w : World) :
  exists results,
    snd (individually p mode selected w) = Ok results
    /\ map result_address results = map (@address Profile) selected
    /\ toasts (fst (individually p mode selected w)) = toasts w
    /\ sent (fst (individually p mode selected w))
       = (sent w ++ map (Spec.txOf mode)
                        (map result_address (filter success results)))%list.
Proof.
  unfold individually.
  destruct (startAll_outcome mode selected w) as (_ & Hs & Ht & Hf & _).
  destruct (startAll p mode selected w) as [w1 started]. cbn [fst snd] in *.
  destruct (settleAll_outcome mode started w1)
    as (results & Hres & Haddr & Htoasts & Hsent & _).
  exists results. split; [exact Hres |].
  split; [rewrite Haddr, <- Hf, map_map; reflexivity |].
  split; [congruence |]. now rewrite Hsent, Hs.
Qed.

(** On a connected wallet a single follow or unfollow always hands its
    transaction to the wallet. *)
Lemma single_attempts (mode : Mode) (a : AccountId) (w : World) :
  Spec.connected p ->
  attempts (fst (single p mode a w))
  = (attempts w ++ [Spec.txOf mode a])%list.
Proof.
  intros (Hw & Hp & Hr). destruct (Hr (attempts w)) as (from & others & Ha).
  destruct mode; unfold single; run; rewrite Hw, Hp; cbn; rewrite Ha; cbn;
    match goal with
    | |- context [sendTransaction p ?h ?f ?t] =>
      destruct (sendTransaction p h f t)
    end; reflexivity.
Qed.

Lemma attempt_attempts (mode : Mode) (f : FollowerData Profile) (w : World) :
  Spec.connected p ->
  attempts (fst (attempt p mode f w))
  = (attempts w ++ [Spec.txOf mode (address f)])%list.
Proof.
  intros Hc. pose proof (single_attempts mode (address f) w Hc) as H.
  unfold attempt, try_catchM, bindM, retM, console_error.
  destruct (single p mode (address f) w) as [w' [b | e]]; exact H.
Qed.

(** So, on a wallet that has both module objects and answers the account
    request made at the start with an account, the fallback hands one
    transaction per selected profile to the wallet, in order, none left
    out after a failure. *)
Lemma individually_attempts_asked (mode : Mode)
  (selected : list (FollowerData Profile)) (w : World)
  (from : AccountId) (others : list AccountId) :
  walletClient p = true -> provider p = true ->
  requestAccounts p (attempts w) = Ok (from :: others) ->
  attempts (fst (individually p mode selected w))
  = (attempts w
     ++ map (Spec.txOf mode) (map (@address Profile) selected))%list.
Proof.
  intros Hw Hp Hr. unfold individually.
  destruct (startAll_outcome mode selected w) as (Ha & _ & _ & Hf & Hq).
  specialize (Hq Hw Hp).
  destruct (startAll p mode selected w) as [w1 started]. cbn [fst snd] in *.
  destruct (settleAll_outcome mode started w1) as (results & _ & _ & _ & _ & H).
  rewrite H.
  - rewrite Ha, <- Hf, !map_map. reflexivity.
  - eapply Forall_impl; [| exact Hq]. intros fs Hfs. exists from, others.
    now rewrite Hfs, Hr.
Qed.

Lemma individually_attempts (mode : Mode)
  (selected : list (FollowerData Profile)) (w : World) :
  Spec.connected p ->
  attempts (fst (individually p mode selected w))
  = (attempts w
     ++ map (Spec.txOf mode) (map (@address Profile) selected))%list.
Proof.
  intros (Hw & Hp & Hr). destruct (Hr (attempts w)) as (from & others & Ha).
  now apply (individually_attempts_asked mode selected w Hw Hp Ha).
Qed.

End MutationFacts.

(** ** Aggregation: [getMutualConnections] and the dashboard counts *)

Section Aggregation.
Import JS Ledger Scenario.
Local Open Scope string_scope.

Lemma getFollowerCount_total (c : option PublicClient) (a : AccountId) :
  exists n, LSP26.getFollowerCount c a = Ok n.
Proof.
  unfold LSP26.getFollowerCount.
  destruct (LSP26.readContract c (fun pc => followerCount pc a)); simpl; eauto.
Qed.

Lemma getFollowingCount_total (c : option PublicClient) (a : AccountId) :
  exists n, LSP26.getFollowingCount c a = Ok n.
Proof.
  unfold LSP26.getFollowingCount.
  destruct (LSP26.readContract c (fun pc => followingCount pc a)); simpl; eauto.
Qed.

Lemma getAllFollowers_total (c : option PublicClient) (a : AccountId) :
  exists l, LSP26.getAllFollowers c a = Ok l.
Proof.
  unfold LSP26.getAllFollowers.
  destruct (getFollowerCount_total c a) as [n ->]. simpl bind.
  destruct (n =? 0)%nat; [simpl; eauto |].
  destruct (LSP26.readContract c _); simpl; eauto.
Qed.

Lemma getAllFollowing_total (c : option PublicClient) (a : AccountId) :
  exists l, LSP26.getAllFollowing c a = Ok l.
Proof.
  unfold LSP26.getAllFollowing.
  destruct (getFollowingCount_total c a) as [n ->]. simpl bind.
  destruct (n =? 0)%nat; [simpl; eauto |].
  destruct (LSP26.readContract c _); simpl; eauto.
Qed.

(** The two shapes of a returned snapshot. *)
Lemma getMutualConnections_shape (c : option PublicClient) (a : AccountId) :
  exists r, LSP26.getMutualConnections c a = Ok r
    /\ (r = LSP26.emptyConnections
        \/ (LSP26.getAllFollowers c a = Ok (LSP26.allFollowers r)
            /\ LSP26.getAllFollowing c a = Ok (LSP26.allFollowing r)
            /\ LSP26.mutualConnections r
               = Set_new (LSP26.collectMutual
                            (Set_new (map toLowerCase (LSP26.allFollowers r)))
                            (LSP26.allFollowing r))
            /\ LSP26.mutualCount r = List.length (LSP26.mutualConnections r))).
Proof.
  unfold LSP26.getMutualConnections.
  destruct (getFollowerCount_total c a) as [n ->].
  destruct (getFollowingCount_total c a) as [m ->]. simpl bind.
  destruct ((n =? 0)%nat || (m =? 0)%nat).
  - eexists. split; [reflexivity | now left].
  - destruct (getAllFollowers_total c a) as [l1 E1].
    destruct (getAllFollowing_total c a) as [l2 E2].
    rewrite E1, E2. simpl. eexists. split; [reflexivity |]. right.
    simpl. auto.
Qed.

(** C1: on every ledger whose reads succeed and for every account A,
    [getMutualConnections] returns as [mutualConnections] exactly the
    case-insensitive intersection of A's followers and A's following, without
    repetition, and [mutualCount] is its cardinality; walking the followers
    first instead of the following gives the same set and the same count.
    With followers B, C, D and following C, D, E the result is C, D with
    [mutualCount = 2], and the dashboard derives [nonMutualCount = 3 - 2 = 1]
    and [nonFollowingBack = 3 - 2 = 1]. *)
Theorem getMutualConnections_is_intersection :
  (forall (L : Ledger) (A : AccountId),
     let followers := followersOf L (toLowerCase A) in
     let following := followsOf L (toLowerCase A) in
     exists r,
       LSP26.getMutualConnections (Some (ledgerClient L)) A = Ok r
       /\ (forall B, In B (LSP26.mutualConnections r)
                     <-> Spec.mutual followers following B)
       /\ NoDup (LSP26.mutualConnections r)
       /\ LSP26.mutualCount r = List.length (LSP26.mutualConnections r)
       /\ Permutation (LSP26.mutualConnections r)
                      (Spec.mutualFollowersFirst followers following)
       /\ LSP26.mutualCount r
          = List.length (Spec.mutualFollowersFirst followers following))
  /\ LSP26.getMutualConnections (Some (ledgerClient abcde)) "0xAa"
     = Ok {| LSP26.allFollowers := ["0xBb"; "0xCc"; "0xDd"];
             LSP26.allFollowing := ["0xcC"; "0xDD"; "0xEe"];
             LSP26.mutualConnections := ["0xcc"; "0xdd"];
             LSP26.mutualCount := 2 |}
  /\ Dashboard.fetchStats (Some (ledgerClient abcde)) true ["0xAa"]
     = Dashboard.SetStats
         {| Dashboard.followerCount := 3;
            Dashboard.followingCount := 3;
            Dashboard.mutualCount := 2;
            Dashboard.nonMutualCount := 1;
            Dashboard.nonFollowingBack := 1;
            Dashboard.suggestedProfiles := 25 |}.
Proof.
  split; [| split; reflexivity].
  intros L A followers following.
  assert (exists r,
    LSP26.getMutualConnections (Some (ledgerClient L)) A = Ok r
    /\ (forall B, In B (LSP26.mutualConnections r)
                  <-> Spec.mutual followers following B)
    /\ NoDup (LSP26.mutualConnections r)
    /\ LSP26.mutualCount r = List.length (LSP26.mutualConnections r))
    as (r & Hr & Hin & Hnd & Hcount).
  { rewrite getMutualConnections_ledger. fold followers following.
    eexists. split; [reflexivity |].
    destruct (List.length followers =? 0)%nat eqn:E1;
      [| destruct (List.length following =? 0)%nat eqn:E2]; cbn [orb].
    - apply Nat.eqb_eq, length_zero_iff_nil in E1. rewrite E1. simpl.
      repeat split; try constructor; try easy.
      intros H. now apply mutual_nil_l in H.
    - apply Nat.eqb_eq, length_zero_iff_nil in E2. rewrite E2. simpl.
      repeat split; try constructor; try easy.
      intros H. now apply mutual_nil_r in H.
    - cbn [LSP26.mutualConnections LSP26.mutualCount].
      split; [intros B; apply collectMutual_In |].
      split; [apply Set_new_NoDup | reflexivity]. }
  assert (Permutation (LSP26.mutualConnections r)
                      (Spec.mutualFollowersFirst followers following)) as HP.
  { apply NoDup_Permutation; [assumption | apply Set_new_NoDup |].
    intros B. now rewrite Hin, mutualFollowersFirst_In. }
  exists r. do 5 (split; [assumption |]).
  rewrite Hcount. now apply Permutation_length.
Qed.

(** C10: whenever [getFollowerCount] or [getFollowingCount] returns 0, be it
    a true zero or a failed read reported as 0, [getMutualConnections]
    returns the snapshot whose four fields are empty, whatever the other
    direction holds. *)
Theorem getMutualConnections_short_circuit
  (c : option PublicClient) (A : AccountId) :
  LSP26.getFollowerCount c A = Ok 0 \/ LSP26.getFollowingCount c A = Ok 0 ->
  LSP26.getMutualConnections c A = Ok LSP26.emptyConnections.
Proof.
  intros H. unfold LSP26.getMutualConnections.
  destruct (getFollowerCount_total c A) as [n En].
  destruct (getFollowingCount_total c A) as [m Em].
  rewrite En, Em. simpl bind.
  assert ((n =? 0)%nat || (m =? 0)%nat = true) as ->; [| reflexivity].
  destruct H as [H | H]; rewrite H in *.
  - injection En as <-. reflexivity.
  - injection Em as <-. apply orb_true_r.
Qed.

(** An account that follows two accounts and has no follower is reported
    as following nobody; so is an account whose following count cannot be
    read. *)
Lemma getMutualConnections_short_circuit_witness :
  (followsOf noFollowers "0xaa" = ["0xB1"; "0xB2"]
   /\ LSP26.getMutualConnections (Some (ledgerClient noFollowers)) "0xAa"
      = Ok LSP26.emptyConnections)
  /\ (followingCount followingCountFails "0xAa" = Throw "HTTP request failed"
      /\ LSP26.getMutualConnections (Some followingCountFails) "0xAa"
         = Ok LSP26.emptyConnections).
Proof.
  split; (split; [reflexivity |]).
  - apply (getMutualConnections_short_circuit
             (Some (ledgerClient noFollowers)) "0xAa").
    left. reflexivity.
  - apply (getMutualConnections_short_circuit (Some followingCountFails) "0xAa").
    right. reflexivity.
Defined.

(** C4, as the code has it: when the count read fails, [getFollowerCount]
    and [getFollowingCount] do not fail; they return 0, and the value read
    otherwise. *)
Theorem counts_return_zero_on_failure
  (c : option PublicClient) (a : AccountId) :
  LSP26.getFollowerCount c a
  = Ok match LSP26.readContract c (fun pc => followerCount pc a) with
       | Ok n => n
       | Throw _ => 0
       end
  /\ LSP26.getFollowingCount c a
     = Ok match LSP26.readContract c (fun pc => followingCount pc a) with
          | Ok n => n
          | Throw _ => 0
          end.
Proof.
  unfold LSP26.getFollowerCount, LSP26.getFollowingCount.
  split; destruct (LSP26.readContract c _); reflexivity.
Qed.

(** C4 fails as stated: with an unreachable endpoint both counts come back
    as a plain 0, the very value returned for an account nobody follows. *)
Lemma count_failure_reads_as_zero :
  followerCount unreachableClient "0xAa" = Throw "HTTP request failed"
  /\ LSP26.getFollowerCount (Some unreachableClient) "0xAa" = Ok 0
  /\ LSP26.getFollowerCount (Some (ledgerClient noFollowers)) "0xAa" = Ok 0
  /\ followingCount unreachableClient "0xAa" = Throw "HTTP request failed"
  /\ LSP26.getFollowingCount (Some unreachableClient) "0xAa" = Ok 0.
Proof. repeat split. Qed.

(** C3, as the code has it: [getAllFollowers], [getAllFollowing] and
    [getMutualConnections] never fail.  A fetch whose range read fails
    returns the empty list; the aggregation returns either the all-empty
    snapshot or the snapshot built from what the two fetches returned, and
    it has no mutual connection when one of them returned nothing. *)
Theorem aggregation_never_fails (c : option PublicClient) (A : AccountId) :
  (exists l, LSP26.getAllFollowers c A = Ok l)
  /\ (exists l, LSP26.getAllFollowing c A = Ok l)
  /\ (forall n e,
        LSP26.getFollowerCount c A = Ok n ->
        LSP26.readContract c (fun pc => getFollowersByIndex pc A 0 n) = Throw e ->
        LSP26.getAllFollowers c A = Ok [])
  /\ (forall n e,
        LSP26.getFollowingCount c A = Ok n ->
        LSP26.readContract c (fun pc => getFollowsByIndex pc A 0 n) = Throw e ->
        LSP26.getAllFollowing c A = Ok [])
  /\ exists r,
       LSP26.getMutualConnections c A = Ok r
       /\ (r = LSP26.emptyConnections
           \/ (LSP26.getAllFollowers c A = Ok (LSP26.allFollowers r)
               /\ LSP26.getAllFollowing c A = Ok (LSP26.allFollowing r)))
       /\ (LSP26.allFollowers r = [] \/ LSP26.allFollowing r = [] ->
           LSP26.mutualConnections r = [] /\ LSP26.mutualCount r = 0).
Proof.
  split; [apply getAllFollowers_total |].
  split; [apply getAllFollowing_total |].
  split; [| split].
  - intros n e Hn He. unfold LSP26.getAllFollowers. rewrite Hn. simpl bind.
    destruct (n =? 0)%nat; [reflexivity |]. now rewrite He.
  - intros n e Hn He. unfold LSP26.getAllFollowing. rewrite Hn. simpl bind.
    destruct (n =? 0)%nat; [reflexivity |]. now rewrite He.
  - destruct (getMutualConnections_shape c A) as (r & Hr & Hs).
    exists r. split; [assumption |]. split.
    + destruct Hs as [-> | (H1 & H2 & _)]; auto.
    + destruct Hs as [-> | (_ & _ & Hm & Hc)]; [easy |].
      intros [E | E]; rewrite Hc, Hm, E; simpl; auto.
      unfold LSP26.collectMutual. simpl.
      assert (forall l, filter (Set_has []) l = []) as ->; [| easy].
      induction l; simpl; auto.
Qed.

Lemma aggregation_never_fails_witness :
  LSP26.getAllFollowers (Some followersReadFails) "0xAa" = Ok [].
Proof.
  destruct (aggregation_never_fails (Some followersReadFails) "0xAa")
    as (_ & _ & H & _).
  apply (H 3 "HTTP request failed"); reflexivity.
Defined.

(** C3 fails as stated: the follower range read fails, yet the aggregation
    returns normally, with an empty follower list next to the three
    accounts followed. *)
Lemma aggregation_returns_partial_snapshot :
  getFollowersByIndex followersReadFails "0xAa" 0 3
  = Throw "HTTP request failed"
  /\ LSP26.getAllFollowers (Some followersReadFails) "0xAa" = Ok []
  /\ LSP26.getMutualConnections (Some followersReadFails) "0xAa"
     = Ok {| LSP26.allFollowers := [];
             LSP26.allFollowing := ["0xcC"; "0xDD"; "0xEe"];
             LSP26.mutualConnections := [];
             LSP26.mutualCount := 0 |}.
Proof. repeat split. Qed.

End Aggregation.

(** ** Recommendations: pagination, seed, exclusion and score *)

Section RecommendationClaims.
Import JS Ledger Recommendations Scenario.
Local Open Scope string_scope.

(** C2, evaluated on the code: on a ledger whose reads succeed the
    pagination loop of the recommendation flow ends after its first turn,
    for any fuel, and returns the first [PAGE_SIZE = 50] followers only: a
    page never has the [batchSize = 100] entries the loop waits for.  With
    51 followers the result has 50 entries and the last follower is
    missing. *)
Theorem fetchFollowers_returns_first_page_only :
  (forall (L : Ledger) (fuel : nat) (A : AccountId),
     fetchFollowers (Some (ledgerClient L)) (S fuel) A
     = Some (Ok (firstn 50 (followersOf L (toLowerCase A)))))
  /\ List.length (followersOf fiftyOne "0xaa") = 51
  /\ In "0xf51" (followersOf fiftyOne "0xaa")
  /\ fetchFollowers (Some (ledgerClient fiftyOne)) 1 "0xAa"
     = Some (Ok (accountsFrom "0xf" 50))
  /\ ~ In "0xf51" (accountsFrom "0xf" 50).
Proof.
  split; [intros; apply fetchFollowers_ledger |].
  split; [reflexivity |].
  split; [vm_compute; tauto |].
  split; [reflexivity |].
  vm_compute. intuition discriminate.
Qed.

Lemma NoDup_app_disjoint {A : Type} (l1 l2 : list A) (x : A) :
  NoDup (l1 ++ l2)%list -> In x l1 -> In x l2 -> False.
Proof.
  induction l1 as [| a l1 IH]; simpl; [tauto |].
  intros H [-> | H1] H2; inversion H; subst.
  - apply H3, in_or_app. now right.
  - now apply IH.
Qed.

Lemma firstn_S_subset {A : Type} (n : nat) (l : list A) (x : A) :
  In x (firstn n l) -> In x (firstn (S n) l).
Proof.
  revert n. induction l as [| a l IH]; intros n H.
  - now rewrite firstn_nil in H.
  - destruct n as [| n]; [destruct H |].
    rewrite firstn_cons in *. destruct H as [H | H]; [now left |].
    right. now apply IH.
Qed.

Lemma firstn_filter_In {A : Type} (P : A -> bool) (n : nat) (l : list A) (x : A) :
  In x (firstn n l) -> P x = true -> In x (firstn n (filter P l)).
Proof.
  revert n. induction l as [| a l IH]; intros n H Hx.
  - now rewrite firstn_nil in H.
  - destruct n as [| n]; [destruct H |].
    rewrite firstn_cons in H. cbn [filter]. destruct H as [-> | H].
    + rewrite Hx. now left.
    + destruct (P a); [right; now apply IH |].
      apply firstn_S_subset. now apply IH.
Qed.

(** C9, as the code has it: the seed is the first 20 mutual followers, then
    the first 20 followers, then the first 20 followed accounts, in that
    order and 60 entries at most.  Nothing removes repetitions: a mutual
    follower among the first 20 followers is in the seed at least twice. *)
Theorem extendedNetwork_is_three_slices
  (allFollowers allFollowing : list AccountId) :
  let followingSet := Set_new (map toLowerCase allFollowing) in
  let mutualFollowers := mutualFollowersOf allFollowers followingSet in
  let extendedNetwork :=
    extendedNetworkOf mutualFollowers allFollowers allFollowing in
  extendedNetwork
  = (firstn 20 mutualFollowers ++ firstn 20 allFollowers
     ++ firstn 20 allFollowing)%list
  /\ List.length extendedNetwork <= 60
  /\ (forall x, In x mutualFollowers
                <-> In x allFollowers
                    /\ In (toLowerCase x) (map toLowerCase allFollowing))
  /\ (forall x, In x (firstn 20 allFollowers) ->
                In (toLowerCase x) (map toLowerCase allFollowing) ->
                ~ NoDup extendedNetwork).
Proof.
  intros followingSet mutualFollowers extendedNetwork.
  assert (extendedNetwork
          = (firstn 20 mutualFollowers ++ firstn 20 allFollowers
             ++ firstn 20 allFollowing)%list) as E.
  { unfold extendedNetwork, extendedNetworkOf. now rewrite !slice_0. }
  assert (forall x, In x mutualFollowers
                    <-> In x allFollowers
                        /\ In (toLowerCase x) (map toLowerCase allFollowing))
    as Hm.
  { intros x. unfold mutualFollowers, mutualFollowersOf, followingSet.
    now rewrite filter_In, Set_has_In, Set_new_In. }
  split; [exact E |]. split; [| split; [exact Hm |]].
  - rewrite E, !length_app, !length_firstn. lia.
  - intros x Hx Hf Hnd. rewrite E in Hnd.
    apply (NoDup_app_disjoint _ _ x Hnd).
    + unfold mutualFollowers, mutualFollowersOf.
      apply firstn_filter_In; [assumption |].
      apply Set_has_In. unfold followingSet. now apply Set_new_In.
    + apply in_or_app. now left.
Qed.

Lemma extendedNetwork_is_three_slices_witness :
  ~ NoDup (extendedNetworkOf
             (mutualFollowersOf ["0xB1"; "0xB2"]
                (Set_new (map toLowerCase ["0xb2"; "0xb3"])))
             ["0xB1"; "0xB2"] ["0xb2"; "0xb3"]).
Proof.
  apply (extendedNetwork_is_three_slices ["0xB1"; "0xB2"] ["0xb2"; "0xb3"])
    with (x := "0xB2").
  - simpl. tauto.
  - simpl. tauto.
Defined.

(** C9 fails as stated: for a requester whose one follower is also the one
    account followed, the seed holds that account three times. *)
Lemma extendedNetwork_repeats_accounts :
  fetchFollowers (Some (ledgerClient crowded)) 1 "0xAa" = Some (Ok ["0xb1"])
  /\ fetchFollowing (Some (ledgerClient crowded)) 1 "0xAa" = Some (Ok ["0xb1"])
  /\ extendedNetworkOf
       (mutualFollowersOf ["0xb1"] (Set_new (map toLowerCase ["0xb1"])))
       ["0xb1"] ["0xb1"]
     = ["0xb1"; "0xb1"; "0xb1"]
  /\ ~ NoDup ["0xb1"; "0xb1"; "0xb1"].
Proof.
  repeat split. intros H. inversion H; subst. simpl in *. tauto.
Qed.





(** C6, as the code has it, for a recommendation taken from the first 20
    ranked entries.  When the requester has at least one mutual follower
    it is scored [clamp(50, 98, round(mutualCount / seedSize * 100 * 0.7)
    + 6)], where [seedSize] is the length of the seed, [6 = round(20 *
    0.3)] and the arithmetic is that of JS numbers.  When the requester
    has no mutual follower, the recommendation at index [i] of the list
    is scored [clamp(50, 98, floor(x * 36) + 60 + 6)], [x] being the
    [i]-th value [Math.random()] returned. *)
Theorem network_score_is_clamped_weighted_overlap
  (Profile : Type) (c : option PublicClient)
  (getProfileData : AccountId -> Result (option Profile))
  (random : nat -> float) (fuel : nat) (accounts : list AccountId)
  (A : AccountId) (allFollowers allFollowing : list AccountId)
  (recs : list (RecommendedProfile Profile)) :
  Dashboard.firstAccount accounts = Some A ->
  fetchFollowers c fuel A = Some (Ok allFollowers) ->
  fetchFollowing c fuel A = Some (Ok allFollowing) ->
  generateRecommendations c getProfileData random fuel true accounts
  = Some (SetRecommendations recs) ->
  let followingSet := Set_new (map toLowerCase allFollowing) in
  let mutualFollowers := mutualFollowersOf allFollowers followingSet in
  let extendedNetwork :=
    extendedNetworkOf mutualFollowers allFollowers allFollowing in
  let sortedCandidates :=
    sortedCandidatesOf
      (fold_left (expand c A followingSet) extendedNetwork []) in
  (mutualFollowers <> [] ->
   forall r, In r recs ->
     (exists e, In e (firstn 20 sortedCandidates)
                /\ entry_address e = address r) ->
     score r
     = Spec.score (Recommendations.mutualFollowers r)
                  (List.length extendedNetwork) 6)
  /\ (mutualFollowers = [] ->
      forall i r, nth_error recs i = Some r ->
        (exists e, In e (firstn 20 sortedCandidates)
                   /\ entry_address e = address r) ->
        score r
        = Math_min 98 (Math_max 50 (Math_floor (random i * 36) + 60 + 6))%float).
Proof.
  intros HA HF HG Hgen followingSet mutuals extendedNetwork sortedCandidates.
  apply generateRecommendations_network in Hgen.
  destruct Hgen as (account & allFollowers' & allFollowing' & currentFollowing
                    & Hacc & HF' & HG' & _ & Hrecs & _).
  rewrite HA in Hacc. injection Hacc as <-.
  rewrite HF in HF'. injection HF' as <-.
  rewrite HG in HG'. injection HG' as <-.
  cbv zeta in Hrecs. fold followingSet mutuals extendedNetwork in Hrecs.
  fold sortedCandidates in Hrecs.
  assert (forall e, In e sortedCandidates
                    -> ref e < Map_size (fold_left (expand c A followingSet)
                                                   extendedNetwork []))
    as Hfresh.
  { intros e' He'. apply sortedCandidates_In in He'. exact (proj2 He'). }
  split.
  - intros Hm r Hr _.
    rewrite Hrecs in Hr. apply loop_In in Hr.
    destruct Hr as [[] | (e & st0 & st1 & _ & Hst & Hstep)].
    apply step_Some in Hstep.
    destruct Hstep as (_ & _ & _ & -> & ->).
    apply scoreOf_weighted; [assumption |].
    intros e' He'. specialize (Hfresh e' He'). simpl in Hst. lia.
  - intros Hm i r Hr _.
    rewrite Hrecs in Hr. apply loop_random in Hr; try assumption;
      [| reflexivity].
    destruct Hr as [Hr | [_ Hr]]; [destruct i; discriminate Hr | exact Hr].
Qed.

(** With a mutual follower the first recommendation on [crowded] is scored
    by the overlap; without one, on [noMutual], the five recommendations
    are scored from the five values drawn. *)
Lemma network_score_is_clamped_weighted_overlap_witness :
  score (hd blank (recommendationsOn crowded)) = Spec.score 3 3 6
  /\ exists recs,
       generateRecommendations (Some (ledgerClient noMutual)) noProfile
                               eighths 1 true ["0xAa"]
       = Some (SetRecommendations recs)
       /\ map (@score string) recs = [66; 70; 75; 79; 84]%float
       /\ forall i r, nth_error recs i = Some r ->
            score r
            = Math_min 98 (Math_max 50 (Math_floor (eighths i * 36) + 60 + 6))%float.
Proof.
  split.
  - pose proof (@network_score_is_clamped_weighted_overlap
                  string (Some (ledgerClient crowded)) noProfile zeros 1
                  ["0xAa"] "0xAa" ["0xb1"] ["0xb1"]
                  (recommendationsOn crowded)
                  eq_refl eq_refl eq_refl) as H.
    destruct H as [H _]; [vm_compute; reflexivity |].
    apply H.
    + vm_compute. discriminate.
    + vm_compute. left. reflexivity.
    + vm_compute. eexists. split; [left; reflexivity | reflexivity].
  - eexists. split; [vm_compute; reflexivity |].
    split; [vm_compute; reflexivity |].
    intros i r Hr.
    match type of Hr with
    | nth_error ?l _ = _ =>
      pose proof (@network_score_is_clamped_weighted_overlap
                    string (Some (ledgerClient noMutual)) noProfile eighths 1
                    ["0xAa"] "0xAa" ["0xb1"] [] l
                    eq_refl eq_refl eq_refl) as H
    end.
    destruct H as [_ H]; [vm_compute; reflexivity |].
    apply (H eq_refl i r Hr).
    clear H.
    destruct i as [| [| [| [| [| i]]]]]; cbn in Hr;
      try (destruct i; discriminate Hr);
      injection Hr as <-; cbn [address];
      match goal with
      | |- exists e, In e ?l /\ entry_address e = ?a =>
        let H := fresh in
        assert (In a (map entry_address l)) as H by (vm_compute; auto 10);
        apply in_map_iff in H; destruct H as (e & He1 & He2);
        exists e; split; assumption
      end.
Defined.

(** C6 fails as stated, twice.  A requester without mutual follower gets
    scores built on [Math.random()]: with one seed account and
    [mutualCount = 1] the formula gives 76, the code 66 when the draw is 0.
    And the bonus is not kept to the first 20 ranked entries: the entry
    ranked 21st is scored 76, bonus included, where the formula without
    bonus gives 70. *)
Lemma score_departs_from_formula :
  (List.length (extendedNetworkOf (mutualFollowersOf ["0xb1"] (Set_new []))
                                  ["0xb1"] []) = 1
   /\ map (@mutualFollowers string) (recommendationsOn noMutual)
      = [1; 1; 1; 1; 1]
   /\ map (@score string) (recommendationsOn noMutual)
      = [66; 66; 66; 66; 66]%float
   /\ Spec.score 1 1 6 = 76%float)
  /\ (List.length (extendedNetworkOf
                     (mutualFollowersOf ["0xb1"] (Set_new ["0xb1"]))
                     ["0xb1"] ["0xb1"]) = 3
      /\ option_map (@address string) (nth_error (recommendationsOn crowded) 20)
         = Some "0xc21"
      /\ option_map (@mutualFollowers string)
                    (nth_error (recommendationsOn crowded) 20) = Some 3
      /\ option_map (@score string) (nth_error (recommendationsOn crowded) 20)
         = Some 76%float
      /\ Spec.score 3 3 0 = 70%float).
Proof. vm_compute. repeat split. Qed.

(** The weighted overlap is rounded in binary64: for [mutualCount = 17]
    and a seed of 20 the product is 59.499999999999993 and the score 65,
    where the rationals give 59.5, rounded to 60, and 66. *)
Example score_rounds_in_binary64 :
  ((number_of_nat 17 / number_of_nat 20) * 100 * 0.7)%float
  = 59.499999999999993%float
  /\ Spec.score 17 20 6 = 65%float
  /\ Spec.exactWeightedOverlap 17 20 = 60%Z.
Proof. vm_compute. repeat split. Qed.

End RecommendationClaims.

(** ** Bulk follow and unfollow *)

Section MutationClaims.
Import JS Wallet FollowerManagement Scenario.
Local Open Scope string_scope.

Lemma batched_toasts (Profile : Type) (p : Provider) (mode : Mode)
  (selected : list (FollowerData Profile)) (w : World) :
  toasts (fst (batched p mode selected w)) = toasts w.
Proof.
  unfold batched.
  destruct (LSP26.MAX_BATCH_SIZE <? List.length (map _ selected))%nat;
    unfold bindM;
    match goal with
    | |- context [many p mode ?l w] =>
      pose proof (many_toasts p mode l w) as H;
      destruct (many p mode l w) as [w' [b | e]]
    end; exact H.
Qed.

(** The run of the handler when the batched call throws, in the terms of
    the handler's own parts. *)
Lemma fallback_run (Profile : Type) (p : Provider) (mode : Mode)
  (accounts : list AccountId) (followers : list (FollowerData Profile))
  (w0 wb : World) (e : string) :
  let selected := filter (eligible mode) followers in
  let n := List.length selected in
  Dashboard.firstAccount accounts <> None ->
  1 < n ->
  batched p mode selected (fst (toast (Loading (loadingMessage mode n)) w0))
  = (wb, Throw e) ->
  exists results w,
    handleSelected p mode true accounts followers w0
    = (w, Ok (updatedFollowersOf mode results followers))
    /\ map result_address results = map (@address Profile) selected
    /\ (walletClient p = true -> provider p = true ->
        (exists from others,
            requestAccounts p (attempts wb) = Ok (from :: others)) ->
        attempts w
        = (attempts wb
           ++ map (Spec.txOf mode) (map (@address Profile) selected))%list)
    /\ sent w
       = (sent wb ++ map (Spec.txOf mode)
                         (map result_address (filter success results)))%list
    /\ toasts w
       = (toasts w0
          ++ [Loading (loadingMessage mode n);
              if (successCountOf results =? n)%nat
              then Success (successMessage mode (successCountOf results))
              else Failure (partialMessage mode (successCountOf results) n)])%list.
Proof.
  intros selected n Hacc Hn Hbatch.
  pose proof (batched_toasts p mode selected
                (fst (toast (Loading (loadingMessage mode n)) w0))) as Htb.
  rewrite Hbatch in Htb. cbn [fst toast toasts] in Htb.
  set (wc := fst (console_error (batchError mode) wb)).
  pose proof (@individually_attempts_asked _ p mode selected wc) as Hatt.
  destruct (individually_outcome p mode selected wc)
    as (results & Hres & Haddr & Htoasts & Hsent).
  destruct (individually p mode selected wc) as [wi ri] eqn:Hind.
  cbn [fst snd] in Hres, Htoasts, Hsent, Hatt. subst ri.
  exists results.
  exists (fst (toast (if (successCountOf results =? n)%nat
                      then Success (successMessage mode (successCountOf results))
                      else Failure (partialMessage mode (successCountOf results) n))
                     wi)).
  split; [| split; [exact Haddr | split; [| split]]].
  - unfold handleSelected.
    destruct (Dashboard.firstAccount accounts); [| congruence].
    fold selected. fold n.
    replace (n =? 0)%nat with false by (symmetry; apply Nat.eqb_neq; lia).
    replace (n =? 1)%nat with false by (symmetry; apply Nat.eqb_neq; lia).
    unfold try_catchM at 1. unfold bindM at 1.
    cbn [toast]. unfold bindM at 1. unfold batchBranch, try_catchM at 1.
    cbn [fst toast] in Hbatch. rewrite Hbatch.
    unfold bindM at 1. cbn [console_error].
    change (individually p mode selected _)
      with (individually p mode selected wc).
    rewrite Hind. unfold bindM at 1.
    destruct (successCountOf results =? n)%nat; cbn [toast retM]; reflexivity.
  - intros Hw Hp (from & others & Hr). cbn [toast fst attempts].
    exact (Hatt from others Hw Hp Hr).
  - cbn [toast fst sent]. exact Hsent.
  - unfold wc in Htoasts. cbn [console_error fst toasts] in Htoasts.
    rewrite Htb in Htoasts.
    cbn [toast fst toasts]. rewrite Htoasts, <- app_assoc. reflexivity.
Qed.

(** C7: when more than one profile is selected and the batched call
    throws, the handler falls back to one individual call per selected
    profile and gets one result per profile, in the order of the
    selection, whatever the other calls gave.  When the wallet module is
    there and the wallet names an account, the transaction of every
    selected profile is handed to the wallet, none left out after a
    failure.  The profiles reported as succeeded are exactly those whose
    transaction the wallet accepted.  The closing toast counts the results
    that succeeded against the number of selected profiles: a success
    toast when the two are equal, otherwise "Followed k of n profiles"
    ("Unfollowed k of n profiles").  The new list keeps every row in its
    place and changes a row only when the first result for its address is
    a success: the row then shows the account as followed and mutual
    (after an unfollow: as neither); every other row is returned as it
    was.  This holds for follow and for unfollow. *)
Theorem batch_failure_falls_back_to_individual_attempts
  (Profile : Type) (p : Provider) (mode : Mode) (accounts : list AccountId)
  (followers : list (FollowerData Profile)) (w0 wb : World) (e : string) :
  let selected := filter (eligible mode) followers in
  let n := List.length selected in
  let after := match mode with Following => true | Unfollowing => false end in
  Dashboard.firstAccount accounts <> None ->
  1 < n ->
  batched p mode selected
          (fst (toast (Loading (match mode with
                                | Following => "Following "
                                | Unfollowing => "Unfollowing "
                                end ++ show_nat n ++ " profiles...")) w0))
  = (wb, Throw e) ->
  exists results w,
    handleSelected p mode true accounts followers w0
    = (w, Ok (map (fun follower =>
                     match find (fun r => String.eqb (result_address r)
                                                     (address follower))
                                results with
                     | Some r =>
                       if success r
                       then {| address := address follower;
                               isMutual := after;
                               isFollowing := after;
                               isSelected := isSelected follower;
                               profile := profile follower |}
                       else follower
                     | None => follower
                     end) followers))
    /\ map result_address results = map (@address Profile) selected
    /\ (walletClient p = true -> provider p = true ->
        (exists from others,
            requestAccounts p (attempts wb) = Ok (from :: others)) ->
        attempts w
        = (attempts wb
           ++ map (Spec.txOf mode) (map (@address Profile) selected))%list)
    /\ sent w
       = (sent wb ++ map (Spec.txOf mode)
                         (map result_address (filter success results)))%list
    /\ toasts w
       = (toasts w0
          ++ let k := List.length (filter success results) in
             match mode with
             | Following =>
               [Loading ("Following " ++ show_nat n ++ " profiles...");
                if (k =? n)%nat
                then Success ("Successfully followed " ++ show_nat k
                              ++ " profiles")
                else Failure ("Followed " ++ show_nat k ++ " of "
                              ++ show_nat n ++ " profiles")]
             | Unfollowing =>
               [Loading ("Unfollowing " ++ show_nat n ++ " profiles...");
                if (k =? n)%nat
                then Success ("Successfully unfollowed " ++ show_nat k
                              ++ " profiles")
                else Failure ("Unfollowed " ++ show_nat k ++ " of "
                              ++ show_nat n ++ " profiles")]
             end)%list.
Proof.
  intros selected n after Hacc Hn Hbatch.
  assert (batched p mode selected
                  (fst (toast (Loading (loadingMessage mode n)) w0))
          = (wb, Throw e)) as Hbatch'
    by (destruct mode; exact Hbatch).
  destruct (fallback_run p mode accounts followers w0 Hacc Hn Hbatch')
    as (results & w & Hrun & Haddr & Hatt & Hsent & Htoasts).
  exists results, w.
  split; [| split; [exact Haddr | split; [exact Hatt | split; [exact Hsent |]]]].
  - rewrite Hrun. destruct mode; reflexivity.
  - rewrite Htoasts. destruct mode; reflexivity.
Qed.

(** The batch [X, Y, Z]: the batched call throws and [Y] alone fails on
    its own.  All three are still handed to the wallet, the report is
    2 of 3, and [X] and [Z] are marked while [Y] is not. *)
Lemma batch_failure_falls_back_to_individual_attempts_witness :
  exists results w,
    handleFollowSelected batchAndYFail true ["0xAa"] (xyz false) emptyWorld
    = (w, Ok [selectedFollower true "0xX"; selectedFollower false "0xY";
              selectedFollower true "0xZ"])
    /\ map result_address results = ["0xX"; "0xY"; "0xZ"]
    /\ map success results = [true; false; true]
    /\ attempts w
       = [FollowBatch ["0xX"; "0xY"; "0xZ"];
          Follow "0xX"; Follow "0xY"; Follow "0xZ"]
    /\ sent w = [Follow "0xX"; Follow "0xZ"]
    /\ toasts w
       = [Loading "Following 3 profiles...";
          Failure "Followed 2 of 3 profiles"].
Proof.
  destruct (@batch_failure_falls_back_to_individual_attempts
              string batchAndYFail Following ["0xAa"] (xyz false) emptyWorld
              {| attempts := [FollowBatch ["0xX"; "0xY"; "0xZ"]];
                 sent := [];
                 console := [Error "Error batch following:"];
                 toasts := [Loading "Following 3 profiles..."] |}
              "execution reverted")
    as (results & w & Hrun & Haddr & Hatt & Hsent & Htoasts).
  - vm_compute. discriminate.
  - vm_compute. lia.
  - reflexivity.
  - assert (sent w = [Follow "0xX"; Follow "0xZ"]) as Hw.
    { pose proof (f_equal (fun r => sent (fst r)) Hrun) as H.
      cbn [fst] in H. rewrite <- H. vm_compute. reflexivity. }
    rewrite Hw in Hsent. cbn in Haddr, Hsent.
    destruct results as [| [a1 [] e1] [| [a2 [] e2] [| [a3 [] e3] [|]]]];
      try discriminate Haddr; cbn in Haddr, Hsent;
      injection Haddr as -> -> ->; try discriminate Hsent.
    exists [{| result_address := "0xX"; success := true; error := e1 |};
            {| result_address := "0xY"; success := false; error := e2 |};
            {| result_address := "0xZ"; success := true; error := e3 |}], w.
    unfold handleFollowSelected.
    split; [rewrite Hrun; vm_compute; reflexivity |].
    split; [reflexivity |]. split; [reflexivity |].
    split; [apply Hatt; [reflexivity | reflexivity |];
            exists "0xAa", []; reflexivity |].
    split; [exact Hw | exact Htoasts].
Defined.

(** The same batch evaluated: the report is 2 of 3, [X] and [Z] are marked
    and [Y] is not; likewise for unfollow. *)
Example xyz_report :
  (toasts (fst (handleFollowSelected batchAndYFail true ["0xAa"] (xyz false)
                                     emptyWorld))
   = [Loading "Following 3 profiles..."; Failure "Followed 2 of 3 profiles"]
   /\ sent (fst (handleFollowSelected batchAndYFail true ["0xAa"] (xyz false)
                                      emptyWorld))
      = [Follow "0xX"; Follow "0xZ"]
   /\ snd (handleFollowSelected batchAndYFail true ["0xAa"] (xyz false)
                                emptyWorld)
      = Ok [selectedFollower true "0xX"; selectedFollower false "0xY";
            selectedFollower true "0xZ"])
  /\ (toasts (fst (handleUnfollowSelected batchAndYFail true ["0xAa"] (xyz true)
                                          emptyWorld))
      = [Loading "Unfollowing 3 profiles...";
         Failure "Unfollowed 2 of 3 profiles"]
      /\ snd (handleUnfollowSelected batchAndYFail true ["0xAa"] (xyz true)
                                     emptyWorld)
         = Ok [selectedFollower false "0xX"; selectedFollower true "0xY";
               selectedFollower false "0xZ"]).
Proof. vm_compute. repeat split. Qed.

(** [followMany] with more targets than the cap, on a wallet that accepts
    the batch: the first 50 are submitted, a warning goes to the console,
    and the caller gets [true]. *)
Lemma followMany_over_cap (p : Provider) (targetAddresses : list AccountId)
  (w : World) (from : AccountId) (others : list AccountId) (hash : string) :
  LSP26.MAX_BATCH_SIZE < List.length targetAddresses ->
  walletClient p = true ->
  provider p = true ->
  requestAccounts p (attempts w) = Ok (from :: others) ->
  sendTransaction p (attempts w) from (FollowBatch (firstn 50 targetAddresses))
  = Ok hash ->
  LSP26.followMany p targetAddresses w
  = ({| attempts := (attempts w ++ [FollowBatch (firstn 50 targetAddresses)])%list;
        sent := (sent w ++ [FollowBatch (firstn 50 targetAddresses)])%list;
        console := (console w ++ [Warn LSP26.capWarning])%list;
        toasts := toasts w |}, Ok true).
Proof.
  intros Hn Hw Hp Ha Hs.
  unfold LSP26.followMany, LSP26.requireWallet, LSP26.capped,
    LSP26.connectedAccount, try_catchM, bindM, retM, throwM, request, send,
    console_warn.
  rewrite Hw, Hp. cbn [negb].
  replace (List.length targetAddresses =? 0)%nat with false
    by (symmetry; apply Nat.eqb_neq; unfold LSP26.MAX_BATCH_SIZE in Hn; lia).
  apply Nat.ltb_lt in Hn. rewrite Hn. cbn [attempts sent console toasts].
  rewrite Ha. rewrite slice_0. change LSP26.MAX_BATCH_SIZE with 50.
  cbn [attempts sent console toasts]. rewrite Hs. reflexivity.
Qed.

(** C8, evaluated on the code with 60 targets and a wallet that accepts
    the batch.  [followMany] submits the first 50, warns on the console and
    returns [true].  The followers page passes all 60 to it, then toasts
    that 60 profiles were followed and marks all 60 rows.  The management
    page cuts the list itself and reports 50 of 60, the last 10 rows left
    unmarked. *)
Theorem followMany_drops_targets_beyond_cap :
  LSP26.followMany accepting sixty emptyWorld
  = ({| attempts := [FollowBatch (firstn 50 sixty)];
        sent := [FollowBatch (firstn 50 sixty)];
        console := [Warn LSP26.capWarning];
        toasts := [] |}, Ok true)
  /\ (sent (fst (Followers.handleFollowSelected accepting true ["0xAa"]
                                                sixtySelected emptyWorld))
      = [FollowBatch (firstn 50 sixty)]
      /\ toasts (fst (Followers.handleFollowSelected accepting true ["0xAa"]
                                                     sixtySelected emptyWorld))
         = [Loading "Following 60 profiles...";
            Success "Successfully followed 60 profiles"]
      /\ snd (Followers.handleFollowSelected accepting true ["0xAa"]
                                             sixtySelected emptyWorld)
         = Ok {| Followers.followers :=
                   map (fun a => Followers.followed (row a)) sixty;
                 Followers.selectedProfiles := [] |})
  /\ (sent (fst (handleFollowSelected accepting true ["0xAa"]
                    (map (selectedFollower false) sixty) emptyWorld))
      = [FollowBatch (firstn 50 sixty)]
      /\ toasts (fst (handleFollowSelected accepting true ["0xAa"]
                        (map (selectedFollower false) sixty) emptyWorld))
         = [Loading "Following 60 profiles...";
            Failure "Followed 50 of 60 profiles"]
      /\ snd (handleFollowSelected accepting true ["0xAa"]
                 (map (selectedFollower false) sixty) emptyWorld)
         = Ok (map (selectedFollower true) (firstn 50 sixty)
               ++ map (selectedFollower false) (skipn 50 sixty))%list).
Proof. vm_compute. repeat split. Qed.

End MutationClaims.

(** * Further properties *)

(** ** Paged reads *)

Section PagedReads.
Import JS Ledger Scenario.
Local Open Scope string_scope.

Lemma firstn_plus {A : Type} (n m : nat) (l : list A) :
  firstn (n + m) l = (firstn n l ++ firstn m (skipn n l))%list.
Proof.
  revert l. induction n as [| n IH]; intros l; [reflexivity |].
  destruct l as [| x l]; simpl.
  - now rewrite firstn_nil.
  - now rewrite IH.
Qed.

(** X1: On a ledger whose reads succeed, [getFollowers] and [getFollowing]
    return the entries at the indices from [startIndex] up to 50 further,
    cut at the end of the list; a start at or beyond the end gives the
    empty list (the contract's revert for a start beyond the end is
    swallowed). *)
Theorem getFollowers_page_contract (L : Ledger) (a : AccountId) (s k : nat) :
  LSP26.getFollowers (Some (ledgerClient L)) a s
  = Ok (firstn 50 (skipn s (followersOf L (toLowerCase a))))
  /\ LSP26.getFollowing (Some (ledgerClient L)) a s
     = Ok (firstn 50 (skipn s (followsOf L (toLowerCase a))))
  /\ LSP26.getFollowers (Some (ledgerClient L)) a
       (List.length (followersOf L (toLowerCase a)) + k) = Ok []
  /\ LSP26.getFollowing (Some (ledgerClient L)) a
       (List.length (followsOf L (toLowerCase a)) + k) = Ok [].
Proof.
  rewrite !getFollowers_ledger, !getFollowing_ledger.
  change LSP26.PAGE_SIZE with 50.
  repeat split; rewrite skipn_all2 by lia; reflexivity.
Qed.

Lemma pagesBy_ledger (l : list AccountId)
  (getPage : nat -> Result (list AccountId)) (k : nat) :
  (forall s, getPage s = Ok (firstn 50 (skipn s l))) ->
  Spec.pagesBy getPage 50 k = firstn (k * 50) l.
Proof.
  intros Hp. unfold Spec.pagesBy. induction k as [| k IH]; [reflexivity |].
  rewrite seq_S, flat_map_app, IH. cbn [flat_map Nat.add].
  rewrite Hp, app_nil_r.
  replace (S k * 50) with (k * 50 + 50) by lia. now rewrite firstn_plus.
Qed.

(** X2: Pages asked for 50 indices apart fit together: [k] of them, appended,
    are the first [50 k] followers, and all of them, each once and in
    ledger order, as soon as [50 k] reaches their number. *)
Theorem pages_by_PAGE_SIZE_reconstruct (L : Ledger) (a : AccountId) (k : nat) :
  List.length (followersOf L (toLowerCase a)) <= k * LSP26.PAGE_SIZE ->
  Spec.pagesBy (LSP26.getFollowers (Some (ledgerClient L)) a) LSP26.PAGE_SIZE k
  = followersOf L (toLowerCase a).
Proof.
  intros Hk. change LSP26.PAGE_SIZE with 50 in *.
  rewrite (pagesBy_ledger (followersOf L (toLowerCase a))).
  - now apply firstn_all2.
  - intros s. apply getFollowers_ledger.
Qed.

Lemma pages_by_PAGE_SIZE_reconstruct_witness :
  Spec.pagesBy (LSP26.getFollowers (Some (ledgerClient fiftyOne)) "0xAa")
               LSP26.PAGE_SIZE 2
  = followersOf fiftyOne (toLowerCase "0xAa").
Proof.
  apply (pages_by_PAGE_SIZE_reconstruct fiftyOne "0xAa" 2).
  vm_compute. lia.
Defined.

End PagedReads.

(** ** The dashboard counts *)

Section DashboardCounts.
Import JS Ledger Scenario.
Local Open Scope string_scope.

Lemma Set_new_length (l : list string) : List.length (Set_new l) <= List.length l.
Proof.
  unfold Set_new.
  assert (forall acc, List.length (fold_left Set_add l acc)
                      <= List.length acc + List.length l) as H.
  { induction l as [| x l IH]; intros acc; simpl; [lia |].
    specialize (IH (Set_add acc x)). unfold Set_add in *.
    destruct (Set_has acc x); [lia |]. rewrite length_app in IH. simpl in IH.
    lia. }
  apply (H []).
Qed.

(** Whatever the client answers, the snapshot never counts more mutual
    connections than it lists followers, nor than it lists followed
    accounts. *)
Lemma mutualCount_bounded (c : option PublicClient) (a : AccountId)
  (r : LSP26.MutualConnections) :
  LSP26.getMutualConnections c a = Ok r ->
  LSP26.mutualCount r <= List.length (LSP26.allFollowers r)
  /\ LSP26.mutualCount r <= List.length (LSP26.allFollowing r).
Proof.
  intros Hr. destruct (getMutualConnections_shape c a) as (r' & Hr' & Hs).
  rewrite Hr in Hr'. injection Hr' as <-.
  destruct Hs as [-> | (_ & _ & Hm & Hc)]; [simpl; lia |].
  rewrite Hc, Hm. split.
  - transitivity (List.length (Set_new (map toLowerCase (LSP26.allFollowers r)))).
    + apply NoDup_incl_length; [apply Set_new_NoDup |].
      intros x Hx. rewrite Set_new_In in Hx. unfold LSP26.collectMutual in Hx.
      rewrite filter_In in Hx. now apply Set_has_In.
    + rewrite Set_new_length. now rewrite length_map.
  - rewrite Set_new_length. unfold LSP26.collectMutual.
    rewrite filter_length_le. now rewrite length_map.
Qed.

(** X3: For a connected account [fetchStats] always reaches [setStats], never
    the error toast, whatever the client answers; the two one-way counts
    are never negative, each list count splits into mutual plus one-way,
    and 25 suggestions are announced exactly when one of the lists is not
    empty. *)
Theorem fetchStats_counts_are_consistent
  (c : option PublicClient) (accounts : list AccountId) (a : AccountId) :
  Dashboard.firstAccount accounts = Some a ->
  exists s,
    Dashboard.fetchStats c true accounts = Dashboard.SetStats s
    /\ (0 <= Dashboard.nonMutualCount s)%Z
    /\ (0 <= Dashboard.nonFollowingBack s)%Z
    /\ Z.of_nat (Dashboard.followerCount s)
       = (Z.of_nat (Dashboard.mutualCount s) + Dashboard.nonMutualCount s)%Z
    /\ Z.of_nat (Dashboard.followingCount s)
       = (Z.of_nat (Dashboard.mutualCount s) + Dashboard.nonFollowingBack s)%Z
    /\ (Dashboard.suggestedProfiles s = 0
        <-> Dashboard.followerCount s = 0 /\ Dashboard.followingCount s = 0)
    /\ (Dashboard.suggestedProfiles s = 0 \/ Dashboard.suggestedProfiles s = 25).
Proof.
  intros Ha. unfold Dashboard.fetchStats. rewrite Ha.
  destruct (getMutualConnections_shape c a) as (r & Hr & _).
  destruct (mutualCount_bounded c a Hr) as [H1 H2]. rewrite Hr.
  eexists. split; [reflexivity |]. cbn.
  repeat split; try lia;
    destruct (LSP26.allFollowers r), (LSP26.allFollowing r); cbn in *;
    try lia; try discriminate; auto.
Qed.

Lemma fetchStats_counts_are_consistent_witness :
  exists s,
    Dashboard.fetchStats (Some followersReadFails) true ["0xAa"]
    = Dashboard.SetStats s
    /\ (0 <= Dashboard.nonMutualCount s)%Z
    /\ (0 <= Dashboard.nonFollowingBack s)%Z
    /\ Z.of_nat (Dashboard.followerCount s)
       = (Z.of_nat (Dashboard.mutualCount s) + Dashboard.nonMutualCount s)%Z
    /\ Z.of_nat (Dashboard.followingCount s)
       = (Z.of_nat (Dashboard.mutualCount s) + Dashboard.nonFollowingBack s)%Z
    /\ (Dashboard.suggestedProfiles s = 0
        <-> Dashboard.followerCount s = 0 /\ Dashboard.followingCount s = 0)
    /\ (Dashboard.suggestedProfiles s = 0 \/ Dashboard.suggestedProfiles s = 25).
Proof.
  apply (fetchStats_counts_are_consistent (Some followersReadFails)
           ["0xAa"] (a := "0xAa")).
  reflexivity.
Defined.

End DashboardCounts.

(** ** The pagination loop on its own *)

Section PaginationLoop.
Import JS Ledger Recommendations Scenario.
Local Open Scope string_scope.

Lemma paginate_from (getPage : nat -> Result (list AccountId))
  (pages : nat -> list AccountId) (k : nat) :
  (forall i, i <= k -> getPage (i * batchSize) = Ok (pages i)) ->
  (forall i, i < k -> List.length (pages i) = batchSize) ->
  List.length (pages k) <> batchSize ->
  forall d j fuel all,
    j + d = k -> d < fuel ->
    paginate fuel getPage j all
    = Some (Ok (all ++ flat_map pages (seq j (S d)))%list).
Proof.
  intros Hp Hfull Hshort. induction d as [| d IH]; intros j fuel all Hj Hf;
    (destruct fuel as [| fuel]; [lia |]); cbn [paginate].
  - rewrite Nat.add_0_r in Hj. subst j. rewrite Hp by lia.
    apply Nat.eqb_neq in Hshort. rewrite Hshort. cbn. now rewrite app_nil_r.
  - rewrite Hp by lia. rewrite (Hfull j) by lia. rewrite Nat.eqb_refl.
    rewrite (IH (j + 1)) by lia.
    rewrite Nat.add_1_r. cbn [seq flat_map]. now rewrite <- app_assoc.
Qed.

(** X4: The loop is right for a source that serves [batchSize = 100] entries
    per page: if the pages before the [k]-th are full and the [k]-th is
    not, then with more than [k] units of fuel it ends and returns all
    [k + 1] pages, appended in order. *)
Theorem paginate_collects_until_short_page
  (getPage : nat -> Result (list AccountId)) (pages : nat -> list AccountId)
  (k fuel : nat) :
  (forall i, i <= k -> getPage (i * batchSize) = Ok (pages i)) ->
  (forall i, i < k -> List.length (pages i) = batchSize) ->
  List.length (pages k) <> batchSize ->
  k < fuel ->
  paginate fuel getPage 0 [] = Some (Ok (flat_map pages (seq 0 (S k)))).
Proof.
  intros Hp Hfull Hshort Hf.
  pose proof (paginate_from getPage pages Hp Hfull Hshort) as H.
  specialize (H k 0 fuel [] eq_refl Hf). exact H.
Qed.

Lemma paginate_collects_until_short_page_witness :
  paginate 3 hundredPerPage 0 []
  = Some (Ok (flat_map (fun i => firstn 100 (skipn (i * 100)
                                               (accountsFrom "0xe" 250)))
                       (seq 0 3))).
Proof.
  apply (paginate_collects_until_short_page hundredPerPage
           (fun i => firstn 100 (skipn (i * 100) (accountsFrom "0xe" 250)))
           (k := 2) (fuel := 3)).
  - intros i Hi. reflexivity.
  - intros i Hi. destruct i as [| [| i]]; [reflexivity | reflexivity | lia].
  - vm_compute. lia.
  - lia.
Defined.

(** A page that throws ends the loop with that error, whatever was
    collected. *)
Lemma paginate_throws (getPage : nat -> Result (list AccountId)) (e : string)
  (fuel page : nat) (all : list AccountId) :
  getPage (page * batchSize) = Throw e ->
  paginate (S fuel) getPage page all = Some (Throw e).
Proof. intros H. cbn [paginate]. now rewrite H. Qed.

End PaginationLoop.

(** ** Candidates, ranking and the returned list *)

Section CandidateFacts.
Import JS Ledger Recommendations.

Lemma fold_left_invariant_In {A B : Type} (P : A -> Prop) (f : A -> B -> A)
  (l : list B) (a : A) :
  P a -> (forall a b, In b l -> P a -> P (f a b)) -> P (fold_left f l a).
Proof.
  revert a. induction l as [| b l IH]; intros a Ha Hf; simpl; [assumption |].
  apply IH.
  - apply Hf; [now left | assumption].
  - intros a' b' Hb. apply Hf. now right.
Qed.

Lemma Map_get_In (m : CandidateMap) (k : AccountId) (d : CandidateData) :
  Map_get m k = Some d -> In (k, d) m.
Proof.
  induction m as [| [k' v'] m IH]; simpl; [discriminate |].
  destruct (String.eqb_spec k k') as [<- | _].
  - intros H. injection H as <-. now left.
  - intros H. right. now apply IH.
Qed.

Lemma Map_set_In (m : CandidateMap) (k k' : AccountId) (v d : CandidateData) :
  In (k', d) (Map_set m k v) -> (k' = k /\ d = v) \/ In (k', d) m.
Proof.
  induction m as [| [k0 v0] m IH]; simpl.
  - intros [H | []]. injection H as <- <-. now left.
  - destruct (String.eqb k k0); simpl.
    + intros [H | H]; [injection H as <- <-; now left | right; now right].
    + intros [H | H]; [right; now left |].
      destruct (IH H) as [? | ?]; [now left | right; now right].
Qed.

Lemma Map_set_NoDup (m : CandidateMap) (k : AccountId) (v : CandidateData) :
  NoDup (map fst m) -> NoDup (map fst (Map_set m k v)).
Proof.
  induction m as [| [k0 v0] m IH]; simpl; intros H.
  - repeat constructor. intros [].
  - inversion H as [| ? ? Hk0 Hm]; subst.
    destruct (String.eqb_spec k k0) as [-> | Hne]; simpl.
    + now constructor.
    + constructor; [| now apply IH].
      intros Hin. apply Map_set_keys in Hin. destruct Hin; congruence.
Qed.

Variable c : option PublicClient.
Variable account : AccountId.
Variable followingSet : JSSet.
Variable seed : list AccountId.

Let sound (m : CandidateMap) : Prop :=
  NoDup (map fst m) /\ forall k d, In (k, d) m -> Spec.explained seed d.

Lemma addCandidate_sound (networkAddress : AccountId) (m : CandidateMap)
  (potentialAddress : AccountId) :
  In networkAddress seed -> sound m ->
  sound (addCandidate account followingSet networkAddress m potentialAddress).
Proof.
  intros Hna [Hnd Hex]. unfold addCandidate.
  destruct (_ || _); [now split |].
  set (old := match Map_get m potentialAddress with
              | Some d => d
              | None => {| mutualCount := 0; sources := [] |}
              end).
  assert (NoDup (sources old) /\ incl (sources old) seed
          /\ List.length (sources old) <= mutualCount old) as (H1 & H2 & H3).
  { unfold old. destruct (Map_get m potentialAddress) as [d |] eqn:E.
    - apply Map_get_In, Hex in E. unfold Spec.explained in E. tauto.
    - simpl. repeat split; [constructor | intros x [] | lia]. }
  split; [now apply Map_set_NoDup |].
  intros k d Hin. apply Map_set_In in Hin. destruct Hin as [[_ ->] | Hin];
    [| now apply (Hex k)].
  unfold Spec.explained. cbn [sources mutualCount].
  destruct (includes (sources old) networkAddress) eqn:E.
  - apply includes_In in E. repeat split; try assumption; [| lia].
    intros Hn. rewrite Hn in E. destruct E.
  - assert (~ In networkAddress (sources old)) as Hn.
    { intros Hin. apply includes_In in Hin. congruence. }
    repeat split.
    + apply NoDup_app; [assumption | repeat constructor; intros [] |].
      intros x Hx [<- | []]. contradiction.
    + intros Happ. now apply app_eq_nil in Happ.
    + intros x Hx. apply in_app_or in Hx. destruct Hx as [Hx | [<- | []]]; auto.
    + rewrite length_app. simpl. lia.
Qed.

Lemma expand_sound (m : CandidateMap) (networkAddress : AccountId) :
  In networkAddress seed -> sound m ->
  sound (expand c account followingSet m networkAddress).
Proof.
  intros Hna Hm. unfold expand.
  destruct (LSP26.getFollowing c networkAddress 0) as [nf |]; [| exact Hm].
  assert (sound (fold_left (addCandidate account followingSet networkAddress)
                           nf m)) as H1.
  { apply fold_left_invariant; [exact Hm |].
    intros; now apply addCandidate_sound. }
  destruct (LSP26.getFollowers c networkAddress 0) as [nfr |]; [| exact H1].
  apply fold_left_invariant; [exact H1 |].
  intros; now apply addCandidate_sound.
Qed.

Lemma candidate_map_sound :
  sound (fold_left (expand c account followingSet) seed []).
Proof.
  apply fold_left_invariant_In.
  - split; [constructor | intros k d []].
  - intros; now apply expand_sound.
Qed.

(** X5: Whatever the client answers, the candidate map built from a seed has
    one entry per candidate address, and every entry names its sources:
    seed accounts, each once, at least one, and no more of them than the
    candidate's [mutualCount] (which is therefore at least 1); no candidate
    is the requester or in the following set. *)
Theorem candidateProfiles_are_explained :
  let m := fold_left (expand c account followingSet) seed [] in
  NoDup (map fst m)
  /\ forall k d, In (k, d) m ->
       Spec.explained seed d
       /\ 1 <= mutualCount d
       /\ Spec.admissible account followingSet k.
Proof.
  intros m. destruct candidate_map_sound as [Hnd Hex]. fold m in Hnd, Hex.
  split; [assumption |]. intros k d Hin.
  pose proof (Hex k d Hin) as He. split; [assumption |]. split.
  - destruct He as (_ & Hne & _ & Hl).
    destruct (sources d); [congruence | simpl in Hl; lia].
  - apply (candidateProfiles_admissible account followingSet c seed).
    apply in_map_iff. now exists (k, d).
Qed.

End CandidateFacts.

Lemma candidateProfiles_are_explained_witness :
  Spec.explained ["0xb1"; "0xb1"; "0xb1"]%string
    {| Recommendations.mutualCount := 3;
       Recommendations.sources := ["0xb1"%string] |}
  /\ 1 <= 3
  /\ Spec.admissible "0xAa"%string (JS.Set_new ["0xb1"%string]) "0xc1"%string.
Proof.
  apply (proj2 (candidateProfiles_are_explained
                  (Some (Ledger.ledgerClient Scenario.crowded)) "0xAa"%string
                  (JS.Set_new ["0xb1"%string])
                  ["0xb1"; "0xb1"; "0xb1"]%string)
               "0xc1"%string).
  vm_compute. left. reflexivity.
Defined.

Section RankingFacts.
Import JS Ledger Recommendations.

Lemma StronglySorted_firstn {A : Type} (R : A -> A -> Prop) (n : nat)
  (l : list A) : StronglySorted R l -> StronglySorted R (firstn n l).
Proof.
  revert n. induction l as [| x l IH]; intros n H.
  - rewrite firstn_nil. constructor.
  - destruct n as [| n]; [constructor |]. rewrite firstn_cons.
    inversion H as [| ? ? Hl Hx]; subst. constructor; [now apply IH |].
    rewrite Forall_forall in *. intros y Hy. apply Hx.
    now apply firstn_subset in Hy.
Qed.

Lemma StronglySorted_filter {A : Type} (R : A -> A -> Prop) (f : A -> bool)
  (l : list A) : StronglySorted R l -> StronglySorted R (filter f l).
Proof.
  induction l as [| x l IH]; intros H; simpl; [constructor |].
  inversion H as [| ? ? Hl Hx]; subst.
  destruct (f x); [| now apply IH]. constructor; [now apply IH |].
  rewrite Forall_forall in *. intros y Hy. apply Hx.
  now apply filter_In in Hy.
Qed.

Lemma entries_addresses (m : CandidateMap) (n : nat) :
  map entry_address (entries n m) = map fst m.
Proof.
  revert n. induction m as [| [k v] m IH]; intros n; simpl; [reflexivity |].
  now rewrite IH.
Qed.

Lemma entries_pairs (m : CandidateMap) (n : nat) (e : Entry) :
  In e (entries n m) -> In (entry_address e, entry_data e) m.
Proof.
  revert n. induction m as [| [k v] m IH]; intros n; simpl; [tauto |].
  intros [<- | H]; [now left | right; now apply (IH (S n))].
Qed.

Lemma sortedCandidatesOf_length (m : CandidateMap) :
  List.length (sortedCandidatesOf m) = Nat.min 50 (Map_size m).
Proof.
  unfold sortedCandidatesOf. rewrite slice_0, length_firstn.
  rewrite (Permutation_length (sort_Permutation byMutualCountDesc _)).
  unfold Map_size. f_equal.
  rewrite <- (length_map entry_address), entries_addresses.
  apply length_map.
Qed.

Lemma sortedCandidatesOf_pairs (m : CandidateMap) (e : Entry) :
  In e (sortedCandidatesOf m) -> In (entry_address e, entry_data e) m.
Proof.
  unfold sortedCandidatesOf. rewrite slice_0. intros He.
  apply firstn_subset, sort_In in He. now apply entries_pairs in He.
Qed.

(** X6: [sortedCandidates] is the first 50 entries of a list that holds every
    entry of the candidate map once, highest [mutualCount] first, entries
    with the same count in the order in which they entered the map. *)
Theorem sortedCandidates_are_ranked (m : CandidateMap) :
  Spec.ranked (sortedCandidatesOf m)
  /\ List.length (sortedCandidatesOf m) = Nat.min 50 (Map_size m)
  /\ (forall e, In e (sortedCandidatesOf m) ->
                In (entry_address e, entry_data e) m)
  /\ exists all,
       sortedCandidatesOf m = firstn 50 all
       /\ Permutation all (entries 0 m)
       /\ Spec.ranked all
       /\ forall k, Spec.withCount k all = Spec.withCount k (entries 0 m).
Proof.
  split.
  { unfold sortedCandidatesOf. rewrite slice_0.
    apply StronglySorted_firstn, sort_ranked. }
  split; [apply sortedCandidatesOf_length |].
  split; [apply sortedCandidatesOf_pairs |].
  exists (sort byMutualCountDesc (entries 0 m)).
  unfold sortedCandidatesOf. rewrite slice_0.
  split; [reflexivity |]. split; [apply sort_Permutation |].
  split; [apply sort_ranked |]. intros k. apply sort_stable.
Qed.

Lemma sortedCandidates_are_ranked_witness :
  In ("0xc2"%string, {| mutualCount := 2; sources := ["0xb1"%string] |})
     [("0xc1"%string, {| mutualCount := 1; sources := ["0xb1"%string] |});
      ("0xc2"%string, {| mutualCount := 2; sources := ["0xb1"%string] |})].
Proof.
  destruct (sortedCandidates_are_ranked
              [("0xc1"%string, {| mutualCount := 1; sources := ["0xb1"%string] |});
               ("0xc2"%string, {| mutualCount := 2; sources := ["0xb1"%string] |})])
    as (_ & _ & H & _).
  apply (H {| ref := 1; entry_address := "0xc2"%string;
              entry_data := {| mutualCount := 2; sources := ["0xb1"%string] |} |}).
  vm_compute. left. reflexivity.
Defined.

End RankingFacts.

Section ReturnedList.
Import JS Ledger Recommendations.

Variable Profile : Type.
Variable c : option PublicClient.
Variable getProfileData : AccountId -> Result (option Profile).
Variable random : nat -> float.

(** What one turn of the last loop pushes, if anything, does not depend on
    the state. *)
Lemma processCandidate_passes (account : AccountId) (cfs : JSSet)
  (mutuals network : list AccountId) (sorted : list Entry) (e : Entry)
  (st : LoopState) :
  match fst (processCandidate c getProfileData random account cfs mutuals
                              network sorted e st) with
  | Some r =>
    Spec.passes c account cfs e = true
    /\ address r = entry_address e
    /\ mutualFollowers r = mutualCount (entry_data e)
    /\ mutualFollowerSources r = sourcesWithProfilesOf getProfileData (entry_data e)
  | None => Spec.passes c account cfs e = false
  end.
Proof.
  unfold processCandidate, Spec.passes.
  destruct (Set_has cfs _); [reflexivity |].
  destruct (LSP26.isFollowing c account (entry_address e)) as [[|] |];
    try reflexivity.
  destruct (scoreOf random mutuals network sorted (entry_data e) st).
  cbn. auto.
Qed.

Let summary (r : RecommendedProfile Profile) :=
  (address r, mutualFollowers r, mutualFollowerSources r).

Let expected (e : Entry) :=
  (entry_address e, mutualCount (entry_data e),
   sourcesWithProfilesOf getProfileData (entry_data e)).

(** The loop returns, in order, one recommendation per entry that passes
    the two re-checks. *)
Lemma processCandidates_kept (account : AccountId) (cfs : JSSet)
  (mutuals network : list AccountId) (sorted todo : list Entry)
  (st : LoopState) (acc : list (RecommendedProfile Profile)) :
  map summary (processCandidates c getProfileData random account cfs mutuals
                                 network sorted todo st acc)
  = (map summary acc
     ++ map expected (filter (Spec.passes c account cfs) todo))%list.
Proof.
  revert st acc. induction todo as [| e todo IH]; intros st acc.
  - cbn. now rewrite app_nil_r.
  - cbn [processCandidates filter].
    pose proof (processCandidate_passes account cfs mutuals network sorted e st)
      as Hp.
    destruct (processCandidate c getProfileData random account cfs mutuals
                               network sorted e st) as [[r |] st'];
      cbn [fst] in Hp.
    + destruct Hp as (-> & Ha & Hm & Hs).
      rewrite IH, map_app. cbn [map]. rewrite <- app_assoc.
      unfold summary at 2, expected at 2. now rewrite Ha, Hm, Hs.
    + rewrite Hp. apply IH.
Qed.

(** Dropping entries keeps the addresses distinct. *)
Lemma kept_addresses_distinct (keep : Entry -> bool) (es : list Entry) :
  NoDup (map entry_address es) -> NoDup (map entry_address (filter keep es)).
Proof.
  induction es as [| e es IH]; cbn [map filter]; intros Hnd; [constructor |].
  apply NoDup_cons_iff in Hnd. destruct Hnd as [Hfresh Hrest].
  destruct (keep e); [| now apply IH]. cbn [map].
  apply NoDup_cons; [| now apply IH].
  intros Hin. apply Hfresh. apply in_map_iff in Hin.
  destruct Hin as (e' & He' & Hin). apply filter_In in Hin.
  apply in_map_iff. exists e'. tauto.
Qed.

Lemma NoDup_firstn {A : Type} (n : nat) (l : list A) :
  NoDup l -> NoDup (firstn n l).
Proof.
  intros H. rewrite <- (firstn_skipn n l) in H.
  now apply NoDup_app_remove_r in H.
Qed.

(** X7: Whatever the client answers, the list the network path hands to
    [setRecommendations] has between 5 and 50 entries, no address twice,
    and is in descending order of [mutualFollowers]; every entry has at
    least one mutual follower and between 1 and 10 sources, distinct and
    no more of them than [mutualFollowers]. *)
Theorem network_recommendations_are_ranked_and_distinct
  (fuel : nat) (isConnected : bool) (accounts : list AccountId)
  (recs : list (RecommendedProfile Profile)) :
  generateRecommendations c getProfileData random fuel isConnected accounts
  = Some (SetRecommendations recs) ->
  5 <= List.length recs <= 50
  /\ NoDup (map (@address Profile) recs)
  /\ StronglySorted (fun a b => b <= a) (map (@mutualFollowers Profile) recs)
  /\ Forall (fun r =>
               1 <= mutualFollowers r
               /\ 1 <= List.length (mutualFollowerSources r) <= 10
               /\ List.length (mutualFollowerSources r) <= mutualFollowers r
               /\ NoDup (map (@source_address Profile) (mutualFollowerSources r)))
            recs.
Proof.
  intros Hgen. apply generateRecommendations_network in Hgen.
  destruct Hgen as (account & allFollowers & allFollowing & currentFollowing
                    & _ & _ & _ & _ & Hrecs & H5).
  cbv zeta in Hrecs.
  set (followingSet := Set_new (map toLowerCase allFollowing)) in *.
  set (seed := extendedNetworkOf _ allFollowers allFollowing) in *.
  set (m := fold_left (expand c account followingSet) seed []) in *.
  set (cfs := Set_new (map toLowerCase currentFollowing)) in *.
  pose proof (processCandidates_kept account cfs
                (mutualFollowersOf allFollowers followingSet) seed
                (sortedCandidatesOf m) (sortedCandidatesOf m)
                {| draws := 0; nextRef := Map_size m |} []) as Hk.
  rewrite <- Hrecs in Hk. cbn [map app] in Hk.
  set (kept := filter (Spec.passes c account cfs) (sortedCandidatesOf m)) in *.
  pose proof (sortedCandidatesOf_length m) as Hlen.
  pose proof (sortedCandidatesOf_pairs m) as Hpairs.
  assert (Spec.ranked (sortedCandidatesOf m)) as Hranked.
  { unfold sortedCandidatesOf. rewrite slice_0.
    apply StronglySorted_firstn, sort_ranked. }
  destruct (candidate_map_sound c account followingSet seed)
    as (Hnd & Hex). fold m in Hnd, Hex.
  assert (map (@address Profile) recs = map entry_address kept) as Haddr.
  { rewrite <- (map_map summary (fun t => fst (fst t))), Hk, map_map.
    reflexivity. }
  assert (map (@mutualFollowers Profile) recs
          = map (fun e => mutualCount (entry_data e)) kept) as Hmc.
  { rewrite <- (map_map summary (fun t => snd (fst t))), Hk, map_map.
    reflexivity. }
  assert (List.length recs <= 50) as H50.
  { rewrite <- (length_map summary), Hk, length_map. unfold kept.
    rewrite filter_length_le, Hlen. lia. }
  split; [lia |]. split; [| split].
  - rewrite Haddr. unfold kept. apply kept_addresses_distinct.
    unfold sortedCandidatesOf. rewrite slice_0, <- firstn_map.
    apply NoDup_firstn.
    apply (Permutation_NoDup
             (l := map entry_address (entries 0 m))).
    + apply Permutation_map, Permutation_sym, sort_Permutation.
    + now rewrite entries_addresses.
  - rewrite Hmc. unfold kept.
    assert (forall l : list Entry,
              Spec.ranked l ->
              StronglySorted (fun a b => b <= a)
                             (map (fun e => mutualCount (entry_data e)) l)) as Hmap.
    { unfold Spec.ranked. induction l as [| x l IH]; intros H; simpl;
        [constructor |].
      inversion H as [| ? ? Hl Hx]; subst. constructor; [now apply IH |].
      rewrite Forall_forall in *. intros y Hy. apply in_map_iff in Hy.
      destruct Hy as (e & <- & He). now apply Hx. }
    apply Hmap. now apply StronglySorted_filter.
  - apply Forall_forall. intros r Hr.
    assert (In (summary r) (map expected kept)) as Hin.
    { rewrite <- Hk. now apply in_map. }
    apply in_map_iff in Hin. destruct Hin as (e & He & Hin).
    unfold summary, expected in He. injection He as Ha Hm Hs.
    apply filter_In in Hin. destruct Hin as [Hin _].
    apply Hpairs, Hex in Hin.
    destruct Hin as (Hnds & Hne & _ & Hl).
    assert (1 <= mutualCount (entry_data e)) as H1.
    { destruct (sources (entry_data e)); [congruence | cbn in Hl; lia]. }
    rewrite <- Hs, <- Hm. unfold sourcesWithProfilesOf.
    rewrite length_map, map_map, slice_0. cbn [source_address].
    rewrite map_id, length_firstn.
    split; [assumption |]. split; [| split].
    + destruct (sources (entry_data e)); [congruence |].
      cbn [List.length]. lia.
    + lia.
    + now apply NoDup_firstn.
Qed.

End ReturnedList.

Lemma network_recommendations_are_ranked_and_distinct_witness :
  5 <= List.length (Scenario.recommendationsOn Scenario.crowded) <= 50
  /\ NoDup (map (@Recommendations.address string)
                (Scenario.recommendationsOn Scenario.crowded))
  /\ StronglySorted (fun a b => b <= a)
       (map (@Recommendations.mutualFollowers string)
            (Scenario.recommendationsOn Scenario.crowded))
  /\ Forall (fun r =>
               1 <= Recommendations.mutualFollowers r
               /\ 1 <= List.length (Recommendations.mutualFollowerSources r) <= 10
               /\ List.length (Recommendations.mutualFollowerSources r)
                  <= Recommendations.mutualFollowers r
               /\ NoDup (map (@Recommendations.source_address string)
                             (Recommendations.mutualFollowerSources r)))
            (Scenario.recommendationsOn Scenario.crowded).
Proof.
  apply (@network_recommendations_are_ranked_and_distinct
           string (Some (Ledger.ledgerClient Scenario.crowded))
           Scenario.noProfile Scenario.zeros 1 true ["0xAa"%string]
           (Scenario.recommendationsOn Scenario.crowded)).
  vm_compute. reflexivity.
Defined.

(** ** The four mutation methods *)

Section MutationMethods.
Import JS Wallet Scenario.
Local Open Scope string_scope.

Variable p : Provider.

Ltac unfold_methods :=
  unfold LSP26.follow, LSP26.unfollow, LSP26.followMany,
    LSP26.unfollowMany, LSP26.capped, LSP26.requireWallet,
    LSP26.connectedAccount, try_catchM, bindM, retM, throwM, request, send,
    console_error, console_warn;
  cbn [fst snd attempts sent console toasts].

Ltac split_cases :=
  repeat (cbn;
          match goal with
          | |- context [if ?b then _ else _] => destruct b eqn:?
          | |- context [match requestAccounts p ?a with _ => _ end] =>
            destruct (requestAccounts p a) as [[| ? ?] | ?] eqn:?
          | |- context [sendTransaction p ?a ?f ?t] =>
            destruct (sendTransaction p a f t) eqn:?
          end).

(** X8: [follow] and [unfollow] either return [true], their one transaction
    handed to the wallet and accepted and no [console.warn] or
    [console.error] line written (the hash of the transaction goes to
    [console.log], which [console] does not record), or throw, with
    nothing accepted and exactly one [console.error] line written; they
    never return [false] and never toast. *)
Theorem follow_unfollow_outcome (a : AccountId) (w : World) :
  (let w' := fst (LSP26.follow p a w) in
   toasts w' = toasts w
   /\ match snd (LSP26.follow p a w) with
      | Ok b =>
        b = true
        /\ attempts w' = (attempts w ++ [Follow a])%list
        /\ sent w' = (sent w ++ [Follow a])%list
        /\ console w' = console w
      | Throw _ =>
        sent w' = sent w
        /\ console w' = (console w ++ [Error "Error following:"])%list
      end)
  /\ (let w' := fst (LSP26.unfollow p a w) in
      toasts w' = toasts w
      /\ match snd (LSP26.unfollow p a w) with
         | Ok b =>
           b = true
           /\ attempts w' = (attempts w ++ [Unfollow a])%list
           /\ sent w' = (sent w ++ [Unfollow a])%list
           /\ console w' = console w
         | Throw _ =>
           sent w' = sent w
           /\ console w' = (console w ++ [Error "Error unfollowing:"])%list
         end).
Proof.
  split; unfold_methods; split_cases; cbn; repeat split; reflexivity.
Qed.

(** X9: A batched call hands at most one transaction to the wallet, and that
    transaction never carries more than 50 addresses: it is the batch of
    the first 50 targets.  When the call returns, it returns [true]; the
    console then holds the cap warning exactly when there were more than
    50 targets, and nothing was sent exactly when there was no target.
    When it throws, nothing was accepted. *)
Theorem followMany_outcome (targetAddresses : list AccountId) (w : World) :
  let w' := fst (LSP26.followMany p targetAddresses w) in
  let batch := FollowBatch (firstn 50 targetAddresses) in
  List.length (firstn 50 targetAddresses) <= 50
  /\ (attempts w' = attempts w \/ attempts w' = (attempts w ++ [batch])%list)
  /\ toasts w' = toasts w
  /\ match snd (LSP26.followMany p targetAddresses w) with
     | Ok b =>
       b = true
       /\ sent w' = (sent w ++ if (List.length targetAddresses =? 0)%nat
                               then [] else [batch])%list
       /\ console w' = (console w
                        ++ if (50 <? List.length targetAddresses)%nat
                           then [Warn LSP26.capWarning] else [])%list
     | Throw _ => sent w' = sent w
     end.
Proof.
  intros w' batch. subst w' batch.
  split; [rewrite length_firstn; lia |].
  assert (firstn 50 targetAddresses = targetAddresses
          \/ (50 <? List.length targetAddresses)%nat = true) as Hcap.
  { destruct (Nat.ltb_spec 50 (List.length targetAddresses)); [now right |].
    left. now apply firstn_all2. }
  unfold_methods. change LSP26.MAX_BATCH_SIZE with 50. rewrite slice_0.
  remember (firstn 50 targetAddresses) as first50 eqn:Hf. clear Hf.
  destruct (List.length targetAddresses =? 0)%nat eqn:E0;
    destruct (50 <? List.length targetAddresses)%nat eqn:E50;
    try (apply Nat.eqb_eq in E0; apply Nat.ltb_lt in E50; lia);
    try (destruct Hcap as [Hcap | Hcap]; [rewrite Hcap | discriminate]);
    split_cases; cbn; rewrite ?app_nil_r; auto.
Qed.

(** X10: [unfollowMany] behaves as [followMany] does: it hands at most
    one transaction to the wallet, the batch of the first 50 targets;
    when it returns it returns [true], with the cap warning on the console
    exactly when there were more than 50 targets and nothing sent exactly
    when there was none; when it throws, nothing was accepted. *)
Theorem unfollowMany_outcome (targetAddresses : list AccountId) (w : World) :
  let w' := fst (LSP26.unfollowMany p targetAddresses w) in
  let batch := UnfollowBatch (firstn 50 targetAddresses) in
  (attempts w' = attempts w \/ attempts w' = (attempts w ++ [batch])%list)
  /\ toasts w' = toasts w
  /\ match snd (LSP26.unfollowMany p targetAddresses w) with
     | Ok b =>
       b = true
       /\ sent w' = (sent w ++ if (List.length targetAddresses =? 0)%nat
                               then [] else [batch])%list
       /\ console w' = (console w
                        ++ if (50 <? List.length targetAddresses)%nat
                           then [Warn LSP26.capWarning] else [])%list
     | Throw _ => sent w' = sent w
     end.
Proof.
  intros w' batch. subst w' batch.
  assert (firstn 50 targetAddresses = targetAddresses
          \/ (50 <? List.length targetAddresses)%nat = true) as Hcap.
  { destruct (Nat.ltb_spec 50 (List.length targetAddresses)); [now right |].
    left. now apply firstn_all2. }
  unfold_methods. change LSP26.MAX_BATCH_SIZE with 50. rewrite slice_0.
  remember (firstn 50 targetAddresses) as first50 eqn:Hf. clear Hf.
  destruct (List.length targetAddresses =? 0)%nat eqn:E0;
    destruct (50 <? List.length targetAddresses)%nat eqn:E50;
    try (apply Nat.eqb_eq in E0; apply Nat.ltb_lt in E50; lia);
    try (destruct Hcap as [Hcap | Hcap]; [rewrite Hcap | discriminate]);
    split_cases; cbn; rewrite ?app_nil_r; auto.
Qed.

End MutationMethods.

Section WalletPreconditions.
Import JS Wallet FollowerManagement Scenario.
Local Open Scope string_scope.

Variable p : Provider.

Ltac unfold_all :=
  unfold single, many, LSP26.follow, LSP26.unfollow, LSP26.followMany,
    LSP26.unfollowMany, LSP26.capped, LSP26.requireWallet,
    LSP26.connectedAccount, try_catchM, bindM, retM, throwM, request, send,
    console_error, console_warn;
  cbn [fst snd attempts sent console toasts].

(** X11: What the four methods do when the browser side is not ready.  Without
    [walletClient], or without [provider], or when the wallet returns no
    account, each of them throws the matching message and hands nothing to
    the wallet; the one exception is a batched call on the empty list,
    which returns [true] before any account is asked for, provided the two
    objects are there. *)
Theorem mutations_need_a_connected_wallet
  (mode : Mode) (a : AccountId) (targetAddresses : list AccountId) (w : World) :
  (walletClient p = false ->
   snd (single p mode a w) = Throw "WalletClient not found!"
   /\ snd (many p mode targetAddresses w) = Throw "WalletClient not found!"
   /\ attempts (fst (single p mode a w)) = attempts w
   /\ attempts (fst (many p mode targetAddresses w)) = attempts w)
  /\ (walletClient p = true -> provider p = false ->
      snd (single p mode a w) = Throw "UP Provider not found!"
      /\ snd (many p mode targetAddresses w) = Throw "UP Provider not found!"
      /\ attempts (fst (single p mode a w)) = attempts w
      /\ attempts (fst (many p mode targetAddresses w)) = attempts w)
  /\ (walletClient p = true -> provider p = true ->
      many p mode [] w = (w, Ok true)
      /\ (requestAccounts p (attempts w) = Ok [] ->
          snd (single p mode a w) = Throw "Connected account not found!"
          /\ attempts (fst (single p mode a w)) = attempts w
          /\ (targetAddresses <> [] ->
              snd (many p mode targetAddresses w)
              = Throw "Connected account not found!"
              /\ attempts (fst (many p mode targetAddresses w)) = attempts w))).
Proof.
  split; [| split].
  - intros Hw. destruct mode; unfold_all; rewrite Hw; cbn; auto.
  - intros Hw Hp. destruct mode; unfold_all; rewrite Hw, Hp; cbn; auto.
  - intros Hw Hp. split.
    + destruct mode; unfold_all; rewrite Hw, Hp; reflexivity.
    + intros Ha. split; [| split].
      * destruct mode; unfold_all; rewrite Hw, Hp; cbn [negb];
          rewrite Ha; reflexivity.
      * destruct mode; unfold_all; rewrite Hw, Hp; cbn [negb];
          rewrite Ha; reflexivity.
      * intros Hne. destruct targetAddresses as [| t ts]; [congruence |].
        destruct (LSP26.MAX_BATCH_SIZE <? List.length (t :: ts))%nat eqn:E;
          destruct mode; unfold_all; rewrite Hw, Hp, E;
          cbn [negb List.length Nat.eqb attempts]; rewrite Ha; auto.
Qed.

End WalletPreconditions.

Section WalletPreconditionsWitness.
Import JS Wallet FollowerManagement Scenario.
Local Open Scope string_scope.

Lemma mutations_need_a_connected_wallet_witness :
  (snd (single noWallet Following "0xX" emptyWorld)
   = Throw "WalletClient not found!"
   /\ snd (many noWallet Following ["0xX"; "0xY"] emptyWorld)
      = Throw "WalletClient not found!"
   /\ attempts (fst (single noWallet Following "0xX" emptyWorld))
      = attempts emptyWorld
   /\ attempts (fst (many noWallet Following ["0xX"; "0xY"] emptyWorld))
      = attempts emptyWorld)
  /\ (snd (single noAccounts Unfollowing "0xX" emptyWorld)
      = Throw "Connected account not found!"
      /\ many noAccounts Unfollowing [] emptyWorld = (emptyWorld, Ok true)).
Proof.
  split.
  - apply (mutations_need_a_connected_wallet noWallet Following "0xX"
             ["0xX"; "0xY"] emptyWorld).
    reflexivity.
  - destruct (mutations_need_a_connected_wallet noAccounts Unfollowing "0xX"
                ["0xX"] emptyWorld) as (_ & _ & H).
    destruct (H eq_refl eq_refl) as (H1 & H2).
    destruct (H2 eq_refl) as (H3 & _).
    split; [exact H3 | exact H1].
Defined.

End WalletPreconditionsWitness.
(** ** The bulk handlers of the management page *)

Section HandlerFacts.
Import JS Wallet FollowerManagement.
Local Open Scope string_scope.

Variable Profile : Type.
Variable p : Provider.

Ltac unfold_many :=
  unfold many, LSP26.followMany, LSP26.unfollowMany, LSP26.capped,
    LSP26.requireWallet, LSP26.connectedAccount, try_catchM, bindM, retM,
    throwM, request, send, console_error, console_warn;
  cbn [fst snd attempts sent console toasts].

Ltac split_many :=
  repeat (cbn;
          match goal with
          | |- context [requestAccounts p ?a] =>
            destruct (requestAccounts p a) as [[| ? ?] | ?] eqn:?
          | |- context [sendTransaction p ?a ?f ?t] =>
            destruct (sendTransaction p a f t) eqn:?
          | |- context [negb (walletClient p)] => destruct (walletClient p)
          | |- context [negb (provider p)] => destruct (provider p)
          end).

(** A batched call on a list that is not empty. *)
Lemma many_outcome (mode : Mode) (l : list AccountId) (w : World) :
  l <> [] ->
  let w' := fst (many p mode l w) in
  let batch := Spec.batchOf mode (firstn 50 l) in
  (attempts w' = attempts w \/ attempts w' = (attempts w ++ [batch])%list)
  /\ toasts w' = toasts w
  /\ match snd (many p mode l w) with
     | Ok b => sent w' = (sent w ++ [batch])%list
     | Throw _ => sent w' = sent w
     end.
Proof.
  intros Hne w' batch. subst w' batch.
  assert (firstn 50 l = l \/ (50 <? List.length l)%nat = true) as Hcap.
  { destruct (Nat.ltb_spec 50 (List.length l)); [now right |].
    left. now apply firstn_all2. }
  assert ((List.length l =? 0)%nat = false) as E0.
  { destruct l; [congruence | reflexivity]. }
  destruct mode; unfold_many; change LSP26.MAX_BATCH_SIZE with 50;
    rewrite slice_0, E0;
    remember (firstn 50 l) as first50 eqn:Hf; clear Hf;
    (destruct (50 <? List.length l)%nat eqn:E50;
     [| destruct Hcap as [Hcap | Hcap]; [rewrite Hcap | discriminate]]);
    split_many; cbn; auto.
Qed.

Lemma many_attempts_permitted (mode : Mode) (l addresses : list AccountId)
  (w : World) :
  l <> [] -> incl l addresses ->
  exists newA,
    attempts (fst (many p mode l w)) = (attempts w ++ newA)%list
    /\ Forall (Spec.permitted mode addresses) newA
    /\ List.length newA <= 1.
Proof.
  intros Hne Hincl.
  destruct (many_outcome mode w Hne) as ([Ha | Ha] & _).
  - exists []. rewrite app_nil_r. split; [exact Ha |]. split; [constructor | cbn; lia].
  - exists [Spec.batchOf mode (firstn 50 l)]. split; [exact Ha |].
    split; [| cbn; lia]. constructor; [| constructor].
    assert (Spec.targets (Spec.batchOf mode (firstn 50 l)) = firstn 50 l) as Ht
      by (destruct mode; reflexivity).
    unfold Spec.permitted. rewrite Ht. split; [destruct mode; reflexivity |].
    split; [destruct l; [congruence | discriminate] |].
    split; [| rewrite length_firstn; lia].
    intros x Hx. apply Hincl. now apply firstn_subset in Hx.
Qed.

Lemma single_attempts_weak (mode : Mode) (a : AccountId) (w : World) :
  attempts (fst (single p mode a w)) = attempts w
  \/ attempts (fst (single p mode a w))
     = (attempts w ++ [Spec.txOf mode a])%list.
Proof.
  destruct mode; unfold single, LSP26.follow, LSP26.unfollow,
    LSP26.requireWallet, LSP26.connectedAccount, try_catchM, bindM, retM,
    throwM, request, send, console_error;
    cbn [fst snd attempts sent console toasts]; split_many; cbn; auto.
Qed.

Lemma attempt_attempts_weak (mode : Mode) (f : FollowerData Profile)
  (w : World) :
  attempts (fst (attempt p mode f w)) = attempts w
  \/ attempts (fst (attempt p mode f w))
     = (attempts w ++ [Spec.txOf mode (address f)])%list.
Proof.
  pose proof (single_attempts_weak mode (address f) w) as H.
  unfold attempt, try_catchM, bindM, retM, console_error.
  destruct (single p mode (address f) w) as [w' [b | e]]; exact H.
Qed.

Lemma txOf_permitted (mode : Mode) (a : AccountId) (addresses : list AccountId) :
  In a addresses -> Spec.permitted mode addresses (Spec.txOf mode a).
Proof.
  intros Hin. unfold Spec.permitted.
  assert (Spec.targets (Spec.txOf mode a) = [a]) as Ht
    by (destruct mode; reflexivity).
  rewrite Ht. split; [destruct mode; reflexivity |].
  split; [discriminate |]. split; [| cbn; lia].
  intros x [<- | []]. exact Hin.
Qed.

Lemma permitted_incl (mode : Mode) (l l' : list AccountId) (tx : Tx) :
  incl l l' -> Spec.permitted mode l tx -> Spec.permitted mode l' tx.
Proof.
  intros Hi (H1 & H2 & H3 & H4). repeat split; auto.
  intros x Hx. apply Hi, H3, Hx.
Qed.

Lemma settleAll_attempts_weak (mode : Mode)
  (started : list (FollowerData Profile * LSP26.Started)) (w : World) :
  exists newA,
    attempts (fst (mapM (settle p mode) started w)) = (attempts w ++ newA)%list
    /\ Forall (Spec.permitted mode (map (fun fs => address (fst fs)) started))
              newA
    /\ List.length newA <= List.length started.
Proof.
  revert w. induction started as [| [f s] started IH]; intros w.
  - exists []. cbn. rewrite app_nil_r. auto.
  - destruct (settle_outcome p mode f s w) as (r & Hr & _ & _ & _ & Hf & _).
    rewrite mapM_cons.
    destruct (settle p mode (f, s) w) as [w1 r1]. cbn [fst snd] in *. subst r1.
    destruct (IH w1) as (newA & Ha & Hp & Hl).
    destruct (settleAll_outcome p mode started w1) as (rs & Hrs & _).
    destruct (mapM (settle p mode) started w1) as [w2 r2].
    cbn [fst snd] in *. subst r2. cbn [fst].
    assert (Forall (Spec.permitted mode
                      (map (fun fs => address (fst fs)) ((f, s) :: started)))
                   newA) as Hp'.
    { eapply Forall_impl; [| exact Hp]. intros tx. apply permitted_incl.
      cbn [map]. apply incl_tl, incl_refl. }
    destruct Hf as [Hf | Hf].
    + exists newA. rewrite Ha, Hf. split; [reflexivity |].
      split; [exact Hp' | cbn; lia].
    + exists (Spec.txOf mode (address f) :: newA).
      rewrite Ha, Hf, <- app_assoc. split; [reflexivity |].
      split; [| cbn; lia].
      constructor; [| exact Hp']. apply txOf_permitted. now left.
Qed.

Lemma individually_attempts_weak (mode : Mode)
  (selected : list (FollowerData Profile)) (w : World) :
  exists newA,
    attempts (fst (individually p mode selected w)) = (attempts w ++ newA)%list
    /\ Forall (Spec.permitted mode (map (@address Profile) selected)) newA
    /\ List.length newA <= List.length selected.
Proof.
  unfold individually.
  destruct (startAll_outcome p mode selected w) as (Ha & _ & _ & Hf & _).
  destruct (startAll p mode selected w) as [w1 started]. cbn [fst snd] in *.
  destruct (settleAll_attempts_weak mode started w1) as (newA & Hn & Hp & Hl).
  exists newA. rewrite Hn, Ha. split; [reflexivity |].
  rewrite <- Hf, map_map, length_map. auto.
Qed.

End HandlerFacts.

Section HandlerRuns.
Import JS Wallet FollowerManagement.
Local Open Scope string_scope.

Variable Profile : Type.
Variable p : Provider.

(** The result the batched branch records for the address at [index]. *)
Let flagged (a : AccountId) (index : nat) : FollowResult :=
  {| result_address := a;
     success := (index <? LSP26.MAX_BATCH_SIZE)%nat;
     error := None |}.

Lemma mapi_from_flagged_all (i : nat) (l : list AccountId) :
  i + List.length l <= 50 -> mapi_from i flagged l = map succeeded l.
Proof.
  revert i. induction l as [| a l IH]; intros i Hi; [reflexivity |].
  cbn [mapi_from map List.length] in *. rewrite IH by lia. f_equal.
  unfold flagged, succeeded. f_equal.
  apply Nat.ltb_lt. change LSP26.MAX_BATCH_SIZE with 50. lia.
Qed.

Lemma batched_eq (mode : Mode) (selected : list (FollowerData Profile))
  (w : World) :
  batched p mode selected w
  = match many p mode (firstn 50 (map (@address Profile) selected)) w with
    | (w', Ok _) => (w', Ok (mapi flagged (map (@address Profile) selected)))
    | (w', Throw e) => (w', Throw e)
    end.
Proof.
  unfold batched. change LSP26.MAX_BATCH_SIZE with 50.
  destruct (Nat.ltb_spec 50 (List.length (map (@address Profile) selected)))
    as [Hlt | Hle].
  - rewrite slice_0. unfold bindM, retM. reflexivity.
  - rewrite (firstn_all2 (n := 50)) by exact Hle. unfold bindM, retM.
    unfold mapi. rewrite mapi_from_flagged_all by (cbn; lia). reflexivity.
Qed.

Lemma flagged_addresses (i : nat) (l : list AccountId) :
  map result_address (mapi_from i flagged l) = l.
Proof.
  revert i. induction l as [| a l IH]; intros i; [reflexivity |].
  cbn [mapi_from map]. now rewrite IH.
Qed.

Lemma flagged_success (i : nat) (l : list AccountId) (r : FollowResult) :
  In r (mapi_from i flagged l) -> success r = true ->
  In (result_address r) (firstn (50 - i) l).
Proof.
  revert i. induction l as [| a l IH]; intros i Hin Hs; [destruct Hin |].
  cbn [mapi_from] in Hin. destruct Hin as [<- | Hin].
  - unfold flagged in Hs. cbn [success] in Hs.
    change LSP26.MAX_BATCH_SIZE with 50 in Hs. apply Nat.ltb_lt in Hs.
    destruct (50 - i) as [| k] eqn:E; [lia |]. now left.
  - specialize (IH (S i) Hin Hs).
    destruct (50 - i) as [| k] eqn:E.
    + replace (50 - S i) with 0 in IH by lia. destruct IH.
    + replace (50 - S i) with k in IH by lia. now right.
Qed.

Lemma flagged_find (i : nat) (l : list AccountId) (x : AccountId) :
  match find (fun r => String.eqb (result_address r) x)
             (mapi_from i flagged l) with
  | Some r => success r
  | None => false
  end = includes (firstn (50 - i) l) x.
Proof.
  revert i. induction l as [| a l IH]; intros i.
  - now rewrite firstn_nil.
  - cbn [mapi_from find]. cbn [flagged result_address].
    specialize (IH (S i)).
    destruct (50 - i) as [| k] eqn:E.
    + replace (50 - S i) with 0 in IH by lia. cbn [firstn includes existsb] in *.
      destruct (String.eqb a x); [| exact IH].
      cbn [success]. apply Nat.ltb_ge. change LSP26.MAX_BATCH_SIZE with 50. lia.
    + replace (50 - S i) with k in IH by lia.
      cbn [firstn]. unfold includes in *. cbn [existsb].
      rewrite (String.eqb_sym x a).
      destruct (String.eqb a x); [| exact IH].
      cbn [success orb]. apply Nat.ltb_lt. change LSP26.MAX_BATCH_SIZE with 50. lia.
Qed.

Lemma flagged_count (i : nat) (l : list AccountId) :
  successCountOf (mapi_from i flagged l) = Nat.min (List.length l) (50 - i).
Proof.
  unfold successCountOf. revert i. induction l as [| a l IH]; intros i;
    [reflexivity |].
  cbn [mapi_from filter]. cbn [flagged success]. specialize (IH (S i)).
  change LSP26.MAX_BATCH_SIZE with 50.
  destruct (Nat.ltb_spec i 50) as [Hlt | Hge]; cbn [List.length]; rewrite IH; lia.
Qed.

Lemma covers_txOf (mode : Mode) (a : AccountId) :
  Spec.covers mode (Spec.txOf mode a) a.
Proof. destruct mode; (split; [reflexivity | cbn; auto]). Qed.

Lemma covers_batchOf (mode : Mode) (a : AccountId) (l : list AccountId) :
  In a l -> Spec.covers mode (Spec.batchOf mode l) a.
Proof. destruct mode; (split; [reflexivity | cbn; auto]). Qed.

(** What the branch the handler takes leaves behind, when at least one
    row is eligible. *)
Lemma branch_outcome (mode : Mode) (selected : list (FollowerData Profile))
  (w : World) :
  selected <> [] ->
  let branch := if (List.length selected =? 1)%nat
                then singleBranch p mode selected
                else batchBranch p mode selected in
  exists results newS newA,
    snd (branch w) = Ok results
    /\ toasts (fst (branch w)) = toasts w
    /\ sent (fst (branch w)) = (sent w ++ newS)%list
    /\ attempts (fst (branch w)) = (attempts w ++ newA)%list
    /\ (forall r, In r results -> success r = true ->
          exists tx, In tx newS /\ Spec.covers mode tx (result_address r))
    /\ Forall (Spec.permitted mode (map (@address Profile) selected)) newA
    /\ List.length newA <= 1 + List.length selected
    /\ (forall f, selected = [f] ->
          newA = [] \/ newA = [Spec.txOf mode (address f)]).
Proof.
  intros Hne branch. subst branch.
  destruct selected as [| f rest]; [congruence |].
  destruct (List.length (f :: rest) =? 1)%nat eqn:E1.
  - cbn [singleBranch]. unfold bindM, retM.
    pose proof (attempt_attempts_weak p mode f w) as Ha.
    destruct (attempt_outcome p mode f w) as (r & Hr & Hra & Ht & Hs).
    destruct (attempt p mode f w) as [w1 r1]. cbn [fst snd] in *. subst r1.
    exists [r], (if success r then [Spec.txOf mode (address f)] else []).
    assert (forall newA,
              newA = [] \/ newA = [Spec.txOf mode (address f)] ->
              Forall (Spec.permitted mode (map (@address Profile) (f :: rest)))
                     newA
              /\ List.length newA <= 1 + List.length (f :: rest)) as Hperm.
    { intros newA [-> | ->]; (split; [| cbn; lia]); [constructor |].
      constructor; [| constructor]. apply txOf_permitted. now left. }
    assert (forall r', In r' [r] -> success r' = true ->
              exists tx, In tx (if success r then [Spec.txOf mode (address f)]
                                else [])
                         /\ Spec.covers mode tx (result_address r')) as Hcov.
    { intros r' [<- | []] Hsr. rewrite Hsr. eexists. split; [now left |].
      rewrite Hra. apply covers_txOf. }
    destruct Ha as [Ha | Ha].
    + exists []. rewrite app_nil_r.
      destruct (Hperm [] (or_introl eq_refl)) as [Hp1 Hp2].
      repeat (split; [solve [auto] |]). intros f' Hf'. now left.
    + exists [Spec.txOf mode (address f)].
      destruct (Hperm _ (or_intror eq_refl)) as [Hp1 Hp2].
      repeat (split; [solve [auto] |]). intros f' Hf'.
      injection Hf' as <- _. now right.
  - assert (rest <> []) as Hrest.
    { destruct rest; [discriminate E1 | discriminate]. }
    set (selected := f :: rest) in *.
    set (addresses := map (@address Profile) selected).
    assert (firstn 50 addresses <> []) as Hfne by (subst addresses selected; discriminate).
    unfold batchBranch, try_catchM. rewrite batched_eq. fold addresses.
    destruct (many_outcome p mode w Hfne) as (_ & Htm & Hsm).
    destruct (many_attempts_permitted p mode (addresses := addresses) w Hfne)
      as (newA1 & Ha1 & Hp1 & Hl1).
    { intros x Hx. now apply firstn_subset in Hx. }
    rewrite firstn_firstn in Hsm. change (Nat.min 50 50) with 50 in Hsm.
    destruct (many p mode (firstn 50 addresses) w) as [wb [b | e]];
      cbn [fst snd] in *.
    + exists (mapi flagged addresses),
        [Spec.batchOf mode (firstn 50 addresses)], newA1.
      repeat (split; [solve [auto] |]).
      split.
      { intros r Hr Hsr. eexists. split; [now left |].
        apply covers_batchOf.
        apply (flagged_success 0 addresses r Hr Hsr). }
      split; [exact Hp1 |]. split; [lia |].
      intros f' Hf'. subst selected. injection Hf' as _ ->. congruence.
    + set (wc := {| attempts := attempts wb; sent := sent wb;
                    console := (console wb ++ [Error (batchError mode)])%list;
                    toasts := toasts wb |}).
      change (bindM (console_error (batchError mode))
                    (fun _ => individually p mode selected) wb)
        with (individually p mode selected wc).
      destruct (individually_outcome p mode selected wc)
        as (results & Hres & Haddr & Htoasts & Hsent).
      destruct (individually_attempts_weak p mode selected wc)
        as (newA2 & Ha2 & Hp2 & Hl2).
      destruct (individually p mode selected wc) as [wi ri].
      cbn [fst snd] in *. subst ri.
      exists results,
        (map (Spec.txOf mode) (map result_address (filter success results))),
        (newA1 ++ newA2)%list.
      split; [reflexivity |].
      split; [rewrite Htoasts; exact Htm |].
      split; [rewrite Hsent; cbn [sent wc]; now rewrite Hsm |].
      split; [rewrite Ha2; cbn [attempts wc]; now rewrite Ha1, app_assoc |].
      split.
      { intros r Hr Hsr. exists (Spec.txOf mode (result_address r)).
        split; [| apply covers_txOf].
        apply in_map, in_map, filter_In. now split. }
      split; [apply Forall_app; now split |].
      split; [rewrite length_app; lia |].
      intros f' Hf'. subst selected. injection Hf' as _ ->. congruence.
Qed.

Lemma updatedFollowersOf_flagged (mode : Mode) (addresses : list AccountId)
  (followers : list (FollowerData Profile)) :
  updatedFollowersOf mode (mapi flagged addresses) followers
  = map (fun f => if includes (firstn 50 addresses) (address f)
                  then marked mode f else f) followers.
Proof.
  unfold updatedFollowersOf. apply map_ext. intros f.
  pose proof (flagged_find 0 addresses (address f)) as H.
  change (50 - 0) with 50 in H. rewrite <- H. unfold mapi.
  destruct (find _ (mapi_from 0 flagged addresses)); reflexivity.
Qed.

(** X14: When more than one row is eligible and the batched call returns, the
    one transaction accepted is the batch of the first 50 eligible
    addresses; the rows marked are exactly those whose address is among
    these 50, and the closing toast reports success when no more than 50
    were eligible and "50 of n" otherwise. *)
Theorem batch_success_marks_the_first_50 (mode : Mode)
  (accounts : list AccountId) (followers : list (FollowerData Profile))
  (w0 wb : World) (b : bool) :
  let selected := filter (eligible mode) followers in
  let n := List.length selected in
  let first50 := firstn 50 (map (@address Profile) selected) in
  Dashboard.firstAccount accounts <> None ->
  1 < n ->
  many p mode first50 (fst (toast (Loading (loadingMessage mode n)) w0))
  = (wb, Ok b) ->
  handleSelected p mode true accounts followers w0
  = (fst (toast (if (n <=? 50)%nat
                 then Success (successMessage mode n)
                 else Failure (partialMessage mode 50 n)) wb),
     Ok (map (fun f => if includes first50 (address f)
                       then marked mode f else f) followers))
  /\ sent wb = (sent w0 ++ [Spec.batchOf mode first50])%list.
Proof.
  intros selected n first50 Hacc Hn Hmany.
  assert (first50 <> []) as Hne.
  { subst first50 n. destruct selected; [cbn in Hn; lia | discriminate]. }
  split.
  - unfold handleSelected.
    destruct (Dashboard.firstAccount accounts); [| congruence].
    fold selected. fold n.
    replace (n =? 0)%nat with false by (symmetry; apply Nat.eqb_neq; lia).
    replace (n =? 1)%nat with false by (symmetry; apply Nat.eqb_neq; lia).
    unfold try_catchM at 1. unfold bindM at 1. cbn [toast].
    unfold bindM at 1. unfold batchBranch, try_catchM at 1.
    rewrite batched_eq. fold first50.
    cbn [fst toast] in Hmany. rewrite Hmany.
    unfold bindM, retM. rewrite updatedFollowersOf_flagged. fold first50.
    unfold mapi. rewrite flagged_count, length_map. fold n.
    change (50 - 0) with 50.
    destruct (Nat.leb_spec n 50) as [Hle | Hgt].
    + rewrite Nat.min_l by exact Hle. rewrite Nat.eqb_refl. reflexivity.
    + rewrite Nat.min_r by lia.
      replace (50 =? n)%nat with false by (symmetry; apply Nat.eqb_neq; lia).
      reflexivity.
  - destruct (many_outcome p mode
                (fst (toast (Loading (loadingMessage mode n)) w0)) Hne)
      as (_ & _ & Hs).
    rewrite Hmany in Hs. cbn [fst snd toast sent] in Hs.
    subst first50. rewrite firstn_firstn in Hs. exact Hs.
Qed.

End HandlerRuns.

Section BatchSuccessWitness.
Import JS Wallet FollowerManagement Scenario.
Local Open Scope string_scope.

Lemma batch_success_marks_the_first_50_witness :
  toasts (fst (handleFollowSelected accepting true ["0xAa"]
                 (map (selectedFollower false) sixty) emptyWorld))
  = [Loading "Following 60 profiles..."; Failure "Followed 50 of 60 profiles"].
Proof.
  destruct (@batch_success_marks_the_first_50 string accepting Following
              ["0xAa"] (map (selectedFollower false) sixty) emptyWorld
              {| attempts := [FollowBatch (firstn 50 sixty)];
                 sent := [FollowBatch (firstn 50 sixty)];
                 console := [];
                 toasts := [Loading "Following 60 profiles..."] |}
              true) as [Hrun _].
  - vm_compute. discriminate.
  - vm_compute. lia.
  - vm_compute. reflexivity.
  - unfold handleFollowSelected. rewrite Hrun. vm_compute. reflexivity.
Defined.

End BatchSuccessWitness.

Section HandlerTheorems.
Import JS Wallet FollowerManagement Scenario.
Local Open Scope string_scope.

Lemma updatedFollowersOf_sound (Profile : Type) (mode : Mode)
  (results : list FollowResult) (followers : list (FollowerData Profile))
  (newS : list Tx) :
  (forall r, In r results -> success r = true ->
     exists tx, In tx newS /\ Spec.covers mode tx (result_address r)) ->
  Forall2 (fun f f' =>
             f' = f
             \/ (f' = marked mode f
                 /\ exists tx, In tx newS /\ Spec.covers mode tx (address f)))
          followers (updatedFollowersOf mode results followers).
Proof.
  intros Hcov. unfold updatedFollowersOf.
  induction followers as [| f followers IH]; cbn [map]; constructor;
    [| exact IH].
  destruct (find _ results) as [r |] eqn:E; [| now left].
  apply find_some in E. destruct E as [Hin Heq]. apply String.eqb_eq in Heq.
  destruct (success r) eqn:Hs; [| now left].
  right. split; [reflexivity |]. rewrite <- Heq. now apply Hcov.
Qed.

Lemma Forall2_same {A : Type} (R : A -> A -> Prop) (l : list A) :
  (forall x, R x x) -> Forall2 R l l.
Proof. intros H. induction l; constructor; auto. Qed.

Lemma handleSelected_run (Profile : Type) (p : Provider) (mode : Mode)
  (isConnected : bool) (accounts : list AccountId)
  (followers : list (FollowerData Profile)) (w : World) :
  let selected := filter (eligible mode) followers in
  let run := handleSelected p mode isConnected accounts followers w in
  exists followers' newS newA,
    snd run = Ok followers'
    /\ sent (fst run) = (sent w ++ newS)%list
    /\ attempts (fst run) = (attempts w ++ newA)%list
    /\ Forall2 (fun f f' =>
                  f' = f
                  \/ (f' = marked mode f
                      /\ exists tx, In tx newS
                                    /\ Spec.covers mode tx (address f)))
               followers followers'
    /\ Forall (Spec.permitted mode (map (@address Profile) selected)) newA
    /\ List.length newA <= 1 + List.length selected
    /\ (forall f, selected = [f] ->
          newA = [] \/ newA = [Spec.txOf mode (address f)])
    /\ (isConnected = false \/ Dashboard.firstAccount accounts = None ->
        run = (w, Ok followers)).
Proof.
  intros selected run.
  assert (Forall2 (fun f f' : FollowerData Profile =>
                     f' = f
                     \/ (f' = marked mode f
                         /\ exists tx, In tx (@nil Tx)
                                       /\ Spec.covers mode tx (address f)))
                  followers followers) as Hsame
    by (apply Forall2_same; now left).
  destruct (if isConnected then Dashboard.firstAccount accounts else None)
    as [account |] eqn:Hacc.
  - assert (~ (isConnected = false \/ Dashboard.firstAccount accounts = None))
      as Hcon.
    { intros [-> | Hn]; [discriminate |].
      destruct isConnected; congruence. }
    destruct (List.length selected =? 0)%nat eqn:E0.
    + assert (run = (fst (toast (Failure (noneSelected mode)) w), Ok followers))
        as ->.
      { subst run. unfold handleSelected. rewrite Hacc. fold selected.
        rewrite E0. reflexivity. }
      exists followers, [], []. cbn. rewrite !app_nil_r.
      do 3 (split; [reflexivity |]). split; [exact Hsame |].
      split; [constructor |]. split; [lia |].
      split; [intros f Hf; now left | intros H; exfalso; tauto].
    + assert (selected <> []) as Hne.
      { intros Hs. rewrite Hs in E0. discriminate. }
      set (wl := fst (toast (Loading (loadingMessage mode (List.length selected)))
                            w)).
      destruct (branch_outcome p mode wl Hne)
        as (results & newS & newA & Hres & Ht & Hs & Ha & Hcov & Hperm & Hlen
            & Hone).
      destruct ((if (List.length selected =? 1)%nat
                 then singleBranch p mode selected
                 else batchBranch p mode selected) wl) as [wr rr] eqn:Hb.
      cbn [fst snd] in *. subst rr.
      assert (run
              = (fst (toast
                        (if (successCountOf results =? List.length selected)%nat
                         then Success (successMessage mode (successCountOf results))
                         else Failure (partialMessage mode (successCountOf results)
                                         (List.length selected))) wr),
                 Ok (updatedFollowersOf mode results followers))) as ->.
      { subst run. unfold handleSelected. rewrite Hacc. fold selected.
        rewrite E0. unfold try_catchM at 1. unfold bindM at 1. cbn [toast].
        unfold bindM at 1. unfold wl in Hb. cbn [fst toast] in Hb.
        rewrite Hb. unfold bindM, retM.
        destruct (successCountOf results =? List.length selected)%nat;
          reflexivity. }
      exists (updatedFollowersOf mode results followers), newS, newA.
      cbn [toast fst snd sent attempts].
      split; [reflexivity |].
      split; [exact Hs |]. split; [exact Ha |].
      split; [now apply updatedFollowersOf_sound |].
      split; [exact Hperm |]. split; [exact Hlen |].
      split; [exact Hone | intros H; exfalso; tauto].
  - assert (run = (w, Ok followers)) as ->.
    { subst run. unfold handleSelected. rewrite Hacc. reflexivity. }
    exists followers, [], []. cbn. rewrite !app_nil_r.
    do 3 (split; [reflexivity |]). split; [exact Hsame |].
    split; [constructor |]. split; [lia |].
    split; [intros f Hf; now left | reflexivity].
Qed.

(** X12: The handler never throws, and it marks a row as followed (or
    unfollowed) only when, during this very run, the wallet accepted a
    transaction of that kind naming the row's address; every other row
    comes back as it was.  Nothing but [isMutual] and [isFollowing] of a
    row ever changes. *)
Theorem handleSelected_marks_only_accepted (Profile : Type) (p : Provider)
  (mode : Mode) (isConnected : bool) (accounts : list AccountId)
  (followers : list (FollowerData Profile)) (w : World) :
  let run := handleSelected p mode isConnected accounts followers w in
  exists followers' accepted,
    snd run = Ok followers'
    /\ sent (fst run) = (sent w ++ accepted)%list
    /\ Forall2 (fun f f' =>
                  f' = f
                  \/ (f' = marked mode f
                      /\ exists tx, In tx accepted
                                    /\ Spec.covers mode tx (address f)))
               followers followers'
    /\ map (@address Profile) followers' = map (@address Profile) followers
    /\ map (@isSelected Profile) followers' = map (@isSelected Profile) followers
    /\ map (@profile Profile) followers' = map (@profile Profile) followers.
Proof.
  intros run.
  destruct (handleSelected_run p mode isConnected accounts followers w)
    as (followers' & newS & newA & Hres & Hs & _ & HF & _).
  exists followers', newS. fold run in Hres, Hs.
  repeat (split; [assumption |]).
  clear Hres Hs. induction HF as [| f f' l l' Hf HF IH]; [auto |].
  destruct IH as (IH1 & IH2 & IH3). cbn [map]. rewrite IH1, IH2, IH3.
  destruct Hf as [-> | [-> _]]; [auto |]. destruct mode; auto.
Qed.

(** X13: The handler hands to the wallet only transactions of its own kind that
    name at least one account, only addresses of eligible rows, and at most
    50 of them; it makes no more than one attempt per eligible row plus
    one for the batch.  With exactly one eligible row it makes at most the
    single call for that row, never a batch; with none, or when no account
    is connected, it makes none, and without an account it leaves no trace
    at all. *)
Theorem handleSelected_submits_only_selected (Profile : Type) (p : Provider)
  (mode : Mode) (isConnected : bool) (accounts : list AccountId)
  (followers : list (FollowerData Profile)) (w : World) :
  let selected := filter (eligible mode) followers in
  let run := handleSelected p mode isConnected accounts followers w in
  exists handed,
    attempts (fst run) = (attempts w ++ handed)%list
    /\ Forall (Spec.permitted mode (map (@address Profile) selected)) handed
    /\ List.length handed <= 1 + List.length selected
    /\ (selected = [] -> handed = [])
    /\ (forall f, selected = [f] ->
          handed = [] \/ handed = [Spec.txOf mode (address f)])
    /\ (isConnected = false \/ Dashboard.firstAccount accounts = None ->
        run = (w, Ok followers)).
Proof.
  intros selected run.
  destruct (handleSelected_run p mode isConnected accounts followers w)
    as (followers' & newS & newA & _ & _ & Ha & _ & Hperm & Hlen & Hone & Hidle).
  exists newA. fold selected in Hperm, Hlen, Hone. fold run in Ha, Hidle.
  repeat (split; [assumption |]).
  split; [| split; assumption].
  intros Hnone. rewrite Hnone in Hperm. cbn [map] in Hperm.
  destruct newA as [| tx newA]; [reflexivity |].
  inversion Hperm as [| ? ? (_ & Hne & Hincl & _) _]; subst.
  destruct (Spec.targets tx) as [| a l]; [congruence |].
  destruct (Hincl a (or_introl eq_refl)).
Qed.

End HandlerTheorems.
(** ** The relation check and the management page *)

Section RelationCheck.
Import JS Ledger.

Lemma isFollowing_total (c : option PublicClient) (a b : AccountId) :
  exists r, LSP26.isFollowing c a b = Ok r
            /\ (forall L, c = Some (ledgerClient L) -> r = follows L a b)
            /\ (forall cl e, c = Some cl -> Ledger.isFollowing cl a b = Throw e ->
                r = false)
            /\ (c = None -> r = false).
Proof.
  unfold LSP26.isFollowing, LSP26.readContract.
  destruct c as [cl |].
  - destruct (Ledger.isFollowing cl a b) as [r | e] eqn:E.
    + exists r. split; [reflexivity |]. split; [| split].
      * intros L HL. injection HL as ->. cbn in E. now injection E.
      * intros cl' e' Hcl. injection Hcl as <-. rewrite E. discriminate.
      * discriminate.
    + exists false. split; [reflexivity |]. split; [| split].
      * intros L HL. injection HL as ->. discriminate E.
      * reflexivity.
      * reflexivity.
  - exists false. split; [reflexivity |]. split; [| split].
    + discriminate.
    + discriminate.
    + reflexivity.
Qed.

(** X15: [checkFollowRelation] never throws, whatever the client does: a read
    that fails (or a missing client) counts as "does not follow".  It is
    symmetric: with the two addresses exchanged the two directions are
    exchanged and [isMutual] is the same; [isMutual] holds exactly when
    both directions do, and on a ledger whose reads succeed each direction
    is the ledger's relation. *)
Theorem checkFollowRelation_total_and_symmetric (c : option PublicClient)
  (address1 address2 : AccountId) :
  exists r,
    LSP26.checkFollowRelation c address1 address2 = Ok r
    /\ LSP26.checkFollowRelation c address2 address1
       = Ok {| LSP26.address1FollowsAddress2 := LSP26.address2FollowsAddress1 r;
               LSP26.address2FollowsAddress1 := LSP26.address1FollowsAddress2 r;
               LSP26.isMutual := LSP26.isMutual r |}
    /\ (LSP26.isMutual r = true
        <-> LSP26.address1FollowsAddress2 r = true
            /\ LSP26.address2FollowsAddress1 r = true)
    /\ (forall L, c = Some (ledgerClient L) ->
          LSP26.address1FollowsAddress2 r = follows L address1 address2
          /\ LSP26.address2FollowsAddress1 r = follows L address2 address1)
    /\ (forall cl e, c = Some cl ->
          Ledger.isFollowing cl address1 address2 = Throw e ->
          LSP26.address1FollowsAddress2 r = false /\ LSP26.isMutual r = false)
    /\ (c = None ->
        LSP26.address1FollowsAddress2 r = false
        /\ LSP26.address2FollowsAddress1 r = false).
Proof.
  destruct (isFollowing_total c address1 address2) as (r1 & H1 & HL1 & HT1 & HN1).
  destruct (isFollowing_total c address2 address1) as (r2 & H2 & HL2 & HT2 & HN2).
  exists {| LSP26.address1FollowsAddress2 := r1;
            LSP26.address2FollowsAddress1 := r2;
            LSP26.isMutual := r1 && r2 |}.
  unfold LSP26.checkFollowRelation. rewrite H1, H2.
  cbn [bind try_catch ret LSP26.address1FollowsAddress2
       LSP26.address2FollowsAddress1 LSP26.isMutual].
  split; [reflexivity |].
  split; [now rewrite (andb_comm r2 r1) |].
  split; [apply andb_true_iff |].
  split; [intros L HL; split; auto |].
  split.
  - intros cl e Hc He. rewrite (HT1 cl e Hc He). split; reflexivity.
  - intros Hn. split; auto.
Qed.

End RelationCheck.

Section ManagementPage.
Import JS Ledger Wallet FollowerManagement.
Local Open Scope string_scope.

Variable Profile : Type.
Variable getProfileData : AccountId -> Result (option Profile).
Variable L : Ledger.

Let c : option PublicClient := Some (ledgerClient L).

Lemma processFollower_ledger (account a : AccountId) :
  address (processFollower c getProfileData account a) = a
  /\ isSelected (processFollower c getProfileData account a) = false
  /\ isFollowing (processFollower c getProfileData account a)
     = follows L account a
  /\ isMutual (processFollower c getProfileData account a)
     = follows L account a.
Proof. unfold processFollower. cbn. auto. Qed.

Lemma fetchFollowers_ledger_page (accounts : list AccountId)
  (account : AccountId) (k : nat) (st : PageState Profile) (w : World) :
  Dashboard.firstAccount accounts = Some account ->
  fetchFollowers c getProfileData true accounts k st w
  = (w, Ok (let served := firstn 50 (skipn (k * 10)
                                       (followersOf L (toLowerCase account))) in
            let followerData :=
              map (processFollower c getProfileData account) served in
            {| followers := if (k =? 0)%nat then followerData
                            else (followers st ++ followerData)%list;
               loading := false;
               pageError := None;
               hasMore := (List.length served =? 10)%nat;
               page := k |})).
Proof.
  intros Hacc. unfold fetchFollowers. rewrite Hacc.
  change pageSize with 10. unfold c. rewrite getFollowers_ledger.
  reflexivity.
Qed.

(** X16: On a ledger whose reads succeed, the first load of the management
    page shows the first 50 followers, none selected, each flagged with
    whether the user follows it back.  Every later page starts 10 entries
    after the previous one and again brings up to 50 entries, appended to
    the rows.  "Load more" is offered after the first load exactly when the
    account has exactly 10 followers, and the page it then loads is empty:
    the rows stay as they are and the offer goes away. *)
Theorem fetchFollowers_serves_50_per_step_of_10 (accounts : list AccountId)
  (account : AccountId) (st : PageState Profile) (w : World) :
  Dashboard.firstAccount accounts = Some account ->
  let l := followersOf L (toLowerCase account) in
  exists st1,
    fetchFollowers c getProfileData true accounts 0 st w = (w, Ok st1)
    /\ map (@address Profile) (followers st1) = firstn 50 l
    /\ Forall (fun f => isSelected f = false
                        /\ isFollowing f = follows L account (address f)
                        /\ isMutual f = isFollowing f) (followers st1)
    /\ (forall k st, exists st',
          fetchFollowers c getProfileData true accounts (S k) st w = (w, Ok st')
          /\ map (@address Profile) (followers st')
             = (map (@address Profile) (followers st)
                ++ firstn 50 (skipn (S k * 10) l))%list
          /\ page st' = S k)
    /\ (hasMore st1 = true <-> List.length l = 10)
    /\ (hasMore st1 = true ->
        fetchFollowers c getProfileData true accounts (page st1 + 1) st1 w
        = (w, Ok {| followers := followers st1; loading := false;
                    pageError := None; hasMore := false; page := 1 |})).
Proof.
  intros Hacc l. eexists. split; [apply fetchFollowers_ledger_page, Hacc |].
  fold l. cbn [followers hasMore page Nat.eqb Nat.mul skipn Nat.add].
  assert (forall served : list AccountId,
            map (@address Profile)
                (map (processFollower c getProfileData account) served)
            = served) as Haddr.
  { intros served. rewrite map_map. rewrite <- (map_id served) at 2.
    apply map_ext. intros a. apply processFollower_ledger. }
  assert ((List.length (firstn 50 l) =? 10)%nat = true <-> List.length l = 10)
    as Hmore.
  { rewrite Nat.eqb_eq, length_firstn. lia. }
  split; [apply Haddr |]. split; [| split; [| split]].
  - apply Forall_forall. intros f Hf. apply in_map_iff in Hf.
    destruct Hf as (a & <- & _).
    destruct (processFollower_ledger account a) as (Ha & Hs & Hf & Hm).
    rewrite Ha, Hs, Hf, Hm. auto.
  - intros k st'. eexists.
    split; [apply fetchFollowers_ledger_page, Hacc |].
    fold l. cbn [followers page Nat.eqb]. rewrite map_app, Haddr. auto.
  - exact Hmore.
  - intros Hm. apply Hmore in Hm.
    rewrite (fetchFollowers_ledger_page accounts 1 _ w Hacc). fold l.
    cbn [Nat.eqb followers Nat.mul Nat.add].
    rewrite (skipn_all2 (n := 10)) by lia. rewrite firstn_nil.
    cbn [map List.length Nat.eqb]. rewrite app_nil_r. reflexivity.
Qed.

End ManagementPage.

Section ManagementPageWitness.
Import JS Ledger Wallet FollowerManagement Scenario.
Local Open Scope string_scope.

Lemma fetchFollowers_serves_50_per_step_of_10_witness :
  exists st1,
    fetchFollowers (Some (ledgerClient fiftyOne)) noProfile true ["0xAa"] 0
      freshManagementPage emptyWorld
    = (emptyWorld, Ok st1)
    /\ map (@address string) (followers st1) = firstn 50 (accountsFrom "0xf" 51)
    /\ hasMore st1 = false.
Proof.
  destruct (@fetchFollowers_serves_50_per_step_of_10 string noProfile fiftyOne
              ["0xAa"] "0xAa" freshManagementPage emptyWorld eq_refl)
    as (st1 & Hrun & Haddr & _ & _ & Hmore & _).
  exists st1. split; [exact Hrun |]. split; [exact Haddr |].
  destruct (hasMore st1); [| reflexivity].
  destruct Hmore as [Hmore _]. specialize (Hmore eq_refl).
  vm_compute in Hmore. discriminate.
Defined.

End ManagementPageWitness.

Section SelectionToggles.
Import JS Wallet FollowerManagement.
Local Open Scope string_scope.

Variable Profile : Type.

Lemma toggle_filter (keep : FollowerData Profile -> bool)
  (accounts : list AccountId) (b : bool)
  (seen fs : list (FollowerData Profile)) :
  (forall g bb, keep (withSelected g bb) = keep g) ->
  incl (List.filter keep fs) seen ->
  Forall (fun f => notOwn accounts f = true) seen ->
  List.filter keep
    (map (fun follower =>
            if existsb (fun f => String.eqb (address f) (address follower)) seen
               && notOwn accounts follower
            then withSelected follower b else follower) fs)
  = map (fun f => withSelected f b) (List.filter keep fs).
Proof.
  intros Hk. induction fs as [| f fs IH]; intros Hincl Hseen; [reflexivity |].
  cbn [map List.filter] in *.
  destruct (keep f) eqn:Ef.
  - assert (In f seen) as Hin by (apply Hincl; now left).
    assert (existsb (fun f0 => String.eqb (address f0) (address f)) seen
            = true) as ->.
    { apply existsb_exists. exists f. split; [exact Hin |].
      apply String.eqb_refl. }
    pose proof Hseen as Hall. rewrite Forall_forall in Hall.
    rewrite (Hall f Hin). cbn [andb].
    rewrite Hk, Ef. cbn [map]. f_equal. apply IH; [| exact Hseen].
    intros x Hx. apply Hincl. now right.
  - assert (keep (if existsb (fun f0 => String.eqb (address f0) (address f))
                             seen && notOwn accounts f
                  then withSelected f b else f) = false) as ->.
    { destruct (_ && _); [now rewrite Hk | exact Ef]. }
    apply IH; assumption.
Qed.

(** X17: Ticking a row twice restores the list.  "Select all" changes nothing
    but [isSelected], and never on a row with the user's own address.
    When no displayed row is the user's own, it leaves every displayed row
    selected if one of them was not, and every one unselected otherwise;
    ticking it twice therefore gives back a full selection, and turns a
    partial selection into an empty one. *)
Theorem selection_toggles_compose (accounts : list AccountId)
  (filter : Filter) (a : AccountId) (followers : list (FollowerData Profile)) :
  let displayed := getFilteredFollowers filter followers in
  let allSelected := forallb (@isSelected Profile) displayed in
  let after := toggleSelectAll accounts filter followers in
  toggleSelect a (toggleSelect a followers) = followers
  /\ Forall2 (fun f f' =>
                f' = f
                \/ (f' = withSelected f (negb allSelected)
                    /\ notOwn accounts f = true))
             followers after
  /\ (displayed <> [] ->
      Forall (fun f => notOwn accounts f = true) displayed ->
      getFilteredFollowers filter after
      = map (fun f => withSelected f (negb allSelected)) displayed
      /\ forallb (@isSelected Profile) (getFilteredFollowers filter after)
         = negb allSelected
      /\ Forall (fun f => isSelected f = allSelected)
                (getFilteredFollowers filter
                   (toggleSelectAll accounts filter after))).
Proof.
  intros displayed allSelected after.
  split; [| split].
  - unfold toggleSelect. rewrite map_map. rewrite <- (map_id followers) at 2.
    apply map_ext. intros f.
    destruct (String.eqb (address f) a) eqn:E.
    + cbn [withSelected address]. rewrite E.
      destruct f as [fa fm ff fs fp]. cbn. now rewrite negb_involutive.
    + rewrite E. reflexivity.
  - subst after. unfold toggleSelectAll. fold displayed. fold allSelected.
    clearbody displayed allSelected.
    induction followers as [| f l IH]; cbn [map]; constructor; [| exact IH].
    destruct (existsb _ displayed); cbn [andb]; [| now left].
    destruct (notOwn accounts f) eqn:E; [right; auto | now left].
  - intros Hne Hown.
    assert (forall (b : bool) (fs : list (FollowerData Profile)),
              let d := getFilteredFollowers filter fs in
              Forall (fun f => notOwn accounts f = true) d ->
              getFilteredFollowers filter
                (map (fun follower =>
                        if existsb (fun f => String.eqb (address f)
                                                        (address follower)) d
                           && notOwn accounts follower
                        then withSelected follower b else follower) fs)
              = map (fun f => withSelected f b) d) as Hstep.
    { intros b fs d Hd. subst d. unfold getFilteredFollowers.
      apply toggle_filter; [| apply incl_refl | exact Hd].
      intros g bb. destruct filter; reflexivity. }
    assert (getFilteredFollowers filter after
            = map (fun f => withSelected f (negb allSelected)) displayed) as H1.
    { subst after. unfold toggleSelectAll. fold displayed. fold allSelected.
      apply (Hstep (negb allSelected) followers). exact Hown. }
    split; [exact H1 |].
    assert (forallb (@isSelected Profile) (getFilteredFollowers filter after)
            = negb allSelected) as H2.
    { rewrite H1. generalize (negb allSelected) as b. intros b.
      destruct displayed as [| d ds]; [congruence |].
      destruct b; [| reflexivity].
      apply forallb_forall. intros x Hx. apply in_map_iff in Hx.
      destruct Hx as (g & <- & _). reflexivity. }
    split; [exact H2 |].
    unfold toggleSelectAll at 1. rewrite H2, negb_involutive.
    rewrite (Hstep allSelected after).
    + rewrite H1. apply Forall_forall. intros f Hf.
      apply in_map_iff in Hf. destruct Hf as (g & <- & Hg).
      apply in_map_iff in Hg. destruct Hg as (h & <- & Hh).
      reflexivity.
    + rewrite H1. apply Forall_forall. intros f Hf.
      apply in_map_iff in Hf. destruct Hf as (g & <- & Hg).
      rewrite Forall_forall in Hown. specialize (Hown g Hg).
      unfold notOwn in *. exact Hown.
Qed.

End SelectionToggles.

(** ** The followers page and the one-way page *)

Section ClientSidePages.
Import JS Ledger.
Local Open Scope string_scope.

Lemma slices_concat {A : Type} (l : list A) (P K : nat) :
  flat_map (fun k => slice (k * P) (k * P + P) l) (seq 0 K) = firstn (K * P) l.
Proof.
  induction K as [| K IH]; [reflexivity |].
  rewrite seq_S, flat_map_app, IH. cbn [flat_map Nat.add].
  rewrite app_nil_r. unfold slice.
  replace (K * P + P - K * P) with P by lia.
  replace (S K * P) with (K * P + P) by lia. now rewrite firstn_plus.
Qed.

Lemma Set_has_new (l : list string) (x : string) :
  Set_has (Set_new l) x = includes l x.
Proof.
  apply eq_true_iff_eq. change (includes l x) with (Set_has l x).
  rewrite !Set_has_In. apply Set_new_In.
Qed.

Lemma mutualConnections_In (c : option PublicClient) (account : AccountId)
  (r : LSP26.MutualConnections) (x : AccountId) :
  LSP26.getMutualConnections c account = Ok r ->
  In x (LSP26.mutualConnections r)
  <-> In x (map toLowerCase (LSP26.allFollowers r))
      /\ In x (map toLowerCase (LSP26.allFollowing r)).
Proof.
  intros Hr. destruct (getMutualConnections_shape c account) as (r' & Hr' & Hs).
  rewrite Hr in Hr'. injection Hr' as <-.
  destruct Hs as [-> | (_ & _ & Hm & _)]; [cbn; tauto |].
  rewrite Hm, Set_new_In. unfold LSP26.collectMutual.
  rewrite filter_In, Set_has_In, Set_new_In. tauto.
Qed.

Variable Profile : Type.
Variable c : option PublicClient.
Variable getProfileData : AccountId -> Result (option Profile).

(** X18: A fetch of page 0 of the followers page reads the snapshot of the
    ledger and keeps one row per follower of the snapshot, in ledger
    order, unselected; a row is flagged mutual exactly when its
    lower-cased address is among the snapshot's [mutualConnections], that
    is, among the lower-cased followed accounts.  Every page is cut from
    the rows kept: page [k] is the rows 25 k to 25 k + 25, the pages 0 to
    K - 1 put together are the first 25 K rows, and no fetch touches the
    selection.  A fetch of a page after page 0 reads neither the ledger
    nor the metadata: it gives the same state whatever the client and the
    metadata source are. *)
Theorem followers_pages_cover_the_snapshot (accounts : list AccountId)
  (account : AccountId) (st0 : Followers.PageState Profile) :
  Dashboard.firstAccount accounts = Some account ->
  let fetch := Followers.fetchFollowers c getProfileData true accounts in
  let st1 := fetch 0 st0 in
  exists r,
    LSP26.getMutualConnections c account = Ok r
    /\ map (@Followers.address Profile) (Followers.allFollowersData st1)
       = LSP26.allFollowers r
    /\ Followers.totalResults st1 = List.length (LSP26.allFollowers r)
    /\ (Followers.hasMore st1 = true <-> 25 < List.length (LSP26.allFollowers r))
    /\ Forall (fun f =>
                 Followers.isSelected f = Some false
                 /\ Followers.isMutual f
                    = Some (includes (LSP26.mutualConnections r)
                                     (toLowerCase (Followers.address f)))
                 /\ Followers.isMutual f
                    = Some (includes (map toLowerCase (LSP26.allFollowing r))
                                     (toLowerCase (Followers.address f))))
              (Followers.allFollowersData st1)
    /\ (forall k,
          Followers.followers (Followers.state (fetch k st1))
          = firstn 25 (skipn (k * 25) (Followers.allFollowersData st1))
          /\ Followers.selectedProfiles (Followers.state (fetch k st1))
             = Followers.selectedProfiles (Followers.state st0)
          /\ Followers.allFollowersData (fetch k st1)
             = Followers.allFollowersData st1)
    /\ (forall K,
          flat_map (fun k => Followers.followers (Followers.state (fetch k st1)))
                   (seq 0 K)
          = firstn (K * 25) (Followers.allFollowersData st1))
    /\ (forall (client : option PublicClient)
               (metadata : AccountId -> Result (option Profile))
               (k : nat) (st : Followers.PageState Profile),
          Followers.fetchFollowers client metadata true accounts (S k) st
          = fetch (S k) st).
Proof.
  intros Hacc fetch st1.
  destruct (getMutualConnections_shape c account) as (r & Hr & _).
  exists r. split; [exact Hr |].
  assert (forall (client : option PublicClient)
                 (metadata : AccountId -> Result (option Profile))
                 (k : nat) (st : Followers.PageState Profile),
            Followers.fetchFollowers client metadata true accounts (S k) st
            = fetch (S k) st) as Hblind.
  { intros client metadata k st. subst fetch. unfold Followers.fetchFollowers.
    rewrite Hacc. reflexivity. }
  assert (forall st,
            fetch 0 st
            = let followingSet :=
                Set_new (map toLowerCase (LSP26.allFollowing r)) in
              let all := map (Followers.followerRow getProfileData followingSet)
                             (LSP26.allFollowers r) in
              {| Followers.state :=
                   {| Followers.followers := slice 0 25 all;
                      Followers.selectedProfiles :=
                        Followers.selectedProfiles (Followers.state st) |};
                 Followers.allFollowersData := all;
                 Followers.hasMore := (25 <? List.length (LSP26.allFollowers r))%nat;
                 Followers.totalResults := List.length (LSP26.allFollowers r);
                 Followers.page := 0;
                 Followers.pageError := None |}) as H0.
  { intros st. subst fetch. unfold Followers.fetchFollowers.
    rewrite Hacc, Hr. reflexivity. }
  assert (forall k st,
            Followers.followers (Followers.state (fetch (S k) st))
            = slice (S k * 25) (S k * 25 + 25) (Followers.allFollowersData st)
            /\ Followers.selectedProfiles (Followers.state (fetch (S k) st))
               = Followers.selectedProfiles (Followers.state st)
            /\ Followers.allFollowersData (fetch (S k) st)
               = Followers.allFollowersData st) as HS.
  { intros k st. subst fetch. unfold Followers.fetchFollowers.
    rewrite Hacc. cbn [Nat.eqb]. cbn [Followers.followers Followers.state
      Followers.selectedProfiles Followers.allFollowersData].
    change Followers.pageSize with 25. auto. }
  assert (forall k,
            Followers.followers (Followers.state (fetch k st1))
            = slice (k * 25) (k * 25 + 25) (Followers.allFollowersData st1)
            /\ Followers.selectedProfiles (Followers.state (fetch k st1))
               = Followers.selectedProfiles (Followers.state st0)
            /\ Followers.allFollowersData (fetch k st1)
               = Followers.allFollowersData st1) as Hpage.
  { intros [| k].
    - subst st1. rewrite !H0. cbn. auto.
    - destruct (HS k st1) as (H1 & H2 & H3). rewrite H1, H2, H3.
      subst st1. rewrite H0. cbn. auto. }
  subst st1. rewrite H0 in *.
  cbn [Followers.allFollowersData Followers.totalResults Followers.hasMore] in *.
  split.
  { rewrite map_map. cbn [Followers.followerRow Followers.address].
    apply map_id. }
  split; [reflexivity |].
  split; [apply Nat.ltb_lt |].
  split.
  { apply Forall_forall. intros f Hf. apply in_map_iff in Hf.
    destruct Hf as (a & <- & Ha).
    cbn [Followers.followerRow Followers.address Followers.isSelected
         Followers.isMutual].
    split; [reflexivity |]. rewrite Set_has_new.
    split; [| reflexivity]. f_equal. apply eq_true_iff_eq.
    rewrite !includes_In.
    rewrite (@mutualConnections_In c account r (toLowerCase a) Hr).
    split; [| tauto]. intros H. split; [| exact H].
    now apply in_map. }
  split.
  { intros k. destruct (Hpage k) as (H1 & H2 & H3).
    rewrite H1, H2, H3. unfold slice.
    replace (k * 25 + 25 - k * 25) with 25 by lia. auto. }
  split; [| exact Hblind].
  intros K. rewrite <- slices_concat. apply flat_map_ext.
  intros k. apply Hpage.
Qed.

(** X19: The one-way page lists, in ledger order, the followers of the snapshot
    that are not among the followed accounts, compared in lower case: the
    rows the followers page flags as not mutual.  When the ledger lists no
    account twice, their number is the dashboard's [nonMutualCount]. *)
Theorem one_way_rows_match_the_dashboard (accounts : list AccountId)
  (account : AccountId) (st0 : OneWayFollowers.PageState Profile)
  (fst0 : Followers.PageState Profile) :
  Dashboard.firstAccount accounts = Some account ->
  let st1 := OneWayFollowers.fetchOneWayFollowers c getProfileData true
               accounts 0 st0 in
  let fst1 := Followers.fetchFollowers c getProfileData true accounts 0 fst0 in
  exists r,
    LSP26.getMutualConnections c account = Ok r
    /\ map (@OneWayFollowers.address Profile)
           (OneWayFollowers.allProfilesData st1)
       = filter (fun a => negb (includes (map toLowerCase (LSP26.allFollowing r))
                                         (toLowerCase a)))
                (LSP26.allFollowers r)
    /\ map (@OneWayFollowers.address Profile)
           (OneWayFollowers.allProfilesData st1)
       = map (@Followers.address Profile)
             (filter (fun f => match Followers.isMutual f with
                               | Some false => true
                               | _ => false
                               end) (Followers.allFollowersData fst1))
    /\ OneWayFollowers.totalResults st1
       = List.length (OneWayFollowers.allProfilesData st1)
    /\ OneWayFollowers.profiles st1
       = firstn 25 (OneWayFollowers.allProfilesData st1)
    /\ (NoDup (map toLowerCase (LSP26.allFollowers r)) ->
        NoDup (map toLowerCase (LSP26.allFollowing r)) ->
        exists s,
          Dashboard.fetchStats c true accounts = Dashboard.SetStats s
          /\ Dashboard.nonMutualCount s
             = Z.of_nat (OneWayFollowers.totalResults st1)).
Proof.
  intros Hacc st1 fst1.
  destruct (getMutualConnections_shape c account) as (r & Hr & Hs).
  exists r. split; [exact Hr |].
  subst st1 fst1.
  unfold OneWayFollowers.fetchOneWayFollowers, Followers.fetchFollowers.
  rewrite Hacc, Hr. cbn [Nat.eqb].
  cbn [OneWayFollowers.allProfilesData OneWayFollowers.totalResults
       OneWayFollowers.profiles Followers.allFollowersData].
  set (following := map toLowerCase (LSP26.allFollowing r)).
  assert (filter (fun a => negb (Set_has (Set_new following) (toLowerCase a)))
                 (LSP26.allFollowers r)
          = filter (fun a => negb (includes following (toLowerCase a)))
                   (LSP26.allFollowers r)) as Hf.
  { apply filter_ext. intros a. now rewrite Set_has_new. }
  rewrite Hf.
  set (oneWay := filter (fun a => negb (includes following (toLowerCase a)))
                        (LSP26.allFollowers r)).
  assert (map (@OneWayFollowers.address Profile)
              (map (OneWayFollowers.profileRow getProfileData) oneWay)
          = oneWay) as Haddr.
  { rewrite map_map. apply map_id. }
  split; [exact Haddr |]. split.
  { rewrite Haddr. subst oneWay.
    assert (forall l : list AccountId,
              filter (fun a => negb (includes following (toLowerCase a))) l
              = map (@Followers.address Profile)
                    (filter (fun f => match Followers.isMutual f with
                                      | Some false => true
                                      | _ => false
                                      end)
                            (map (Followers.followerRow getProfileData
                                    (Set_new following)) l))) as Hcross.
    { induction l as [| a l IH]; [reflexivity |].
      cbn [map filter Followers.followerRow Followers.isMutual].
      rewrite Set_has_new.
      destruct (includes following (toLowerCase a)); cbn [negb map];
        [exact IH | now rewrite IH]. }
    apply Hcross. }
  split; [reflexivity |].
  split; [now rewrite slice_0 |].
  intros Hnd1 Hnd2. unfold Dashboard.fetchStats. rewrite Hacc, Hr.
  eexists. split; [reflexivity |]. cbn [Dashboard.nonMutualCount].
  rewrite length_map.
  set (followers := map toLowerCase (LSP26.allFollowers r)) in *.
  assert (List.length oneWay
          = List.length (filter (fun x => negb (includes following x)) followers))
    as Hlen1.
  { subst oneWay followers.
    assert (forall l : list AccountId,
              List.length
                (filter (fun a => negb (includes following (toLowerCase a))) l)
              = List.length
                  (filter (fun x => negb (includes following x))
                          (map toLowerCase l))) as Hmap.
    { induction l as [| a l IH]; [reflexivity |].
      cbn [map filter]. destruct (includes following (toLowerCase a));
        cbn [negb List.length]; now rewrite IH. }
    apply Hmap. }
  assert (LSP26.mutualCount r
          = List.length (filter (includes following) followers)) as Hlen2.
  { destruct Hs as [-> | (_ & _ & Hm & Hc)].
    - subst followers. reflexivity.
    - rewrite Hc, Hm. apply Permutation_length, NoDup_Permutation.
      + apply Set_new_NoDup.
      + now apply NoDup_filter.
      + intros x. rewrite Set_new_In. unfold LSP26.collectMutual.
        rewrite !filter_In, Set_has_In, Set_new_In, includes_In.
        fold following followers. tauto. }
  pose proof (filter_length (includes following) followers) as Hsplit.
  subst followers. rewrite length_map in Hsplit.
  unfold AccountId in *. lia.
Qed.

End ClientSidePages.

Section ClientSidePagesWitness.
Import JS Ledger Scenario.
Local Open Scope string_scope.

Lemma selection_toggles_compose_witness :
  forallb (@FollowerManagement.isSelected string)
    (FollowerManagement.getFilteredFollowers FollowerManagement.All
       (FollowerManagement.toggleSelectAll ["0xAa"] FollowerManagement.All
          (xyz false)))
  = false.
Proof.
  destruct (@selection_toggles_compose string ["0xAa"] FollowerManagement.All
              "0xX" (xyz false)) as (_ & _ & H).
  destruct H as (_ & H & _).
  - discriminate.
  - repeat constructor.
  - exact H.
Defined.

Lemma followers_pages_cover_the_snapshot_witness :
  map (@Followers.address string)
      (Followers.allFollowersData
         (Followers.fetchFollowers (Some (ledgerClient abcde)) noProfile true
            ["0xAa"] 0 freshFollowersPage))
  = ["0xBb"; "0xCc"; "0xDd"].
Proof.
  destruct (@followers_pages_cover_the_snapshot string
              (Some (ledgerClient abcde)) noProfile ["0xAa"] "0xAa"
              freshFollowersPage eq_refl) as (r & Hr & Haddr & _).
  rewrite Haddr. vm_compute in Hr. injection Hr as <-. reflexivity.
Defined.

Lemma one_way_rows_match_the_dashboard_witness :
  exists s,
    Dashboard.fetchStats (Some (ledgerClient abcde)) true ["0xAa"]
    = Dashboard.SetStats s
    /\ Dashboard.nonMutualCount s
       = Z.of_nat (OneWayFollowers.totalResults
                     (OneWayFollowers.fetchOneWayFollowers
                        (Some (ledgerClient abcde)) noProfile true ["0xAa"] 0
                        freshOneWayPage)).
Proof.
  destruct (@one_way_rows_match_the_dashboard string
              (Some (ledgerClient abcde)) noProfile ["0xAa"] "0xAa"
              freshOneWayPage freshFollowersPage eq_refl)
    as (r & Hr & _ & _ & _ & _ & H).
  vm_compute in Hr. injection Hr as <-. apply H.
  - vm_compute. repeat constructor; cbn; intuition discriminate.
  - vm_compute. repeat constructor; cbn; intuition discriminate.
Defined.

End ClientSidePagesWitness.

Section OneWaySelection.
Import JS OneWayFollowers.
Local Open Scope string_scope.

Variable Profile : Type.

(** X20: Ticking an account on the one-way page puts it into the selection
    when it was not there and takes it out when it was, leaves every other
    account as it is, and never makes the selection list an account twice;
    ticking an unselected account twice gives the selection back.  "Select
    all" selects only addresses of rows on the page, and never the user's
    own address, compared in lower case. *)
Theorem one_way_selection_stays_on_the_page (accounts : list AccountId)
  (a : AccountId) (current : list AccountId) (st : PageState Profile) :
  (forall x, In x (toggleSelect a current)
             <-> (x <> a /\ In x current) \/ (x = a /\ ~ In a current))
  /\ (NoDup current -> NoDup (toggleSelect a current))
  /\ (~ In a current -> toggleSelect a (toggleSelect a current) = current)
  /\ incl (toggleSelectAll accounts st) (map (@address Profile) (profiles st))
  /\ (forall account rest x,
        accounts = account :: rest ->
        In x (toggleSelectAll accounts st) ->
        toLowerCase x <> toLowerCase account).
Proof.
  assert (forall l : list AccountId,
            ~ In a l -> filter (fun addr => negb (String.eqb addr a)) l = l)
    as Hkeep.
  { induction l as [| y l IH]; intros Hn; [reflexivity |].
    cbn [filter]. destruct (String.eqb_spec y a) as [-> | Hne].
    - exfalso. apply Hn. now left.
    - cbn [negb]. rewrite IH; [reflexivity |]. intros H. apply Hn. now right. }
  split; [| split; [| split; [| split]]].
  - intros x. unfold toggleSelect.
    destruct (includes current a) eqn:E.
    + apply includes_In in E. rewrite filter_In, negb_true_iff, String.eqb_neq.
      tauto.
    + assert (~ In a current) as Hn.
      { intros H. apply includes_In in H. congruence. }
      rewrite in_app_iff. cbn [In].
      destruct (String.eqb_spec x a) as [-> | Hne]; intuition congruence.
  - intros Hnd. unfold toggleSelect. destruct (includes current a) eqn:E.
    + now apply NoDup_filter.
    + assert (~ In a current) as Hn.
      { intros H. apply includes_In in H. congruence. }
      apply NoDup_app; [exact Hnd | repeat constructor; intros [] |].
      intros x Hx [<- | []]. exact (Hn Hx).
  - intros Hn. unfold toggleSelect.
    assert (includes current a = false) as ->.
    { destruct (includes current a) eqn:E; [| reflexivity].
      apply includes_In in E. contradiction. }
    assert (includes (current ++ [a]) a = true) as ->.
    { apply includes_In, in_app_iff. right. now left. }
    rewrite filter_app, Hkeep by exact Hn. cbn [filter].
    rewrite String.eqb_refl. cbn [negb]. apply app_nil_r.
  - unfold toggleSelectAll.
    destruct (List.length (selectedProfiles st) =? List.length (profiles st))%nat;
      [intros x [] |].
    intros x Hx. apply in_map_iff in Hx. destruct Hx as (r & <- & Hr).
    apply filter_In in Hr. apply in_map. tauto.
  - intros account rest x -> Hx. unfold toggleSelectAll in Hx.
    destruct (List.length (selectedProfiles st) =? List.length (profiles st))%nat;
      [destruct Hx |].
    apply in_map_iff in Hx. destruct Hx as (r & <- & Hr).
    apply filter_In in Hr. destruct Hr as [_ Hr].
    apply negb_true_iff, String.eqb_neq in Hr. congruence.
Qed.

End OneWaySelection.
(** ** The recommendation cards *)

Section CardHandlers.
Import JS Ledger Wallet Recommendations.
Local Open Scope string_scope.

Variable Profile : Type.
Variable c : option PublicClient.
Variable p : Provider.

Lemma read_isFollowing (account a : AccountId) (w : World) :
  read (LSP26.isFollowing c account a) w
  = (w, Ok (Spec.reportedFollowing c account a)).
Proof.
  unfold Spec.reportedFollowing.
  destruct (isFollowing_total c account a) as (r & -> & _). reflexivity.
Qed.

Lemma foldM_keepUnfollowed (account : AccountId) (l acc : list AccountId)
  (w : World) :
  foldM (keepUnfollowed c account) l acc w
  = (w, Ok (acc ++ filter (fun a => negb (Spec.reportedFollowing c account a))
                          l)%list).
Proof.
  revert acc. induction l as [| a l IH]; intros acc.
  - cbn. now rewrite app_nil_r.
  - cbn [foldM filter]. unfold bindM at 1. unfold keepUnfollowed at 1.
    unfold bindM at 1. rewrite read_isFollowing.
    destruct (Spec.reportedFollowing c account a); cbn [negb retM].
    + apply IH.
    + rewrite IH, <- app_assoc. reflexivity.
Qed.

(** X21: [handleFollow] never throws.  The card goes away exactly when the
    ledger already reports the account as followed or the wallet accepts
    the follow; in the first case nothing is handed to the wallet, and
    otherwise the one transaction accepted, if any, is the follow of that
    account.  No card of the account is left once it goes away. *)
Theorem handleFollow_removes_the_card_when_followed
  (accounts : list AccountId) (account a : AccountId)
  (recommendations : list (Card Profile)) (w : World) :
  Dashboard.firstAccount accounts = Some account ->
  let run := handleFollow c p true accounts a recommendations w in
  let reported := Spec.reportedFollowing c account a in
  let accepted :=
    match snd (LSP26.follow p a
                 (fst (toast (Loading ("Following " ++ a ++ "...")) w))) with
    | Ok _ => true
    | Throw _ => false
    end in
  snd run = Ok (if reported || accepted then handleSkip a recommendations
                else recommendations)
  /\ sent (fst run)
     = (sent w ++ if negb reported && accepted then [Follow a] else [])%list
  /\ (reported = true -> attempts (fst run) = attempts w)
  /\ ~ In a (map (fun rec => address (card rec))
                 (handleSkip a recommendations)).
Proof.
  intros Hacc run reported accepted.
  assert (~ In a (map (fun rec : Card Profile => address (card rec))
                      (handleSkip a recommendations))) as Hgone.
  { intros Hin. apply in_map_iff in Hin. destruct Hin as (rec & Ha & Hin).
    apply filter_In in Hin. destruct Hin as [_ Hne].
    rewrite Ha, String.eqb_refl in Hne. discriminate. }
  set (wl := fst (toast (Loading ("Following " ++ a ++ "...")) w)) in *.
  assert (run
          = if reported
            then (fst (toast (Success "You're already following this profile")
                             wl), Ok (handleSkip a recommendations))
            else match LSP26.follow p a wl with
                 | (w1, Ok _) =>
                   (fst (toast (Success "Followed successfully!") w1),
                    Ok (handleSkip a recommendations))
                 | (w1, Throw _) =>
                   (fst (toast (Failure "Failed to follow profile.")
                               (fst (console_error "Error following:" w1))),
                    Ok recommendations)
                 end) as Hrun.
  { subst run. unfold handleFollow. rewrite Hacc.
    unfold try_catchM. unfold bindM at 1. cbn [toast].
    unfold bindM at 1. rewrite read_isFollowing. fold reported.
    destruct reported; [reflexivity |].
    unfold bindM. subst wl. cbn [toast fst].
    match goal with
    | |- context [LSP26.follow p a ?w0] =>
      destruct (LSP26.follow p a w0) as [w1 [b | e]]
    end; reflexivity. }
  rewrite Hrun. clear Hrun.
  destruct reported eqn:Hrep.
  - subst wl. cbn. rewrite app_nil_r. auto.
  - subst accepted.
    destruct (single_outcome p FollowerManagement.Following a wl)
      as (_ & [(Hr & Hs) | ((e & Hr) & Hs)]);
      change (FollowerManagement.single p FollowerManagement.Following a wl)
        with (LSP26.follow p a wl) in *;
      destruct (LSP26.follow p a wl) as [w1 r1]; cbn [fst snd] in *; subst r1;
      cbn; rewrite Hs; subst wl; cbn; rewrite ?app_nil_r;
      (split; [reflexivity |]); (split; [reflexivity |]);
      (split; [discriminate | exact Hgone]).
Qed.

(** X22: [handleBulkFollow] never throws.  It asks the ledger about every
    ticked card and submits only the accounts not reported as followed, in
    one batch that holds the first 50 of them.  When the batched call
    returns, every ticked card is removed and the toast counts all the
    accounts that were to be followed, also when they were more than 50;
    when it throws, the cards stay.  When every ticked account is already
    followed nothing is handed to the wallet and the ticked cards are
    removed. *)
Theorem handleBulkFollow_outcome
  (accounts : list AccountId) (account : AccountId)
  (recommendations : list (Card Profile)) (w : World) :
  Dashboard.firstAccount accounts = Some account ->
  let selected := selectedProfilesOf recommendations in
  let valid := filter (fun a => negb (Spec.reportedFollowing c account a))
                      selected in
  let remaining :=
    filter (fun rec => negb (includes selected (address (card rec))))
           recommendations in
  let loadingToast :=
    Loading ("Following " ++ show_nat (List.length selected) ++ " profiles...") in
  let run := handleBulkFollow c p true accounts recommendations w in
  selected <> [] ->
  (valid = [] ->
   snd run = Ok remaining
   /\ attempts (fst run) = attempts w
   /\ toasts (fst run)
      = (toasts w ++ [loadingToast;
                      Success "All selected profiles are already being followed"])%list)
  /\ (valid <> [] ->
      match snd (LSP26.followMany p valid (fst (toast loadingToast w))) with
      | Ok _ =>
        snd run = Ok remaining
        /\ sent (fst run) = (sent w ++ [FollowBatch (firstn 50 valid)])%list
        /\ toasts (fst run)
           = (toasts w ++ [loadingToast;
                           Success ("Successfully followed "
                                    ++ show_nat (List.length valid)
                                    ++ " profiles!")])%list
      | Throw _ =>
        snd run = Ok recommendations
        /\ sent (fst run) = sent w
        /\ toasts (fst run)
           = (toasts w ++ [loadingToast;
                           Failure "Failed to follow profiles. Please try again."])%list
      end).
Proof.
  intros Hacc selected valid remaining loadingToast run Hsel.
  assert ((List.length selected =? 0)%nat = false) as E0.
  { destruct selected; [congruence | reflexivity]. }
  set (wl := fst (toast loadingToast w)).
  assert (run
          = try_catchM
              (fun w1 =>
                 if (List.length valid =? 0)%nat
                 then (fst (toast (Success "All selected profiles are already being followed") w1),
                       Ok remaining)
                 else bindM (LSP26.followMany p valid)
                        (fun _ =>
                           bindM (toast (Success ("Successfully followed "
                                                  ++ show_nat (List.length valid)
                                                  ++ " profiles!")))
                                 (fun _ => retM remaining)) w1)
              (fun _ =>
                 bindM (console_error "Error bulk following:")
                   (fun _ =>
                      bindM (toast (Failure "Failed to follow profiles. Please try again."))
                        (fun _ => retM recommendations)))
              wl) as Hrun.
  { subst run. unfold handleBulkFollow. rewrite Hacc. fold selected.
    rewrite E0. unfold try_catchM. unfold bindM at 1. cbn [toast].
    unfold bindM at 1. rewrite foldM_keepUnfollowed. cbn [app].
    fold valid. fold remaining. subst wl. cbn [toast fst].
    destruct (List.length valid =? 0)%nat; reflexivity. }
  rewrite Hrun. clear Hrun. split.
  - intros Hv. rewrite Hv. cbn. rewrite <- app_assoc. auto.
  - intros Hv.
    assert ((List.length valid =? 0)%nat = false) as ->.
    { destruct valid; [congruence | reflexivity]. }
    destruct (many_outcome p FollowerManagement.Following wl Hv)
      as (_ & Ht & Hs).
    change (FollowerManagement.many p FollowerManagement.Following valid wl)
      with (LSP26.followMany p valid wl) in *.
    cbn [Spec.batchOf] in Hs.
    unfold try_catchM, bindM.
    destruct (LSP26.followMany p valid wl) as [wb [b | e]];
      cbn [fst snd] in *; cbn; rewrite Ht, Hs; subst wl; cbn;
      rewrite <- ?app_assoc; auto.
Qed.

End CardHandlers.

Section CardHandlersWitness.
Import JS Ledger Wallet Recommendations Scenario.
Local Open Scope string_scope.

Lemma handleFollow_removes_the_card_when_followed_witness :
  snd (handleFollow (Some (ledgerClient noFollowers)) accepting true ["0xAa"]
                    "0xB1" [cardOf "0xB1"; cardOf "0xd1"] emptyWorld)
  = Ok [cardOf "0xd1"].
Proof.
  destruct (@handleFollow_removes_the_card_when_followed string
              (Some (ledgerClient noFollowers)) accepting ["0xAa"] "0xAa"
              "0xB1" [cardOf "0xB1"; cardOf "0xd1"] emptyWorld eq_refl)
    as (H & _).
  exact H.
Defined.

Lemma handleBulkFollow_outcome_witness :
  snd (handleBulkFollow (Some (ledgerClient noFollowers)) accepting true
                        ["0xAa"] sixtyCards emptyWorld)
  = Ok []
  /\ sent (fst (handleBulkFollow (Some (ledgerClient noFollowers)) accepting
                                 true ["0xAa"] sixtyCards emptyWorld))
     = [FollowBatch (firstn 50 sixty)]
  /\ toasts (fst (handleBulkFollow (Some (ledgerClient noFollowers)) accepting
                                   true ["0xAa"] sixtyCards emptyWorld))
     = [Loading "Following 60 profiles...";
        Success "Successfully followed 60 profiles!"].
Proof.
  destruct (@handleBulkFollow_outcome string
              (Some (ledgerClient noFollowers)) accepting ["0xAa"] "0xAa"
              sixtyCards emptyWorld eq_refl) as [_ H].
  - vm_compute. discriminate.
  - apply H. vm_compute. discriminate.
Defined.

End CardHandlersWitness.

Section CardSelection.
Import JS Recommendations.
Local Open Scope string_scope.

Variable Profile : Type.

(** X23: Ticking a card twice gives the same selection back, and ticking a
    card changes neither the list of addresses nor the selection of
    another address.  Skipping an account takes its cards out of the
    selection and out of the list: a card is in the list after the skip
    exactly when it was there before and is not a card of that account.
    The other cards stay as they are and in their order: the skip goes
    through the list card by card, and a list without a card of the
    account comes back unchanged.  Skipping again changes nothing. *)
Theorem card_selection_round_trip (a : AccountId)
  (recommendations : list (Card Profile)) :
  selectedProfilesOf (toggleProfileSelection a
                        (toggleProfileSelection a recommendations))
  = selectedProfilesOf recommendations
  /\ map (fun rec => address (card rec))
         (toggleProfileSelection a recommendations)
     = map (fun rec => address (card rec)) recommendations
  /\ filter (fun x => negb (String.eqb x a))
            (selectedProfilesOf (toggleProfileSelection a recommendations))
     = filter (fun x => negb (String.eqb x a))
              (selectedProfilesOf recommendations)
  /\ selectedProfilesOf (handleSkip a recommendations)
     = filter (fun x => negb (String.eqb x a))
              (selectedProfilesOf recommendations)
  /\ handleSkip a (handleSkip a recommendations) = handleSkip a recommendations
  /\ (forall rec,
        In rec (handleSkip a recommendations)
        <-> In rec recommendations /\ address (card rec) <> a)
  /\ (forall before after : list (Card Profile),
        handleSkip a (before ++ after)
        = (handleSkip a before ++ handleSkip a after)%list)
  /\ (forall rec : Card Profile,
        handleSkip a [rec]
        = if String.eqb (address (card rec)) a then [] else [rec])
  /\ ((forall rec, In rec recommendations -> address (card rec) <> a) ->
      handleSkip a recommendations = recommendations).
Proof.
  unfold selectedProfilesOf, toggleProfileSelection, handleSkip.
  split; [| split; [| split; [| split; [| split; [| split; [| split;
    [| split]]]]]]].
  - induction recommendations as [| r l IH]; [reflexivity |].
    cbn [map filter].
    destruct (String.eqb (address (card r)) a) eqn:E;
      cbn [card isSelected]; rewrite E; cbn [card isSelected].
    + destruct r as [rc [[|] |]]; cbn [truthy negb isSelected card map];
        now rewrite IH.
    + destruct (truthy (isSelected r)); cbn [map]; now rewrite IH.
  - induction recommendations as [| r l IH]; [reflexivity |].
    cbn [map]. rewrite IH.
    destruct (String.eqb (address (card r)) a); reflexivity.
  - induction recommendations as [| r l IH]; [reflexivity |].
    cbn [map filter].
    destruct (String.eqb (address (card r)) a) eqn:E.
    + cbn [isSelected card].
      destruct (truthy (Some (negb (truthy (isSelected r)))));
        destruct (truthy (isSelected r)); cbn [map filter card];
        rewrite ?E; cbn [negb]; exact IH.
    + destruct (truthy (isSelected r)); cbn [map filter]; rewrite ?E;
        cbn [negb]; now rewrite IH.
  - induction recommendations as [| r l IH]; [reflexivity |].
    cbn [filter].
    destruct (String.eqb (address (card r)) a) eqn:E; cbn [negb filter].
    + destruct (truthy (isSelected r)); cbn [map filter]; rewrite ?E;
        cbn [negb]; exact IH.
    + destruct (truthy (isSelected r)); cbn [map filter]; rewrite ?E;
        cbn [negb]; now rewrite IH.
  - induction recommendations as [| r l IH]; [reflexivity |].
    cbn [filter].
    destruct (String.eqb (address (card r)) a) eqn:E; cbn [negb filter];
      rewrite ?E; cbn [negb]; now rewrite IH.
  - intros rec. rewrite filter_In, negb_true_iff, String.eqb_neq. tauto.
  - intros before after. apply filter_app.
  - intros rec. cbn [filter].
    destruct (String.eqb (address (card rec)) a); reflexivity.
  - intros Hnone. induction recommendations as [| r l IH]; [reflexivity |].
    cbn [filter].
    assert (String.eqb (address (card r)) a = false) as E
      by (apply String.eqb_neq, Hnone; now left).
    rewrite E. cbn [negb]. f_equal. apply IH.
    intros rec Hrec. apply Hnone. now right.
Qed.

End CardSelection.
(** ** The bulk follow of the followers page *)

Section FollowersBulk.
Import JS Wallet Followers.
Local Open Scope string_scope.

Variable Profile : Type.
Variable p : Provider.

(** The rows once the accounts of [l] are followed. *)
Let mark (l : list AccountId) (f : FollowerData Profile) : FollowerData Profile :=
  if includes l (address f) then followed f else f.

Lemma mark_cons (a : AccountId) (l : list AccountId)
  (fs : list (FollowerData Profile)) :
  map (mark l)
      (map (fun follower => if String.eqb (address follower) a
                            then followed follower else follower) fs)
  = map (mark (a :: l)) fs.
Proof.
  rewrite map_map. apply map_ext. intros f. unfold mark, includes.
  cbn [existsb]. destruct (String.eqb (address f) a); cbn [orb address followed].
  - destruct (existsb (String.eqb (address f)) l); reflexivity.
  - reflexivity.
Qed.

Lemma mark_nil (fs : list (FollowerData Profile)) : map (mark []) fs = fs.
Proof. rewrite <- (map_id fs) at 2. apply map_ext. reflexivity. Qed.

Lemma foldM_followOne_cons (a : AccountId) (l : list AccountId) (k : nat)
  (fs : list (FollowerData Profile)) (w : World) :
  foldM (followOne p) (a :: l) (k, fs) w
  = match LSP26.follow p a w with
    | (w1, Ok _) =>
      foldM (followOne p) l
            (S k, map (fun follower => if String.eqb (address follower) a
                                       then followed follower else follower) fs)
            w1
    | (w1, Throw _) =>
      foldM (followOne p) l (k, fs)
            (fst (console_error ("Failed to follow " ++ a ++ ":") w1))
    end.
Proof.
  cbn [foldM]. unfold bindM at 1. unfold followOne at 1.
  unfold try_catchM, bindM.
  destruct (LSP26.follow p a w) as [w1 [b | e]]; reflexivity.
Qed.

(** The fallback loop: it goes through every selected account, counts the
    follows the wallet accepted and marks their rows. *)
Lemma foldM_followOne (l : list AccountId) (k : nat)
  (fs : list (FollowerData Profile)) (w : World) :
  exists accepted,
    snd (foldM (followOne p) l (k, fs) w)
    = Ok (k + List.length accepted, map (mark accepted) fs)
    /\ sent (fst (foldM (followOne p) l (k, fs) w))
       = (sent w ++ map Follow accepted)%list
    /\ toasts (fst (foldM (followOne p) l (k, fs) w)) = toasts w
    /\ incl accepted l
    /\ List.length accepted <= List.length l.
Proof.
  revert k fs w. induction l as [| a l IH]; intros k fs w.
  - exists []. cbn. rewrite app_nil_r, Nat.add_0_r, mark_nil.
    repeat split; auto. apply incl_refl.
  - rewrite foldM_followOne_cons.
    destruct (single_outcome p FollowerManagement.Following a w)
      as (Ht & [(Hr & Hs) | ((e & Hr) & Hs)]);
      change (FollowerManagement.single p FollowerManagement.Following a w)
        with (LSP26.follow p a w) in *;
      destruct (LSP26.follow p a w) as [w1 r1]; cbn [fst snd] in *; subst r1.
    + destruct (IH (S k)
                   (map (fun follower => if String.eqb (address follower) a
                                         then followed follower else follower)
                        fs) w1)
        as (acc & Hres & Hsent & Htoasts & Hincl & Hlen).
      exists (a :: acc). rewrite Hres, Hsent, Htoasts, Hs, Ht, mark_cons.
      cbn [List.length map Spec.txOf]. rewrite <- app_assoc.
      split; [f_equal; f_equal; lia |]. split; [reflexivity |].
      split; [reflexivity |]. split; [| lia].
      intros x [<- | Hx]; [now left | right; auto].
    + destruct (IH k fs (fst (console_error ("Failed to follow " ++ a ++ ":") w1)))
        as (acc & Hres & Hsent & Htoasts & Hincl & Hlen).
      exists acc. rewrite Hres, Hsent, Htoasts. cbn [console_error fst sent toasts].
      rewrite Hs, Ht. repeat split; auto; [| cbn; lia].
      intros x Hx. right. auto.
Qed.

(** X24: When more than one account is selected and the batched call returns,
    the page reports all of them as followed, marks the row of every
    selected account and clears the selection, while the one transaction
    accepted holds the first 50 selected accounts only. *)
Theorem followers_page_reports_every_selected_account
  (accounts : list AccountId) (st : State Profile) (w0 wb : World) (b : bool) :
  let n := List.length (selectedProfiles st) in
  let loadingToast := Loading ("Following " ++ show_nat n ++ " profiles...") in
  Dashboard.firstAccount accounts <> None ->
  1 < n ->
  LSP26.followMany p (selectedProfiles st) (fst (toast loadingToast w0))
  = (wb, Ok b) ->
  handleFollowSelected p true accounts st w0
  = (fst (toast (Success ("Successfully followed " ++ show_nat n ++ " profiles"))
                wb),
     Ok {| followers := map (mark (selectedProfiles st)) (followers st);
           selectedProfiles := [] |})
  /\ sent wb = (sent w0 ++ [FollowBatch (firstn 50 (selectedProfiles st))])%list.
Proof.
  intros n loadingToast Hacc Hn Hmany.
  assert (selectedProfiles st <> []) as Hne.
  { subst n. destruct (selectedProfiles st); [cbn in Hn; lia | discriminate]. }
  split.
  - unfold handleFollowSelected.
    destruct (Dashboard.firstAccount accounts); [| congruence].
    fold n.
    replace (n =? 0)%nat with false by (symmetry; apply Nat.eqb_neq; lia).
    replace (1 <? n)%nat with true by (symmetry; apply Nat.ltb_lt; lia).
    unfold try_catchM at 1. unfold bindM at 1. cbn [toast].
    unfold try_catchM at 1. unfold bindM at 1.
    subst loadingToast. cbn [fst toast] in Hmany. rewrite Hmany.
    reflexivity.
  - destruct (many_outcome p FollowerManagement.Following
                (fst (toast loadingToast w0)) Hne) as (_ & _ & Hs).
    change (FollowerManagement.many p FollowerManagement.Following
              (selectedProfiles st) (fst (toast loadingToast w0)))
      with (LSP26.followMany p (selectedProfiles st)
              (fst (toast loadingToast w0))) in Hs.
    rewrite Hmany in Hs. exact Hs.
Qed.

(** X25: When the batched call throws, the page follows the selected accounts
    one by one.  It never throws; the follows accepted are those of a
    sub-list of the selection, and exactly the rows of these accounts are
    marked.  With at least one follow accepted the toast gives their number
    against the number selected and the whole selection is cleared, the
    accounts that failed included; with none, the selection stays. *)
Theorem followers_page_falls_back_one_by_one
  (accounts : list AccountId) (st : State Profile) (w0 wb : World) (e : string) :
  let n := List.length (selectedProfiles st) in
  let loadingToast := Loading ("Following " ++ show_nat n ++ " profiles...") in
  Dashboard.firstAccount accounts <> None ->
  1 < n ->
  LSP26.followMany p (selectedProfiles st) (fst (toast loadingToast w0))
  = (wb, Throw e) ->
  exists accepted w,
    handleFollowSelected p true accounts st w0
    = (w, Ok {| followers := map (mark accepted) (followers st);
                selectedProfiles := if (0 <? List.length accepted)%nat then []
                                    else selectedProfiles st |})
    /\ incl accepted (selectedProfiles st)
    /\ List.length accepted <= n
    /\ sent w = (sent w0 ++ map Follow accepted)%list
    /\ toasts w
       = (toasts w0
          ++ [loadingToast;
              if (0 <? List.length accepted)%nat
              then Success ("Followed " ++ show_nat (List.length accepted) ++ "/"
                            ++ show_nat n ++ " profiles")
              else Failure "Follow operation failed"])%list.
Proof.
  intros n loadingToast Hacc Hn Hmany.
  assert (selectedProfiles st <> []) as Hne.
  { subst n. destruct (selectedProfiles st); [cbn in Hn; lia | discriminate]. }
  destruct (many_outcome p FollowerManagement.Following
              (fst (toast loadingToast w0)) Hne) as (_ & Htb & Hsb).
  change (FollowerManagement.many p FollowerManagement.Following
            (selectedProfiles st) (fst (toast loadingToast w0)))
    with (LSP26.followMany p (selectedProfiles st)
            (fst (toast loadingToast w0))) in *.
  rewrite Hmany in Htb, Hsb. cbn [fst snd toast toasts sent] in Htb, Hsb.
  set (wc := fst (console_error "Batch follow failed:" wb)).
  destruct (foldM_followOne (selectedProfiles st) 0 (followers st) wc)
    as (accepted & Hres & Hsent & Htoasts & Hincl & Hlen).
  destruct (foldM (followOne p) (selectedProfiles st) (0, followers st) wc)
    as [wf rf] eqn:Hfold.
  cbn [fst snd] in *. subst rf. cbn [Nat.add] in *.
  exists accepted.
  exists (fst (toast (if (0 <? List.length accepted)%nat
                      then Success ("Followed " ++ show_nat (List.length accepted)
                                    ++ "/" ++ show_nat n ++ " profiles")
                      else Failure "Follow operation failed") wf)).
  split; [| split; [exact Hincl | split; [exact Hlen | split]]].
  - unfold handleFollowSelected.
    destruct (Dashboard.firstAccount accounts); [| congruence].
    fold n.
    replace (n =? 0)%nat with false by (symmetry; apply Nat.eqb_neq; lia).
    replace (1 <? n)%nat with true by (symmetry; apply Nat.ltb_lt; lia).
    unfold try_catchM at 1. unfold bindM at 1. cbn [toast].
    unfold try_catchM at 1. unfold bindM at 1.
    subst loadingToast. cbn [fst toast] in Hmany. rewrite Hmany.
    unfold bindM at 1. cbn [console_error]. unfold bindM at 1.
    subst wc. cbn [console_error fst] in Hfold. rewrite Hfold.
    destruct (0 <? List.length accepted)%nat; reflexivity.
  - cbn [toast fst sent]. rewrite Hsent. subst wc. cbn [console_error fst sent].
    now rewrite Hsb.
  - cbn [toast fst toasts]. rewrite Htoasts. subst wc.
    cbn [console_error fst toasts]. rewrite Htb, <- app_assoc. reflexivity.
Qed.

End FollowersBulk.

Section FollowersBulkWitness.
Import JS Wallet Followers Scenario.
Local Open Scope string_scope.

Lemma followers_page_reports_every_selected_account_witness :
  toasts (fst (handleFollowSelected accepting true ["0xAa"] sixtySelected
                                    emptyWorld))
  = [Loading "Following 60 profiles...";
     Success "Successfully followed 60 profiles"].
Proof.
  destruct (@followers_page_reports_every_selected_account string accepting
              ["0xAa"] sixtySelected emptyWorld
              {| attempts := [FollowBatch (firstn 50 sixty)];
                 sent := [FollowBatch (firstn 50 sixty)];
                 console := [Warn LSP26.capWarning];
                 toasts := [Loading "Following 60 profiles..."] |}
              true) as [Hrun _].
  - vm_compute. discriminate.
  - vm_compute. lia.
  - vm_compute. reflexivity.
  - rewrite Hrun. vm_compute. reflexivity.
Defined.

Lemma followers_page_falls_back_one_by_one_witness :
  exists accepted w,
    handleFollowSelected batchAndYFail true ["0xAa"]
      {| followers := map row ["0xX"; "0xY"; "0xZ"];
         selectedProfiles := ["0xX"; "0xY"; "0xZ"] |} emptyWorld
    = (w, Ok {| followers :=
                  map (fun f => if includes accepted (address f)
                                then followed f else f)
                      (map row ["0xX"; "0xY"; "0xZ"]);
                selectedProfiles := if (0 <? List.length accepted)%nat then []
                                    else ["0xX"; "0xY"; "0xZ"] |})
    /\ sent w = map Follow accepted.
Proof.
  destruct (@followers_page_falls_back_one_by_one string batchAndYFail
              ["0xAa"]
              {| followers := map row ["0xX"; "0xY"; "0xZ"];
                 selectedProfiles := ["0xX"; "0xY"; "0xZ"] |}
              emptyWorld
              {| attempts := [FollowBatch ["0xX"; "0xY"; "0xZ"]];
                 sent := [];
                 console := [Error "Error batch following:"];
                 toasts := [Loading "Following 3 profiles..."] |}
              "execution reverted")
    as (accepted & w & Hrun & _ & _ & Hsent & _).
  - vm_compute. discriminate.
  - vm_compute. lia.
  - vm_compute. reflexivity.
  - exists accepted, w. split; [exact Hrun | exact Hsent].
Defined.

End FollowersBulkWitness.
(** ** The mutual connections page *)

Section MutualPage.
Import JS Ledger.
Local Open Scope string_scope.

Lemma lower_ascii_idem (ch : ascii) : lower_ascii (lower_ascii ch) = lower_ascii ch.
Proof.
  destruct ch as [[|] [|] [|] [|] [|] [|] [|] [|]]; vm_compute; reflexivity.
Qed.

Lemma toLowerCase_idem (s : string) : toLowerCase (toLowerCase s) = toLowerCase s.
Proof.
  induction s as [| ch s IH]; [reflexivity |].
  cbn [toLowerCase]. now rewrite lower_ascii_idem, IH.
Qed.

Variable Profile : Type.
Variable c : option PublicClient.
Variable getProfileData : AccountId -> Result (option Profile).

(** X26: The mutual connections page lists the snapshot's [mutualConnections]:
    each address once and in lower case, every one of them both a follower
    and a followed account.  Their number is the [mutualCount] the
    dashboard shows.  The first page holds the first 25 rows, and a fetch
    of a later page reads nothing and only records the page number. *)
Theorem mutual_page_lists_the_dashboard_count (accounts : list AccountId)
  (account : AccountId) (st0 : Dashboard.PageState Profile) :
  Dashboard.firstAccount accounts = Some account ->
  let fetch := Dashboard.fetchMutualConnections c getProfileData true accounts in
  let st1 := fetch 0 st0 in
  let listed := map (@Dashboard.address Profile) (Dashboard.allProfilesData st1) in
  exists r s,
    LSP26.getMutualConnections c account = Ok r
    /\ Dashboard.fetchStats c true accounts = Dashboard.SetStats s
    /\ listed = LSP26.mutualConnections r
    /\ Dashboard.totalResults st1 = Dashboard.mutualCount s
    /\ NoDup listed
    /\ Forall (fun a => toLowerCase a = a
                        /\ In a (map toLowerCase (LSP26.allFollowers r))
                        /\ In a (map toLowerCase (LSP26.allFollowing r)))
              listed
    /\ Dashboard.profiles st1 = firstn 25 (Dashboard.allProfilesData st1)
    /\ (Dashboard.hasMore st1 = true <-> 25 < Dashboard.mutualCount s)
    /\ (forall k,
          fetch (S k) st1
          = {| Dashboard.profiles := Dashboard.profiles st1;
               Dashboard.allProfilesData := Dashboard.allProfilesData st1;
               Dashboard.hasMore := Dashboard.hasMore st1;
               Dashboard.totalResults := Dashboard.totalResults st1;
               Dashboard.page := S k;
               Dashboard.pageError := None |}).
Proof.
  intros Hacc fetch st1 listed.
  destruct (getMutualConnections_shape c account) as (r & Hr & Hs).
  assert (LSP26.mutualCount r = List.length (LSP26.mutualConnections r)) as Hc.
  { destruct Hs as [-> | (_ & _ & _ & Hc)]; [reflexivity | exact Hc]. }
  assert (NoDup (LSP26.mutualConnections r)) as Hnd.
  { destruct Hs as [-> | (_ & _ & Hm & _)]; [constructor |].
    rewrite Hm. apply Set_new_NoDup. }
  exists r. eexists. split; [exact Hr |].
  split; [unfold Dashboard.fetchStats; rewrite Hacc, Hr; reflexivity |].
  cbn [Dashboard.mutualCount].
  assert (st1
          = let all := map (Dashboard.profileRow getProfileData)
                           (LSP26.mutualConnections r) in
            {| Dashboard.profiles := slice 0 25 all;
               Dashboard.allProfilesData := all;
               Dashboard.hasMore := (25 <? List.length all)%nat;
               Dashboard.totalResults := List.length all;
               Dashboard.page := 0;
               Dashboard.pageError := None |}) as H1.
  { subst st1 fetch. unfold Dashboard.fetchMutualConnections.
    rewrite Hacc, Hr. reflexivity. }
  assert (listed = LSP26.mutualConnections r) as Hl.
  { subst listed. rewrite H1. cbn [Dashboard.allProfilesData].
    rewrite map_map. apply map_id. }
  split; [exact Hl |]. rewrite Hl.
  split; [rewrite H1; cbn; now rewrite length_map |].
  split; [exact Hnd |]. split.
  { apply Forall_forall. intros a Ha.
    pose proof (proj1 (@mutualConnections_In c account r a Hr) Ha) as [Hf Hg].
    split; [| split; assumption].
    apply in_map_iff in Hf. destruct Hf as (b & <- & _).
    apply toLowerCase_idem. }
  split; [rewrite H1; reflexivity |].
  split.
  { rewrite H1. cbn [Dashboard.hasMore]. rewrite length_map, Hc.
    apply Nat.ltb_lt. }
  intros k. subst fetch. unfold Dashboard.fetchMutualConnections.
  rewrite Hacc. reflexivity.
Qed.

End MutualPage.

Section MutualPageWitness.
Import JS Ledger Scenario.
Local Open Scope string_scope.

Lemma mutual_page_lists_the_dashboard_count_witness :
  map (@Dashboard.address string)
      (Dashboard.allProfilesData
         (Dashboard.fetchMutualConnections (Some (ledgerClient abcde)) noProfile
            true ["0xAa"] 0
            {| Dashboard.profiles := []; Dashboard.allProfilesData := [];
               Dashboard.hasMore := true; Dashboard.totalResults := 0;
               Dashboard.page := 0; Dashboard.pageError := None |}))
  = ["0xcc"; "0xdd"].
Proof.
  destruct (@mutual_page_lists_the_dashboard_count string
              (Some (ledgerClient abcde)) noProfile ["0xAa"] "0xAa"
              {| Dashboard.profiles := []; Dashboard.allProfilesData := [];
                 Dashboard.hasMore := true; Dashboard.totalResults := 0;
                 Dashboard.page := 0; Dashboard.pageError := None |} eq_refl)
    as (r & s & Hr & _ & Hl & _).
  rewrite Hl. vm_compute in Hr. injection Hr as <-. reflexivity.
Defined.

End MutualPageWitness.

(** ** Image addresses *)

Section ImageUrls.
Import LSP3.
Local Open Scope string_scope.

Lemma startsWith_head (a : ascii) (p s : string) :
  startsWith s (String a p) = true -> exists r, s = String a r.
Proof.
  unfold startsWith. destruct s as [| b s]; cbn [String.prefix];
    [discriminate |].
  destruct (Ascii.ascii_dec a b) as [-> | _]; [eauto | discriminate].
Qed.

Lemma substring_all (s : string) : substring 0 (String.length s) s = s.
Proof. induction s as [| a s IH]; cbn; [reflexivity | now rewrite IH]. Qed.

(** X27: [formatIPFSUrl] turns an [ipfs://] address into the address of the
    same content on the first gateway, and leaves [http://], [https://]
    and [data:] addresses as they are.  What it returns never starts with
    [ipfs://], and formatting it again changes nothing. *)
Theorem formatIPFSUrl_resolves_ipfs_once (url hash : string) :
  formatIPFSUrl (formatIPFSUrl url) = formatIPFSUrl url
  /\ startsWith (formatIPFSUrl url) "ipfs://" = false
  /\ formatIPFSUrl ("ipfs://" ++ hash)
     = "https://api.universalprofile.cloud/ipfs/" ++ hash
  /\ (startsWith url "http://" = true \/ startsWith url "https://" = true
      \/ startsWith url "data:" = true ->
      formatIPFSUrl url = url).
Proof.
  assert (forall a p, startsWith url (String a p) = true ->
                      a <> "i"%char -> startsWith url "ipfs://" = false) as Hother.
  { intros a p Hp Ha. apply startsWith_head in Hp. destruct Hp as (r & ->).
    unfold startsWith. cbn [String.prefix].
    destruct (Ascii.ascii_dec "i" a) as [<- | _]; [congruence | reflexivity]. }
  split; [| split; [| split]].
  - unfold formatIPFSUrl.
    destruct (String.eqb url "") eqn:E0; [reflexivity |].
    destruct (startsWith url "http://" || startsWith url "https://") eqn:E1;
      [now rewrite E0, E1 |].
    destruct (startsWith url "data:") eqn:E2; [now rewrite E0, E1, E2 |].
    destruct (startsWith url "ipfs://") eqn:E3; [| now rewrite E0, E1, E2, E3].
    reflexivity.
  - unfold formatIPFSUrl.
    destruct (String.eqb url "") eqn:E0; [reflexivity |].
    destruct (startsWith url "http://" || startsWith url "https://") eqn:E1.
    { apply orb_true_iff in E1.
      destruct E1 as [E1 | E1]; apply (Hother _ _ E1); discriminate. }
    destruct (startsWith url "data:") eqn:E2.
    { apply (Hother _ _ E2). discriminate. }
    destruct (startsWith url "ipfs://") eqn:E3; [reflexivity | exact E3].
  - unfold formatIPFSUrl, replace, startsWith.
    destruct hash as [| a h]; cbn; [reflexivity |].
    now rewrite substring_all.
  - intros H. unfold formatIPFSUrl.
    destruct (String.eqb_spec url "") as [-> | _]; [reflexivity |].
    destruct H as [-> | [-> | ->]]; rewrite ?orb_true_r; try reflexivity.
    destruct (_ || _); reflexivity.
Qed.

End ImageUrls.
